(** * Behavioral-biometrics scoring pipeline

    A shallow embedding of the scoring pipeline of the repository:

    - [ml/preprocessing.py]  : [FeaturePreprocessor.process_features]
    - [ml/model.py]          : [BehavioralAuthNN], [BehavioralAnomalyDetector]
    - [ml/inference.py]      : [BehavioralInferenceEngine]

    Python and torch floating-point numbers are idealised as real numbers
    ([R]); Python [int]s are [Z]; dictionaries keyed by strings are
    [gmap string _]; a dictionary whose insertion order is observed is an
    association list.  A raised exception is a value of [result]. *)

From Stdlib Require Import Reals Lra Lia ZArith Zfloor.
From stdpp Require Import base option list gmap strings.

Local Open Scope R_scope.

(** ** Exceptions and the error monad *)

Inductive exn : Type :=
| IndexError          (* list index out of range *)
| KeyError            (* missing dictionary key *)
| ZeroDivisionError   (* float division by zero *)
| RuntimeError        (* torch: shapes cannot be multiplied, size mismatch *)
| ValueError          (* sklearn: wrong number of features; int(nan) *)
| TypeError           (* float() of a value that is no number *)
| OverflowError.      (* float() of an int beyond the doubles; int(inf) *)

Inductive result (A : Type) : Type :=
| Ok (a : A)
| Raise (e : exn).
Arguments Ok {A} a.
Arguments Raise {A} e.

Global Instance result_ret : MRet result := fun A a => Ok a.

Global Instance result_bind : MBind result := fun A B k c =>
  match c with
  | Ok a => k a
  | Raise e => Raise e
  end.

(** ** Python and numpy primitives *)

(** [l[i]] on a Python list. *)
Definition py_index {A : Type} (l : list A) (i : nat) : result A :=
  match l !! i with
  | Some a => Ok a
  | None => Raise IndexError
  end.

(** [d[k]] on a Python dict. *)
Definition py_getitem {A : Type} (d : gmap string A) (k : string) : result A :=
  match d !! k with
  | Some a => Ok a
  | None => Raise KeyError
  end.

(** [d.get(k, dflt)] on a Python dict. *)
Definition py_get {A : Type} (d : gmap string A) (k : string) (dflt : A) : A :=
  default dflt (d !! k).

(** [a / b] on floats. *)
Definition py_div (a b : R) : result R :=
  if Req_dec_T b 0 then Raise ZeroDivisionError else Ok (a / b).

(** [int(x)] on a float: truncation toward zero. *)
Definition py_int (x : R) : Z :=
  if Rle_dec 0 x then Zfloor x else Zceil x.

(** [round(x)]: nearest integer, ties to the even neighbour. *)
Definition py_round (x : R) : Z :=
  let f := Zfloor x in
  let d := x - IZR f in
  if Rlt_dec d (1 / 2) then f
  else if Rlt_dec (1 / 2) d then (f + 1)%Z
  else if Z.even f then f else (f + 1)%Z.

(** [round(x, 2)]. *)
Definition py_round2 (x : R) : R := IZR (py_round (x * 100)) / 100.

(** [np.clip(v, lo, hi)] = [minimum(maximum(v, lo), hi)]. *)
Definition np_clip (v lo hi : R) : R := Rmin (Rmax v lo) hi.

Definition Rsum (l : list R) : R := foldr Rplus 0 l.

Definition ZsumR (l : list Z) : R := foldr (fun z acc => IZR z + acc) 0 l.

(** [np.mean] of a list of integers. *)
Definition np_mean_int (l : list Z) : R := ZsumR l / INR (length l).

(** Element-wise operations on vectors (1-d arrays). *)
Fixpoint zip_with3 {A B C D : Type} (f : A -> B -> C -> D)
    (la : list A) (lb : list B) (lc : list C) : list D :=
  match la, lb, lc with
  | a :: la', b :: lb', c :: lc' => f a b c :: zip_with3 f la' lb' lc'
  | _, _, _ => []
  end.

Definition vec_add (u v : list R) : list R := zip_with Rplus u v.
Definition vec_sub (u v : list R) : list R := zip_with Rminus u v.
Definition vec_scale (c : R) (v : list R) : list R := map (Rmult c) v.
Definition dot (u v : list R) : R := Rsum (zip_with Rmult u v).

(** [np.linalg.norm] of a vector: the Euclidean norm. *)
Definition np_linalg_norm (v : list R) : R := sqrt (Rsum (map (fun x => x * x) v)).

(** [np.mean(vs, axis=0)]: the coordinate-wise mean of a non-empty list of
    vectors of one length. *)
Definition np_mean_axis0 (vs : list (list R)) : list R :=
  match vs with
  | [] => []
  | v :: vs' => vec_scale (/ INR (length vs)) (foldl vec_add v vs')
  end.

(** ** [FeaturePreprocessor] (ml/preprocessing.py) *)

Module FeaturePreprocessor.

Definition feature_mins : gmap string R :=
  {[ "typing_speed_wpm" := 10;
     "avg_key_hold_time_ms" := 20;
     "avg_transition_time_ms" := 20;
     "error_rate_percent" := 0;
     "activity_hour_preference" := 0 ]}.

Definition feature_maxs : gmap string R :=
  {[ "typing_speed_wpm" := 200;
     "avg_key_hold_time_ms" := 500;
     "avg_transition_time_ms" := 400;
     "error_rate_percent" := 50;
     "activity_hour_preference" := 23 ]}.

(** The list the [for] loop of [process_features] iterates over. *)
Definition feature_order : list string :=
  [ "typing_speed_wpm";
    "avg_key_hold_time_ms";
    "avg_transition_time_ms";
    "error_rate_percent";
    "activity_hour_preference" ].

(** One iteration of the loop body. *)
Definition process_one (features : gmap string R) (feature_name : string)
    : result R :=
  let value := py_get features feature_name 0 in
  lo ← py_getitem feature_mins feature_name;
  hi ← py_getitem feature_maxs feature_name;
  Ok (np_clip value lo hi).

Definition process_features (features : gmap string R) : result (list R) :=
  mapM (process_one features) feature_order.

End FeaturePreprocessor.

(** ** Derived features ([BehavioralInferenceEngine._add_derived_features]) *)

Definition _add_derived_features (features : list R) : result (list R) :=
  typing_speed ← py_index features 0;
  key_hold_time ← py_index features 1;
  transition_time ← py_index features 2;
  error_rate ← py_index features 3;
  speed_accuracy ← py_div typing_speed (error_rate + 1);
  rhythm_ratio ← py_div key_hold_time (transition_time + 1);
  Ok (features ++ [speed_accuracy; rhythm_ratio]).

(** ** Layers of [torch.nn] used by the models (evaluation mode)

    A tensor of shape [(1, n)] (a batch of one row) is the list of its [n]
    entries.  The shape a module was constructed with is kept next to its
    parameters, as torch keeps it in the tensors' metadata. *)

Definition relu (v : list R) : list R := map (Rmax 0) v.

Definition sigmoid (x : R) : R := 1 / (1 + exp (- x)).

(** [t.item()]: the value of a one-element tensor. *)
Definition item (t : list R) : result R :=
  match t with
  | [x] => Ok x
  | _ => Raise RuntimeError
  end.

Definition has_shape2 (w : list (list R)) (rows cols : nat) : bool :=
  (length w =? rows)%nat && forallb (fun row => (length row =? cols)%nat) w.

Module Linear.

Record t : Type := mk {
  in_features : nat;
  out_features : nat;
  weight : list (list R);   (* out_features rows of in_features entries *)
  bias : list R
}.

(** [nn.Linear(n_in, n_out)].  torch draws the initial entries at random;
    every model below is filled by [load_state_dict] before use, so the
    placeholder entries written here are never read. *)
Definition new (n_in n_out : nat) : t :=
  mk n_in n_out (replicate n_out (replicate n_in 0)) (replicate n_out 0).

(** [F.linear(x, weight, bias)]: [x @ weight.T + bias]; torch raises when
    the width of [x] is not [in_features]. *)
Definition forward (self : t) (x : list R) : result (list R) :=
  if (length x =? in_features self)%nat
  then Ok (zip_with (fun row b => dot row x + b) (weight self) (bias self))
  else Raise RuntimeError.

(** Gradient with respect to the input, given the gradient [g] with
    respect to the output: [g @ weight]. *)
Definition backward (self : t) (g : list R) : list R :=
  map (fun i => Rsum (zip_with (fun gj row => gj * default 0 (row !! i))
                        g (weight self)))
      (seq 0 (in_features self)).

(** Copying loaded tensors into the parameters: sizes must agree. *)
Definition load (self : t) (w : list (list R)) (b : list R) : result t :=
  if has_shape2 w (out_features self) (in_features self)
     && (length b =? out_features self)%nat
  then Ok (mk (in_features self) (out_features self) w b)
  else Raise RuntimeError.

End Linear.

Module BatchNorm1d.

Record t : Type := mk {
  num_features : nat;
  weight : list R;
  bias : list R;
  running_mean : list R;
  running_var : list R;
  eps : R
}.

(** [nn.BatchNorm1d(n)]. *)
Definition new (n : nat) : t :=
  mk n (replicate n 1) (replicate n 0) (replicate n 0) (replicate n 1)
     (1 / 100000).

Fixpoint normalize (e : R) (xs ms vs ws bs : list R) : list R :=
  match xs, ms, vs, ws, bs with
  | x :: xs', m :: ms', v :: vs', w :: ws', b :: bs' =>
      ((x - m) / sqrt (v + e) * w + b) :: normalize e xs' ms' vs' ws' bs'
  | _, _, _, _, _ => []
  end.

(** Evaluation mode: the running statistics are used. *)
Definition forward (self : t) (x : list R) : result (list R) :=
  if (length x =? num_features self)%nat
  then Ok (normalize (eps self) x (running_mean self) (running_var self)
             (weight self) (bias self))
  else Raise RuntimeError.

Definition backward (self : t) (g : list R) : list R :=
  zip_with3 (fun gi w v => gi * (w / sqrt (v + eps self)))
    g (weight self) (running_var self).

Definition load (self : t) (w b rm rv : list R) : result t :=
  if (length w =? num_features self)%nat
     && (length b =? num_features self)%nat
     && (length rm =? num_features self)%nat
     && (length rv =? num_features self)%nat
  then Ok (mk (num_features self) w b rm rv (eps self))
  else Raise RuntimeError.

End BatchNorm1d.

(** Gradient through [F.relu], given its input [pre]. *)
Definition relu_backward (pre g : list R) : list R :=
  zip_with (fun p gi => if Rlt_dec 0 p then gi else 0) pre g.

(** ** [BehavioralAuthNN] (ml/model.py) *)

Module BehavioralAuthNN.

Record t : Type := mk {
  fc1 : Linear.t;
  bn1 : BatchNorm1d.t;
  fc2 : Linear.t;
  bn2 : BatchNorm1d.t;
  fc3 : Linear.t;
  bn3 : BatchNorm1d.t;
  fc_out : Linear.t
}.

(** [__init__(input_dim, hidden_dims, dropout_rate)]; the dropout layers
    are the identity in evaluation mode and carry no parameter. *)
Definition new (input_dim : nat) (hidden_dims : nat * nat * nat) : t :=
  let '(h0, h1, h2) := hidden_dims in
  mk (Linear.new input_dim h0) (BatchNorm1d.new h0)
     (Linear.new h0 h1) (BatchNorm1d.new h1)
     (Linear.new h1 h2) (BatchNorm1d.new h2)
     (Linear.new h2 1).

(** The default arguments of [__init__]. *)
Definition default_input_dim : nat := 6.
Definition default_hidden_dims : nat * nat * nat := (128, 64, 32)%nat.

Definition forward (self : t) (x : list R) : result (list R) :=
  (* Layer 1 *)
  x ← Linear.forward (fc1 self) x;
  x ← BatchNorm1d.forward (bn1 self) x;
  let x := relu x in
  (* Layer 2 *)
  x ← Linear.forward (fc2 self) x;
  x ← BatchNorm1d.forward (bn2 self) x;
  let x := relu x in
  (* Layer 3 *)
  x ← Linear.forward (fc3 self) x;
  x ← BatchNorm1d.forward (bn3 self) x;
  let x := relu x in
  (* Output *)
  x ← Linear.forward (fc_out self) x;
  Ok (map sigmoid x).

(** What [output.backward()] leaves in [x.grad]: the gradient of the
    (one-element) output with respect to the input [x], by the chain rule
    through the layers of [forward] in reverse. *)
Definition input_grad (self : t) (x : list R) : result (list R) :=
  a1 ← Linear.forward (fc1 self) x;
  b1 ← BatchNorm1d.forward (bn1 self) a1;
  a2 ← Linear.forward (fc2 self) (relu b1);
  b2 ← BatchNorm1d.forward (bn2 self) a2;
  a3 ← Linear.forward (fc3 self) (relu b2);
  b3 ← BatchNorm1d.forward (bn3 self) a3;
  z ← Linear.forward (fc_out self) (relu b3);
  _ ← item z;
  let g := map (fun zi => sigmoid zi * (1 - sigmoid zi)) z in
  let g := Linear.backward (fc_out self) g in
  let g := BatchNorm1d.backward (bn3 self) (relu_backward b3 g) in
  let g := Linear.backward (fc3 self) g in
  let g := BatchNorm1d.backward (bn2 self) (relu_backward b2 g) in
  let g := Linear.backward (fc2 self) g in
  let g := BatchNorm1d.backward (bn1 self) (relu_backward b1 g) in
  Ok (Linear.backward (fc1 self) g).

(** The tensors of a saved [state_dict]. *)
Record state_dict : Type := mk_state_dict {
  fc1_weight : list (list R);  fc1_bias : list R;
  bn1_weight : list R;  bn1_bias : list R;
  bn1_running_mean : list R;  bn1_running_var : list R;
  fc2_weight : list (list R);  fc2_bias : list R;
  bn2_weight : list R;  bn2_bias : list R;
  bn2_running_mean : list R;  bn2_running_var : list R;
  fc3_weight : list (list R);  fc3_bias : list R;
  bn3_weight : list R;  bn3_bias : list R;
  bn3_running_mean : list R;  bn3_running_var : list R;
  fc_out_weight : list (list R);  fc_out_bias : list R
}.

(** [load_state_dict] (strict): a size mismatch raises. *)
Definition load_state_dict (self : t) (sd : state_dict) : result t :=
  l1 ← Linear.load (fc1 self) (fc1_weight sd) (fc1_bias sd);
  n1 ← BatchNorm1d.load (bn1 self) (bn1_weight sd) (bn1_bias sd)
         (bn1_running_mean sd) (bn1_running_var sd);
  l2 ← Linear.load (fc2 self) (fc2_weight sd) (fc2_bias sd);
  n2 ← BatchNorm1d.load (bn2 self) (bn2_weight sd) (bn2_bias sd)
         (bn2_running_mean sd) (bn2_running_var sd);
  l3 ← Linear.load (fc3 self) (fc3_weight sd) (fc3_bias sd);
  n3 ← BatchNorm1d.load (bn3 self) (bn3_weight sd) (bn3_bias sd)
         (bn3_running_mean sd) (bn3_running_var sd);
  lo ← Linear.load (fc_out self) (fc_out_weight sd) (fc_out_bias sd);
  Ok (mk l1 n1 l2 n2 l3 n3 lo).

End BehavioralAuthNN.

(** ** [BehavioralAnomalyDetector] (ml/model.py) *)

Module BehavioralAnomalyDetector.

Record t : Type := mk {
  encoder : Linear.t * Linear.t * Linear.t;
  decoder : Linear.t * Linear.t * Linear.t
}.

Definition sequential (layers : Linear.t * Linear.t * Linear.t) (x : list R)
    : result (list R) :=
  let '(l1, l2, l3) := layers in
  x ← Linear.forward l1 x;
  x ← Linear.forward l2 (relu x);
  Linear.forward l3 (relu x).

Definition forward (self : t) (x : list R) : result (list R * list R) :=
  encoded ← sequential (encoder self) x;
  reconstructed ← sequential (decoder self) encoded;
  Ok (encoded, reconstructed).

(** [F.mse_loss(reconstructed, x, reduction='none').mean(dim=1)]. *)
Definition anomaly_score (self : t) (x : list R) : result (list R) :=
  '(_, reconstructed) ← forward self x;
  let mse := zip_with (fun r xi => (r - xi) * (r - xi)) reconstructed x in
  Ok [Rsum mse / INR (length mse)].

End BehavioralAnomalyDetector.

(** ** [sklearn.preprocessing.StandardScaler] *)

Module StandardScaler.

Record t : Type := mk {
  mean_ : list R;
  scale_ : list R
}.

(** [(x - mean_) / scale_]; sklearn raises when the width of [x] is not
    the number of features the scaler was fitted on. *)
Definition transform (self : t) (x : list R) : result (list R) :=
  if (length x =? length (mean_ self))%nat
     && (length x =? length (scale_ self))%nat
  then Ok (zip_with3 (fun xi m s => (xi - m) / s) x (mean_ self) (scale_ self))
  else Raise ValueError.

End StandardScaler.

(** ** [BehavioralInferenceEngine] (ml/inference.py) *)

(** [self.stats]. *)
Record Stats : Type := mkStats {
  total_predictions : Z;
  total_inference_time : R;
  confidence_scores : list Z
}.

Record Engine : Type := mkEngine {
  model : BehavioralAuthNN.t;
  scaler : option StandardScaler.t;
  anomaly_detector : option BehavioralAnomalyDetector.t;
  stats : Stats
}.

(** The dictionary [predict] returns; [feature_importance] keeps the
    insertion order of the Python dict. *)
Record PredictionResult : Type := mkPredictionResult {
  confidence_score : Z;
  anomaly_score : R;
  feature_importance : list (string * R)
}.

(** The dictionary [get_stats] returns. *)
Record StatsSnapshot : Type := mkStatsSnapshot {
  snap_total_predictions : Z;
  avg_inference_time_ms : R;
  avg_confidence : R
}.

Definition fresh_stats : Stats := mkStats 0 0 [].

(** The body of [__init__] once the model object and the unpickled scaler
    are at hand. *)
Definition init_with (m : BehavioralAuthNN.t) (sc : option StandardScaler.t)
    : Engine :=
  mkEngine m sc None fresh_stats.

(** [__init__(model_path, scaler_path)]: [state] is what [torch.load] reads
    from [model_path], [sc] the scaler read from [scaler_path] (if any). *)
Definition __init__ (state : BehavioralAuthNN.state_dict)
    (sc : option StandardScaler.t) : result Engine :=
  m ← BehavioralAuthNN.load_state_dict
         (BehavioralAuthNN.new BehavioralAuthNN.default_input_dim
            BehavioralAuthNN.default_hidden_dims)
         state;
  Ok (init_with m sc).

Definition _calculate_anomaly_score (self : Engine) (feature_tensor : list R)
    : result R :=
  match anomaly_detector self with
  | None => Ok 0
  | Some detector =>
      anomaly ← BehavioralAnomalyDetector.anomaly_score detector feature_tensor;
      item anomaly
  end.

Definition feature_names : list string :=
  [ "typing_speed";
    "key_hold_time";
    "transition_time";
    "error_rate";
    "activity_hour";
    "speed_accuracy_ratio";
    "rhythm_ratio" ].

(** The per-feature sensitivities: [feature_tensor.grad.abs()]. *)
Definition sensitivities (self : Engine) (feature_tensor : list R)
    : result (list R) :=
  grad ← BehavioralAuthNN.input_grad (model self) feature_tensor;
  Ok (map Rabs grad).

Definition _calculate_feature_importance (self : Engine)
    (feature_tensor : list R) : result (list (string * R)) :=
  gradients ← sensitivities self feature_tensor;
  (* Normalize to sum to 1 *)
  let total := Rsum gradients in
  let gradients :=
    if Rlt_dec 0 total then map (fun g => g / total) gradients else gradients in
  Ok (zip feature_names gradients).

Definition _compare_with_historical (current_features : list R)
    (historical_patterns : list (gmap string R)) : result R :=
  match historical_patterns with
  | [] => Ok 50
  | _ =>
      historical_vectors ←
        mapM (fun pattern =>
                processed ← FeaturePreprocessor.process_features pattern;
                _add_derived_features processed)
             historical_patterns;
      let mean_historical := np_mean_axis0 historical_vectors in
      let distance := np_linalg_norm (vec_sub current_features mean_historical) in
      let max_distance := 100 in
      Ok (Rmax 0 (100 - distance / max_distance * 100))
  end.

Definition _update_stats (st : Stats) (confidence : Z) (inference_time : R)
    : Stats :=
  let scores := confidence_scores st ++ [confidence] in
  mkStats (total_predictions st + 1)
          (total_inference_time st + inference_time)
          (if (1000 <? length scores)%nat then drop 1 scores else scores).

Definition get_stats (self : Engine) : StatsSnapshot :=
  let total := total_predictions (stats self) in
  if (total =? 0)%Z then mkStatsSnapshot 0 0 0
  else
    let avg_time := total_inference_time (stats self) / IZR total * 1000 in
    let avg_conf := np_mean_int (confidence_scores (stats self)) in
    mkStatsSnapshot total (py_round2 avg_time) (py_round2 avg_conf).

(** Truth value of the [historical_patterns] argument: [None] and the empty
    list are false. *)
Definition truthy (historical_patterns : option (list (gmap string R))) : bool :=
  match historical_patterns with
  | Some (_ :: _) => true
  | _ => false
  end.

(** [predict(features, historical_patterns)].  [inference_time] is the wall
    time [time.time() - start_time] measured by the call. *)
Definition predict (self : Engine) (features : gmap string R)
    (historical_patterns : option (list (gmap string R)))
    (inference_time : R) : result (PredictionResult * Engine) :=
  (* Preprocess features *)
  processed_features ← FeaturePreprocessor.process_features features;
  (* Add derived features *)
  processed_features ← _add_derived_features processed_features;
  let feature_tensor := processed_features in
  (* Normalize if scaler available *)
  feature_tensor ←
    match scaler self with
    | Some sc => StandardScaler.transform sc feature_tensor
    | None => Ok feature_tensor
    end;
  (* Model inference *)
  confidence_logit ← BehavioralAuthNN.forward (model self) feature_tensor;
  logit ← item (map (fun y => y * 100) confidence_logit);
  let confidence_score := py_int logit in
  (* Anomaly detection *)
  anomaly_score ←
    match anomaly_detector self with
    | Some _ => _calculate_anomaly_score self feature_tensor
    | None => Ok 0
    end;
  (* Calculate feature importance *)
  feature_importance ← _calculate_feature_importance self feature_tensor;
  (* Historical comparison *)
  confidence_score ←
    (if truthy historical_patterns then
       historical_score ←
         _compare_with_historical processed_features
           (default [] historical_patterns);
       Ok (py_int (IZR confidence_score * (7 / 10) + historical_score * (3 / 10)))
     else Ok confidence_score);
  (* Update stats *)
  let self' :=
    mkEngine (model self) (scaler self) (anomaly_detector self)
      (_update_stats (stats self) confidence_score inference_time) in
  Ok (mkPredictionResult confidence_score anomaly_score feature_importance,
      self').

(** A sequence of [predict] calls on one engine, each call given as
    (features, historical patterns, measured time). *)
Fixpoint predict_all (self : Engine)
    (calls : list (gmap string R * option (list (gmap string R)) * R))
    : result (list PredictionResult * Engine) :=
  match calls with
  | [] => Ok ([], self)
  | (features, historical_patterns, dt) :: calls' =>
      '(r, self') ← predict self features historical_patterns dt;
      '(rs, self'') ← predict_all self' calls';
      Ok (r :: rs, self'')
  end.

(** The model evaluation of [predict] on its own: the feature vector built
    from [features], scaled when a scaler is loaded, and the value of the
    network on it. *)
Definition feature_vector (features : gmap string R) : result (list R) :=
  processed ← FeaturePreprocessor.process_features features;
  _add_derived_features processed.

Definition model_input (self : Engine) (features : gmap string R)
    : result (list R) :=
  v ← feature_vector features;
  match scaler self with
  | Some sc => StandardScaler.transform sc v
  | None => Ok v
  end.

Definition score (self : Engine) (features : gmap string R) : result R :=
  x ← model_input self features;
  y ← BehavioralAuthNN.forward (model self) x;
  item y.

(** ** Closed forms

    The functions of this part are not in the source: they are the closed
    forms the properties are stated with; each is proved equal to the code
    it describes ([feature_vector_ok], [compare_with_historical_ok],
    [feature_importance_unfold], [predict_ok]). *)

(** The five clipped values [process_features] returns. *)
Definition clipped (features : gmap string R) : R * R * R * R * R :=
  ( np_clip (py_get features "typing_speed_wpm" 0) 10 200,
    np_clip (py_get features "avg_key_hold_time_ms" 0) 20 500,
    np_clip (py_get features "avg_transition_time_ms" 0) 20 400,
    np_clip (py_get features "error_rate_percent" 0) 0 50,
    np_clip (py_get features "activity_hour_preference" 0) 0 23 ).

(** The 7-entry vector [predict] builds from a raw feature map. *)
Definition vector_of (features : gmap string R) : list R :=
  let '(a, b, c, d, h) := clipped features in
  [a; b; c; d; h; a / (d + 1); b / (c + 1)].

(** The consistency score of a non-empty history. *)
Definition similarity (current : list R) (history : list (gmap string R)) : R :=
  Rmax 0 (100 - np_linalg_norm
                   (vec_sub current (np_mean_axis0 (map vector_of history)))
                 / 100 * 100).

(** The normalisation step of [_calculate_feature_importance]. *)
Definition normalized (sens : list R) : list R :=
  if Rlt_dec 0 (Rsum sens) then map (fun g => g / Rsum sens) sens else sens.

(** The confidence [predict] reports for a model output [s]. *)
Definition final_confidence (features : gmap string R)
    (hist : option (list (gmap string R))) (s : R) : Z :=
  match hist with
  | Some (p :: ps) =>
      py_int (IZR (py_int (s * 100)) * (7 / 10)
              + similarity (vector_of features) (p :: ps) * (3 / 10))
  | _ => py_int (s * 100)
  end.

(** The last [n] entries of a list. *)
Definition last_n {A : Type} (n : nat) (l : list A) : list A :=
  drop (length l - n) l.

(** ** Concrete inputs, networks and engines *)

(** The raw feature map of the worked example. *)
Definition example_features : gmap string R :=
  {[ "typing_speed_wpm" := 65;
     "avg_key_hold_time_ms" := 120;
     "avg_transition_time_ms" := 85;
     "error_rate_percent" := 3;
     "activity_hour_preference" := 14 ]}.

(** An out-of-range typing speed, and three keys missing. *)
Definition fast_typist : gmap string R :=
  {[ "typing_speed_wpm" := 500;
     "avg_key_hold_time_ms" := 120 ]}.

(** The example features with another key-hold time. *)
Definition slower_keys (hold : R) : gmap string R :=
  {[ "typing_speed_wpm" := 65;
     "avg_key_hold_time_ms" := hold;
     "avg_transition_time_ms" := 85;
     "error_rate_percent" := 3;
     "activity_hour_preference" := 14 ]}.

(** A network of the trained shape (7 inputs, hidden widths 128, 64, 32)
    whose weights are all zero and whose output bias is [b]: it evaluates
    to [sigmoid b] on every input. *)
Definition constant_model (b : R) : BehavioralAuthNN.t :=
  let m := BehavioralAuthNN.new 7 BehavioralAuthNN.default_hidden_dims in
  BehavioralAuthNN.mk
    (BehavioralAuthNN.fc1 m) (BehavioralAuthNN.bn1 m)
    (BehavioralAuthNN.fc2 m) (BehavioralAuthNN.bn2 m)
    (BehavioralAuthNN.fc3 m) (BehavioralAuthNN.bn3 m)
    (Linear.mk 32 1 [replicate 32 0] [b]).

(** The bias at which the output is [p]. *)
Definition logit (p : R) : R := ln (p / (1 - p)).

(** An engine around a constant network with output [p], no scaler. *)
Definition constant_engine (p : R) : Engine :=
  init_with (constant_model (logit p)) None.

(** A saved state with the tensor sizes of a network of [input_dim] inputs
    and the default hidden widths. *)
Definition zero_state (input_dim : nat) : BehavioralAuthNN.state_dict :=
  BehavioralAuthNN.mk_state_dict
    (replicate 128 (replicate input_dim 0)) (replicate 128 0)
    (replicate 128 1) (replicate 128 0) (replicate 128 0) (replicate 128 1)
    (replicate 64 (replicate 128 0)) (replicate 64 0)
    (replicate 64 1) (replicate 64 0) (replicate 64 0) (replicate 64 1)
    (replicate 32 (replicate 64 0)) (replicate 32 0)
    (replicate 32 1) (replicate 32 0) (replicate 32 0) (replicate 32 1)
    [replicate 32 0] [0].

(** [BehavioralAuthNN(input_dim=7, hidden_dims=(1, 1, 1))] loaded with
    weights that pass the first input (the typing speed) through to the
    output unit; the running variance is chosen so that the batch
    normalisation divides by 1. *)
Definition unit_bn : BatchNorm1d.t :=
  BatchNorm1d.mk 1 [1] [0] [0] [1 - 1 / 100000] (1 / 100000).

Definition pass_through : Linear.t := Linear.mk 1 1 [[1]] [0].

Definition probe_model : BehavioralAuthNN.t :=
  BehavioralAuthNN.mk
    (Linear.mk 7 1 [[1; 0; 0; 0; 0; 0; 0]] [0]) unit_bn
    pass_through unit_bn
    pass_through unit_bn
    pass_through.

Definition probe_engine : Engine := init_with probe_model None.

(** Three calls on one engine: with a history 42 ms away, without history,
    with a history 75 ms away. *)
Definition three_calls
    : list (gmap string R * option (list (gmap string R)) * R) :=
  [ (example_features, Some [slower_keys 162], 0);
    (example_features, None, 0);
    (example_features, Some [slower_keys 195], 0) ].


(** ** Proof automation *)

(** Case analysis on the first call of a sequence that returned. *)
Ltac inv_bind H :=
  match type of H with
  | (?c ≫= _) = Ok _ =>
      let E := fresh "E" in
      destruct c eqn:E; cbn [mbind result_bind] in H; [| discriminate H]
  end.

(** * Further code of the repository *)

(** ** Further functions of ml/model.py *)

(** [BehavioralAuthNN.predict_confidence]. *)
Definition predict_confidence (self : BehavioralAuthNN.t) (x : list R)
    : result (list R) :=
  logits ← BehavioralAuthNN.forward self x;
  let confidence := map (fun y => y * 100) logits in
  Ok confidence.

(** [BehavioralAnomalyDetector.__init__(input_dim, encoding_dim)]. *)
Definition BehavioralAnomalyDetector_new (input_dim encoding_dim : nat)
    : BehavioralAnomalyDetector.t :=
  BehavioralAnomalyDetector.mk
    (Linear.new input_dim 16, Linear.new 16 8, Linear.new 8 encoding_dim)
    (Linear.new encoding_dim 8, Linear.new 8 16, Linear.new 16 input_dim).

Module EnsembleModel.

Record t : Type := mk {
  auth_model : BehavioralAuthNN.t;
  anomaly_model : BehavioralAnomalyDetector.t;
  anomaly_weight : R
}.

(** [forward]: the confidence, lowered by the squashed anomaly score. *)
Definition forward (self : t) (x : list R) : result (list R * list R) :=
  confidence ← BehavioralAuthNN.forward (auth_model self) x;
  anomaly ← BehavioralAnomalyDetector.anomaly_score (anomaly_model self) x;
  let adjusted_confidence :=
    zip_with (fun c a => c * (1 - anomaly_weight self * sigmoid a))
      confidence anomaly in
  Ok (adjusted_confidence, anomaly).

End EnsembleModel.

(** What [create_model] returns. *)
Inductive nn_module : Type :=
| AuthModule (m : BehavioralAuthNN.t)
| AnomalyModule (m : BehavioralAnomalyDetector.t)
| EnsembleModule (m : EnsembleModel.t).

(** [create_model(model_type, pretrained_path)].  [pretrained] stands for
    [model.load_state_dict(torch.load(pretrained_path))] when a path is
    given. *)
Definition create_model (model_type : string)
    (pretrained : option (nn_module -> result nn_module)) : result nn_module :=
  model ←
    (if String.eqb model_type "auth" then
       Ok (AuthModule
             (BehavioralAuthNN.new BehavioralAuthNN.default_input_dim
                BehavioralAuthNN.default_hidden_dims))
     else if String.eqb model_type "anomaly" then
       Ok (AnomalyModule (BehavioralAnomalyDetector_new 6 3))
     else if String.eqb model_type "ensemble" then
       let auth :=
         BehavioralAuthNN.new BehavioralAuthNN.default_input_dim
           BehavioralAuthNN.default_hidden_dims in
       let anomaly := BehavioralAnomalyDetector_new 6 3 in
       Ok (EnsembleModule (EnsembleModel.mk auth anomaly (3 / 10)))
     else Raise ValueError);
  match pretrained with
  | Some load => load model
  | None => Ok model
  end.

(** ** Further functions of ml/preprocessing.py *)

(** [FeaturePreprocessor.batch_process]: the rows of the returned array. *)
Definition batch_process (features_list : list (gmap string R))
    : result (list (list R)) :=
  mapM FeaturePreprocessor.process_features features_list.

(** [np.mean], [np.std] (population standard deviation), [np.min] and
    [np.max] of a 1-d array. *)
Definition np_mean (l : list R) : R := Rsum l / INR (length l).

Definition np_std (l : list R) : R :=
  sqrt (np_mean (map (fun x => (x - np_mean l) * (x - np_mean l)) l)).

Definition np_min (l : list R) : result R :=
  match l with
  | [] => Raise ValueError
  | x :: l' => Ok (foldl Rmin x l')
  end.

Definition np_max (l : list R) : result R :=
  match l with
  | [] => Raise ValueError
  | x :: l' => Ok (foldl Rmax x l')
  end.

(** [np.arange(n)] as floats. *)
Definition np_arange (n : nat) : list R := map INR (seq 0 n).

(** [np.polyfit(x, y, 1)[0]]: the slope of the least-squares line through
    the points [(x_i, y_i)]. *)
Definition polyfit_slope (x y : list R) : R :=
  let n := INR (length x) in
  (n * dot x y - Rsum x * Rsum y) / (n * dot x x - Rsum x * Rsum x).

Module TemporalFeatureExtractor.

Definition _calculate_trend (values : list R) : R :=
  if (length values <? 2)%nat then 0
  else
    let x := np_arange (length values) in
    let y := values in
    polyfit_slope x y.

Definition _coefficient_of_variation (values : list R) : R :=
  let mean := np_mean values in
  let std := np_std values in
  if Req_dec_T mean 0 then 0 else std / mean.

Definition extract_temporal_features (time_series : list (gmap string R))
    : result (gmap string R) :=
  if (length time_series <? 2)%nat then Ok ∅
  else
    speeds ← mapM (fun t => py_getitem t "typing_speed_wpm") time_series;
    speed_min ← np_min speeds;
    speed_max ← np_max speeds;
    Ok {[ "speed_mean" := np_mean speeds;
          "speed_std" := np_std speeds;
          "speed_min" := speed_min;
          "speed_max" := speed_max;
          "speed_trend" := _calculate_trend speeds;
          "speed_cv" := _coefficient_of_variation speeds ]}.

End TemporalFeatureExtractor.

(** ** [add_derived_features] of scripts/train_model.py

    [X] is the list of the rows of the training array.  numpy divides
    without raising; the quotient by zero (inf or nan in numpy) has no
    counterpart in [R], and the properties below are stated for rows with
    non-zero denominators. *)
Definition add_derived_features (X : list (list R)) : result (list (list R)) :=
  mapM (fun row =>
          x0 ← py_index row 0;
          x1 ← py_index row 1;
          x2 ← py_index row 2;
          x3 ← py_index row 3;
          let speed_accuracy := x0 / (x3 + 1) in
          let rhythm_ratio := x1 / (x2 + 1) in
          Ok (row ++ [speed_accuracy; rhythm_ratio]))
       X.

(** Comparisons of floats as booleans. *)
Definition Rleb (x y : R) : bool := if Rle_dec x y then true else false.
Definition Rltb (x y : R) : bool := if Rlt_dec x y then true else false.

(** ** Request and response models (app/models.py) *)

Module schema.

Record BehavioralFeatures : Type := mkBehavioralFeatures {
  typing_speed_wpm : Z;
  avg_key_hold_time_ms : Z;
  avg_transition_time_ms : Z;
  error_rate_percent : Z;
  activity_hour_preference : Z
}.

(** The [Field] bounds and the [validate_typing_speed] validator. *)
Definition BehavioralFeatures_valid (f : BehavioralFeatures) : bool :=
  (0 <=? typing_speed_wpm f)%Z && (typing_speed_wpm f <=? 300)%Z
  && (0 <=? avg_key_hold_time_ms f)%Z && (avg_key_hold_time_ms f <=? 5000)%Z
  && (0 <=? avg_transition_time_ms f)%Z && (avg_transition_time_ms f <=? 5000)%Z
  && (0 <=? error_rate_percent f)%Z && (error_rate_percent f <=? 100)%Z
  && (0 <=? activity_hour_preference f)%Z && (activity_hour_preference f <? 24)%Z
  && negb (typing_speed_wpm f =? 0)%Z.

(** [BehavioralFeatures.model_dump()]. *)
Definition BehavioralFeatures_dump (f : BehavioralFeatures) : gmap string R :=
  {[ "typing_speed_wpm" := IZR (typing_speed_wpm f);
     "avg_key_hold_time_ms" := IZR (avg_key_hold_time_ms f);
     "avg_transition_time_ms" := IZR (avg_transition_time_ms f);
     "error_rate_percent" := IZR (error_rate_percent f);
     "activity_hour_preference" := IZR (activity_hour_preference f) ]}.

(** [HistoricalPattern]: four of the five features and a timestamp. *)
Record HistoricalPattern : Type := mkHistoricalPattern {
  h_typing_speed_wpm : Z;
  h_avg_key_hold_time_ms : Z;
  h_avg_transition_time_ms : Z;
  h_error_rate_percent : Z;
  timestamp : Z
}.

Definition HistoricalPattern_valid (p : HistoricalPattern) : bool :=
  (0 <=? h_typing_speed_wpm p)%Z && (h_typing_speed_wpm p <=? 300)%Z
  && (0 <=? h_avg_key_hold_time_ms p)%Z && (h_avg_key_hold_time_ms p <=? 5000)%Z
  && (0 <=? h_avg_transition_time_ms p)%Z
  && (h_avg_transition_time_ms p <=? 5000)%Z
  && (0 <=? h_error_rate_percent p)%Z && (h_error_rate_percent p <=? 100)%Z.

(** [HistoricalPattern.model_dump()]. *)
Definition HistoricalPattern_dump (p : HistoricalPattern) : gmap string R :=
  {[ "typing_speed_wpm" := IZR (h_typing_speed_wpm p);
     "avg_key_hold_time_ms" := IZR (h_avg_key_hold_time_ms p);
     "avg_transition_time_ms" := IZR (h_avg_transition_time_ms p);
     "error_rate_percent" := IZR (h_error_rate_percent p);
     "timestamp" := IZR (timestamp p) ]}.

Record PredictRequest : Type := mkPredictRequest {
  did : string;
  features : BehavioralFeatures;
  historical_patterns : option (list HistoricalPattern)
}.

Record PredictResponse : Type := mkPredictResponse {
  confidence_score : Z;
  anomaly_score : R;
  feature_importance : list (string * R);
  model_version : string;
  inference_time_ms : R
}.

(** [PredictResponse(...)]: the [Field] bounds are checked; pydantic's
    [ValidationError] is a [ValueError]. *)
Definition PredictResponse_new (confidence : Z) (anomaly : R)
    (importance : list (string * R)) (version : string) (time_ms : R)
    : result PredictResponse :=
  if (0 <=? confidence)%Z && (confidence <=? 100)%Z
     && Rleb 0 anomaly && Rleb anomaly 1
  then Ok (mkPredictResponse confidence anomaly importance version time_ms)
  else Raise ValueError.

Record BatchPredictResponse : Type := mkBatchPredictResponse {
  predictions : list PredictResponse;
  total_count : Z;
  successful_count : Z;
  failed_count : Z
}.

End schema.

(** ** Settings (app/config.py) *)

Record Settings : Type := mkSettings {
  MODEL_VERSION : string;
  MAX_BATCH_SIZE : Z
}.

(** The defaults of the [Settings] class. *)
Definition default_settings : Settings := mkSettings "1.0.0" 100.

(** ** Inference routes (app/routes/inference.py) *)

(** A handler returns a response or raises [HTTPException(status_code)]. *)
Inductive http (A : Type) : Type :=
| Response (a : A)
| HTTPException (status_code : Z).
Arguments Response {A} a.
Arguments HTTPException {A} status_code.

(** The arguments a handler passes to [engine.predict] for a request. *)
Definition request_features (request : schema.PredictRequest) : gmap string R :=
  schema.BehavioralFeatures_dump (schema.features request).

Definition request_history (request : schema.PredictRequest)
    : option (list (gmap string R)) :=
  match schema.historical_patterns request with
  | Some (p :: ps) => Some (map schema.HistoricalPattern_dump (p :: ps))
  | _ => None
  end.

(** The body of the [try] block shared by [predict_single] and
    [predict_batch]: the prediction and the response built from it.
    [dt] is the time the engine measures, [elapsed_ms] the time the handler
    measures. *)
Definition try_predict (settings : Settings) (engine : Engine)
    (request : schema.PredictRequest) (dt elapsed_ms : R)
    : result schema.PredictResponse * Engine :=
  match predict engine (request_features request) (request_history request) dt with
  | Ok (r, engine') =>
      (schema.PredictResponse_new (confidence_score r) (anomaly_score r)
         (feature_importance r) (MODEL_VERSION settings) (py_round2 elapsed_ms),
       engine')
  | Raise err => (Raise err, engine)
  end.

(** [predict_single]; [inference_engine] is the global of app/main.py read
    by [get_inference_engine]. *)
Definition predict_single (settings : Settings)
    (inference_engine : option Engine) (request : schema.PredictRequest)
    (dt elapsed_ms : R) : http schema.PredictResponse * option Engine :=
  match inference_engine with
  | None => (HTTPException 503, None)
  | Some engine =>
      match try_predict settings engine request dt elapsed_ms with
      | (Ok response, engine') => (Response response, Some engine')
      | (Raise ValueError, engine') => (HTTPException 400, Some engine')
      | (Raise _, engine') => (HTTPException 500, Some engine')
      end
  end.

(** The response [predict_batch] records for a request that failed. *)
Definition error_response (settings : Settings) : schema.PredictResponse :=
  schema.mkPredictResponse 0 1 [] (MODEL_VERSION settings) 0.

(** The loop of [predict_batch]: the state is (predictions, successful,
    failed) and the engine. *)
Fixpoint batch_loop (settings : Settings) (engine : Engine)
    (requests : list (schema.PredictRequest * R * R))
    (predictions : list schema.PredictResponse) (successful failed : Z)
    : list schema.PredictResponse * Z * Z * Engine :=
  match requests with
  | [] => (predictions, successful, failed, engine)
  | (req, dt, elapsed_ms) :: requests' =>
      match try_predict settings engine req dt elapsed_ms with
      | (Ok response, engine') =>
          batch_loop settings engine' requests'
            (predictions ++ [response]) (successful + 1) failed
      | (Raise _, engine') =>
          batch_loop settings engine' requests'
            (predictions ++ [error_response settings]) successful (failed + 1)
      end
  end.

(** [predict_batch]; each request comes with the two times measured while
    it is processed. *)
Definition predict_batch (settings : Settings)
    (inference_engine : option Engine)
    (requests : list (schema.PredictRequest * R * R))
    : http schema.BatchPredictResponse * option Engine :=
  match inference_engine with
  | None => (HTTPException 503, None)
  | Some engine =>
      if (MAX_BATCH_SIZE settings <? Z.of_nat (length requests))%Z
      then (HTTPException 400, Some engine)
      else
        let '(predictions, successful, failed, engine') :=
          batch_loop settings engine requests [] 0 0 in
        (Response
           (schema.mkBatchPredictResponse predictions
              (Z.of_nat (length requests)) successful failed),
         Some engine')
  end.

(** The dictionary [compare_patterns] returns. *)
Record Comparison : Type := mkComparison {
  pattern1_confidence : Z;
  pattern2_confidence : Z;
  similarity_score : R;
  distance : R;
  likely_same_user : bool
}.

(** The five raw values [compare_patterns] puts in an array. *)
Definition raw_array (f : schema.BehavioralFeatures) : list R :=
  [ IZR (schema.typing_speed_wpm f);
    IZR (schema.avg_key_hold_time_ms f);
    IZR (schema.avg_transition_time_ms f);
    IZR (schema.error_rate_percent f);
    IZR (schema.activity_hour_preference f) ].

(** [compare_patterns]; [dt1] and [dt2] are the times the engine measures
    for the two predictions. *)
Definition compare_patterns (inference_engine : option Engine)
    (pattern1 pattern2 : schema.PredictRequest) (dt1 dt2 : R)
    : http Comparison * option Engine :=
  match inference_engine with
  | None => (HTTPException 503, None)
  | Some engine =>
      match predict engine (request_features pattern1) None dt1 with
      | Raise _ => (HTTPException 500, Some engine)
      | Ok (result1, engine1) =>
          match predict engine1 (request_features pattern2) None dt2 with
          | Raise _ => (HTTPException 500, Some engine1)
          | Ok (result2, engine2) =>
              let features1 := raw_array (schema.features pattern1) in
              let features2 := raw_array (schema.features pattern2) in
              let dist := np_linalg_norm (vec_sub features1 features2) in
              let max_distance := 300 in
              let similarity := Rmax 0 (100 - dist / max_distance * 100) in
              (Response
                 (mkComparison (confidence_score result1)
                    (confidence_score result2)
                    (py_round2 similarity) (py_round2 dist)
                    (Rltb 70 similarity)),
               Some engine2)
          end
      end
  end.

(** ** Helpers of the further properties *)

(** The sum of a non-empty list of vectors, as [np.mean(_, axis=0)] forms
    it before dividing. *)
Definition vec_total (vs : list (list R)) : option (list R) :=
  match vs with
  | [] => None
  | v :: vs' => Some (foldl vec_add v vs')
  end.

(** An engine around a constant network with output [p] on which an
    anomaly detector for 7-entry vectors has been set. *)
Definition guarded_engine (p : R) : Engine :=
  mkEngine (constant_model (logit p)) None
    (Some (BehavioralAnomalyDetector_new 7 3)) fresh_stats.

(** An ensemble of a 7-input constant network and a 7-input detector. *)
Definition example_ensemble : EnsembleModel.t :=
  EnsembleModel.mk (constant_model 0) (BehavioralAnomalyDetector_new 7 3) (3 / 10).

(** The raw feature map whose five named values are the entries of a row
    of the training array. *)
Definition features_of_row (row : list R) : gmap string R :=
  list_to_map (zip FeaturePreprocessor.feature_order row).

(** A row of five values within the clipping bounds. *)
Definition in_clip_range (row : list R) : Prop :=
  exists a b c d h,
    row = [a; b; c; d; h] /\
    10 <= a <= 200 /\ 20 <= b <= 500 /\ 20 <= c <= 400 /\
    0 <= d <= 50 /\ 0 <= h <= 23.

(** The series [a, a + b, a + 2b, ...] of [n] values. *)
Definition linear_series (a b : R) (n : nat) : list R :=
  map (fun i => a + b * INR i) (seq 0 n).

(** * The pipeline over floating-point values

    The definitions above compute over the real numbers: a Python float is
    the real number it denotes and every operation is exact.  That is an
    idealisation of the continuous quantities.  Where the code turns a
    float into something discrete, by [int(...)], by [round(..., 2)], by
    raising instead of returning, the rounding of the floating-point
    operations, the values [nan] and [inf], and the conversion [float(v)]
    of an arbitrary Python value decide the outcome.  This part follows the
    same source lines with these made explicit:

    - a Python or numpy float is a [float]: a finite value, [nan], or an
      infinity; the sign of a zero is not recorded, and a finite result is
      taken to stay in the range of its format (the quantities of the
      pipeline are bounded: clipped inputs, scores in [0, 100]);
    - an arithmetic operation of the source on floats is the exact
      operation followed by the rounding of its format, [rnd32] for
      torch's float32 tensors and [rnd64] for Python and numpy float64;
    - what torch, numpy and sklearn compute inside a library call (the
      network and its gradient, [scaler.transform], [np.mean],
      [np.linalg.norm], [round(x, 2)]) is a component of a [FloatModel];
      the shape checks of these calls, which decide whether they raise,
      are those of the definitions above;
    - a value of a feature dictionary is a [py_value].

    Nothing is assumed of a [FloatModel] but the properties collected in
    [FloatModel_ok], which hold of IEEE-754 arithmetic with rounding to
    nearest.  [exact_float] is the model without rounding error; under it
    the definitions of this part are those above ([predict_exact]). *)

Inductive float : Type :=
| Num (x : R)   (* a finite value *)
| NaN
| PosInf
| NegInf.

(** The values a feature dictionary can hold.  [PyObject c] is any other
    object, given by what [float(...)] does on it: the float it converts
    to (a numeric string, a numpy scalar, a [Decimal]) or the exception it
    raises ([ValueError] for a string that is no number, [TypeError] for a
    list). *)
Inductive py_value : Type :=
| PyInt (n : Z)
| PyFloat (x : float)
| PyBool (b : bool)
| PyNone
| PyObject (conversion : result float).

Definition float_R (x : float) : R :=
  match x with
  | Num v => v
  | _ => 0
  end.

Definition is_inf (x : float) : bool :=
  match x with
  | PosInf | NegInf => true
  | _ => false
  end.

Definition finf (negative : bool) : float :=
  if negative then NegInf else PosInf.

Definition is_negative (x : float) : bool :=
  match x with
  | Num v => if Rlt_dec v 0 then true else false
  | NegInf => true
  | _ => false
  end.

Definition fneg (x : float) : float :=
  match x with
  | Num v => Num (- v)
  | NaN => NaN
  | PosInf => NegInf
  | NegInf => PosInf
  end.

(** [x + y], [x - y], [x * y] and [x / y] in a format with rounding [rnd]
    (numpy semantics: a division by zero gives an infinity or [nan], it
    does not raise). *)
Definition fadd (rnd : R -> R) (x y : float) : float :=
  match x, y with
  | Num a, Num b => Num (rnd (a + b))
  | NaN, _ | _, NaN => NaN
  | PosInf, NegInf | NegInf, PosInf => NaN
  | PosInf, _ | _, PosInf => PosInf
  | NegInf, _ | _, NegInf => NegInf
  end.

Definition fsub (rnd : R -> R) (x y : float) : float := fadd rnd x (fneg y).

Definition fmul (rnd : R -> R) (x y : float) : float :=
  match x, y with
  | Num a, Num b => Num (rnd (a * b))
  | NaN, _ | _, NaN => NaN
  | Num a, i =>
      if Req_dec_T a 0 then NaN else finf (xorb (is_negative x) (is_negative i))
  | i, Num b =>
      if Req_dec_T b 0 then NaN else finf (xorb (is_negative i) (is_negative y))
  | i, j => finf (xorb (is_negative i) (is_negative j))
  end.

Definition fdiv (rnd : R -> R) (x y : float) : float :=
  match x, y with
  | Num a, Num b =>
      if Req_dec_T b 0
      then (if Req_dec_T a 0 then NaN else finf (is_negative x))
      else Num (rnd (a / b))
  | NaN, _ | _, NaN => NaN
  | Num _, _ => Num 0
  | i, Num _ => finf (xorb (is_negative i) (is_negative y))
  | _, _ => NaN
  end.

(** [np.clip(v, lo, hi)] on a float: [nan] passes through, an infinity is
    brought to the bound. *)
Definition np_clip_float (v : float) (lo hi : R) : float :=
  match v with
  | Num x => Num (np_clip x lo hi)
  | NaN => NaN
  | PosInf => Num hi
  | NegInf => Num (Rmin lo hi)
  end.

(** [int(x)] on a float. *)
Definition py_int_float (x : float) : result Z :=
  match x with
  | Num v => Ok (py_int v)
  | NaN => Raise ValueError        (* cannot convert float NaN to integer *)
  | _ => Raise OverflowError       (* cannot convert float infinity to integer *)
  end.

(** [max(0, x)]: [x] when [x > 0] holds, else 0. *)
Definition py_max0 (x : float) : float :=
  match x with
  | Num v => if Rlt_dec 0 v then Num v else Num 0
  | PosInf => PosInf
  | _ => Num 0
  end.

(** [t.item()] on a tensor of floats. *)
Definition item_float (t : list float) : result float :=
  match t with
  | [x] => Ok x
  | _ => Raise RuntimeError
  end.

(** The least magnitude of an [int] that [float(...)] refuses: the
    midpoint between the largest finite double and [2 ** 1024]. *)
Definition float_max_int : Z := (2 ^ 1024 - 2 ^ 970)%Z.

Definition Zsum_abs (l : list Z) : Z := foldr (fun z acc => (Z.abs z + acc)%Z) 0%Z l.

Record FloatModel : Type := mkFloatModel {
  (* rounding to the nearest float32, to the nearest float64 *)
  rnd32 : R -> R;
  rnd64 : R -> R;
  (* entry [i] of [scaler.transform(x)] read back as a float32 tensor *)
  fl_transform : StandardScaler.t -> list float -> nat -> float;
  (* entry [i] of [model(x)] *)
  fl_net : BehavioralAuthNN.t -> list float -> nat -> float;
  (* entry [i] of [x.grad] after [model(x).backward()] *)
  fl_grad : BehavioralAuthNN.t -> list float -> nat -> R;
  (* [anomaly_detector.anomaly_score(x).item()] *)
  fl_detector : BehavioralAnomalyDetector.t -> list float -> R;
  (* [a.sum()] on a float32 array *)
  fl_sum32 : list R -> R;
  (* entry [i] of [np.mean(vs, axis=0)] *)
  fl_mean_axis0 : list (list float) -> nat -> float;
  (* [np.linalg.norm(v)] *)
  fl_norm : list float -> float;
  (* [np.mean(l)] on a list of ints *)
  fl_mean_int : list Z -> float;
  (* [round(x, 2)] on a Python float, on a numpy float64 *)
  fl_round2 : R -> R;
  np_round2 : float -> float
}.

(** What is used of the floating-point arithmetic: rounding is monotone
    and keeps the integers a format holds; the float64 literals [0.7] and
    [0.3] lie below 7/10 and 3/10 (they are 0.69999999999999995559... and
    0.29999999999999998889...); the network ends in a sigmoid,
    whose float32 value lies in [0, 1] (both ends are reached) unless it is
    [nan]; a norm is not negative; the float64 sum of integers is exact as
    long as it stays below [2 ** 53], so their mean is one rounded
    division; rounding an integer to two decimals gives it back. *)
Record FloatModel_ok (fm : FloatModel) : Prop := mkFloatModel_ok {
  rnd32_monotone : forall x y, x <= y -> rnd32 fm x <= rnd32 fm y;
  rnd32_integer : forall n : Z,
    (Z.abs n <= 2 ^ 24)%Z -> rnd32 fm (IZR n) = IZR n;
  rnd64_monotone : forall x y, x <= y -> rnd64 fm x <= rnd64 fm y;
  rnd64_integer : forall n : Z,
    (Z.abs n <= 2 ^ 53)%Z -> rnd64 fm (IZR n) = IZR n;
  literal_07 : rnd64 fm (7 / 10) <= 7 / 10;
  literal_03 : rnd64 fm (3 / 10) <= 3 / 10;
  net_unit_interval : forall m x i,
    match fl_net fm m x i with
    | Num y => 0 <= y <= 1
    | NaN => True
    | _ => False
    end;
  norm_nonnegative : forall v,
    match fl_norm fm v with
    | Num d => 0 <= d
    | NegInf => False
    | _ => True
    end;
  mean_int_exact : forall l : list Z,
    l <> [] -> (Zsum_abs l <= 2 ^ 53)%Z ->
    fl_mean_int fm l = Num (rnd64 fm (ZsumR l / INR (length l)));
  round2_integer : forall n : Z,
    (Z.abs n <= 2 ^ 32)%Z -> np_round2 fm (Num (IZR n)) = Num (IZR n)
}.

(** [float(v)]. *)
Definition py_float (fm : FloatModel) (v : py_value) : result float :=
  match v with
  | PyInt n =>
      if (Z.abs n <? float_max_int)%Z then Ok (Num (rnd64 fm (IZR n)))
      else Raise OverflowError     (* int too large to convert to float *)
  | PyFloat x => Ok x
  | PyBool b => Ok (Num (if b then 1 else 0))
  | PyNone => Raise TypeError
  | PyObject conversion => conversion
  end.

Module Fp.

(** One iteration of the loop body of [process_features]. *)
Definition process_one (fm : FloatModel) (features : gmap string py_value)
    (feature_name : string) : result float :=
  value ← py_float fm (py_get features feature_name (PyInt 0));
  lo ← py_getitem FeaturePreprocessor.feature_mins feature_name;
  hi ← py_getitem FeaturePreprocessor.feature_maxs feature_name;
  Ok (np_clip_float value lo hi).

Definition process_features (fm : FloatModel) (features : gmap string py_value)
    : result (list float) :=
  mapM (process_one fm features) FeaturePreprocessor.feature_order.

(** The entries are numpy float64 scalars: the divisions do not raise. *)
Definition _add_derived_features (fm : FloatModel) (features : list float)
    : result (list float) :=
  typing_speed ← py_index features 0;
  key_hold_time ← py_index features 1;
  transition_time ← py_index features 2;
  error_rate ← py_index features 3;
  let speed_accuracy :=
    fdiv (rnd64 fm) typing_speed (fadd (rnd64 fm) error_rate (Num 1)) in
  let rhythm_ratio :=
    fdiv (rnd64 fm) key_hold_time (fadd (rnd64 fm) transition_time (Num 1)) in
  Ok (features ++ [speed_accuracy; rhythm_ratio]).

(** [torch.tensor(..., dtype=torch.float32)] on one entry. *)
Definition to_float32 (fm : FloatModel) (x : float) : float :=
  match x with
  | Num v => Num (rnd32 fm v)
  | _ => x
  end.

(** [scaler.transform(...)] and the conversion back to a float32 tensor.
    sklearn raises on a wrong width and on an infinite entry ([nan] is
    let through). *)
Definition transform (fm : FloatModel) (sc : StandardScaler.t) (x : list float)
    : result (list float) :=
  shape ← StandardScaler.transform sc (map float_R x);
  if existsb is_inf x then Raise ValueError
  else Ok (imap (fun i _ => fl_transform fm sc x i) shape).

(** [self.model(feature_tensor)]. *)
Definition forward (fm : FloatModel) (m : BehavioralAuthNN.t) (x : list float)
    : result (list float) :=
  shape ← BehavioralAuthNN.forward m (map float_R x);
  Ok (imap (fun i _ => fl_net fm m x i) shape).

Definition _calculate_anomaly_score (fm : FloatModel) (self : Engine)
    (feature_tensor : list float) : result R :=
  match anomaly_detector self with
  | None => Ok 0
  | Some detector =>
      shape ← BehavioralAnomalyDetector.anomaly_score detector
                 (map float_R feature_tensor);
      _ ← item shape;
      Ok (fl_detector fm detector feature_tensor)
  end.

Definition _calculate_feature_importance (fm : FloatModel) (self : Engine)
    (feature_tensor : list float) : result (list (string * R)) :=
  shape ← sensitivities self (map float_R feature_tensor);
  let gradients :=
    imap (fun i _ => Rabs (fl_grad fm (model self) feature_tensor i)) shape in
  (* Normalize to sum to 1 *)
  let total := fl_sum32 fm gradients in
  let gradients :=
    if Rlt_dec 0 total then map (fun g => rnd32 fm (g / total)) gradients
    else gradients in
  Ok (zip feature_names gradients).

(** [u - v] on two 1-d arrays: element-wise on equal lengths, a one-entry
    array is broadcast, any other pair of lengths raises. *)
Definition np_subtract (fm : FloatModel) (u v : list float)
    : result (list float) :=
  if (length u =? length v)%nat then Ok (zip_with (fsub (rnd64 fm)) u v)
  else
    match u, v with
    | [a], _ => Ok (map (fun b => fsub (rnd64 fm) a b) v)
    | _, [b] => Ok (map (fun a => fsub (rnd64 fm) a b) u)
    | _, _ => Raise ValueError
    end.

Definition _compare_with_historical (fm : FloatModel)
    (current_features : list float)
    (historical_patterns : list (gmap string py_value)) : result float :=
  match historical_patterns with
  | [] => Ok (Num 50)
  | _ =>
      historical_vectors ←
        mapM (fun pattern =>
                processed ← process_features fm pattern;
                _add_derived_features fm processed)
             historical_patterns;
      let mean_historical :=
        imap (fun i _ => fl_mean_axis0 fm historical_vectors i)
             (default [] (head historical_vectors)) in
      difference ← np_subtract fm current_features mean_historical;
      let distance := fl_norm fm difference in
      let max_distance := Num 100 in
      Ok (py_max0
            (fsub (rnd64 fm) (Num 100)
               (fmul (rnd64 fm) (fdiv (rnd64 fm) distance max_distance)
                  (Num 100))))
  end.

Definition _update_stats (fm : FloatModel) (st : Stats) (confidence : Z)
    (inference_time : R) : Stats :=
  let scores := confidence_scores st ++ [confidence] in
  mkStats (total_predictions st + 1)
          (rnd64 fm (total_inference_time st + inference_time))
          (if (1000 <? length scores)%nat then drop 1 scores else scores).

(** The dictionary [get_stats] returns. *)
Record StatsSnapshot : Type := mkStatsSnapshot {
  snap_total_predictions : Z;
  avg_inference_time_ms : R;
  avg_confidence : float
}.

Definition get_stats (fm : FloatModel) (self : Engine) : StatsSnapshot :=
  let total := total_predictions (stats self) in
  if (total =? 0)%Z then mkStatsSnapshot 0 0 (Num 0)
  else
    let avg_time :=
      rnd64 fm (rnd64 fm (total_inference_time (stats self)
                          / rnd64 fm (IZR total)) * 1000) in
    let avg_confidence := fl_mean_int fm (confidence_scores (stats self)) in
    mkStatsSnapshot total (fl_round2 fm avg_time) (np_round2 fm avg_confidence).

(** Truth value of the [historical_patterns] argument. *)
Definition truthy (historical_patterns : option (list (gmap string py_value)))
    : bool :=
  match historical_patterns with
  | Some (_ :: _) => true
  | _ => false
  end.

(** [confidence_score * 0.7 + historical_score * 0.3] in float64, and its
    [int(...)]. *)
Definition fuse (fm : FloatModel) (confidence_score : Z)
    (historical_score : float) : result Z :=
  py_int_float
    (fadd (rnd64 fm)
       (fmul (rnd64 fm) (Num (rnd64 fm (IZR confidence_score)))
          (Num (rnd64 fm (7 / 10))))
       (fmul (rnd64 fm) historical_score (Num (rnd64 fm (3 / 10))))).

(** [predict(features, historical_patterns)]. *)
Definition predict (fm : FloatModel) (self : Engine)
    (features : gmap string py_value)
    (historical_patterns : option (list (gmap string py_value)))
    (inference_time : R) : result (PredictionResult * Engine) :=
  (* Preprocess features *)
  processed_features ← process_features fm features;
  (* Add derived features *)
  processed_features ← _add_derived_features fm processed_features;
  (* Convert to tensor *)
  let feature_tensor := map (to_float32 fm) processed_features in
  (* Normalize if scaler available *)
  feature_tensor ←
    match scaler self with
    | Some sc => transform fm sc feature_tensor
    | None => Ok feature_tensor
    end;
  (* Model inference *)
  confidence_logit ← forward fm (model self) feature_tensor;
  logit ← item_float (map (fun y => fmul (rnd32 fm) y (Num 100)) confidence_logit);
  confidence_score ← py_int_float logit;
  (* Anomaly detection *)
  anomaly_score ←
    match anomaly_detector self with
    | Some _ => _calculate_anomaly_score fm self feature_tensor
    | None => Ok 0
    end;
  (* Calculate feature importance *)
  feature_importance ← _calculate_feature_importance fm self feature_tensor;
  (* Historical comparison *)
  confidence_score ←
    (if truthy historical_patterns then
       historical_score ←
         _compare_with_historical fm processed_features
           (default [] historical_patterns);
       fuse fm confidence_score historical_score
     else Ok confidence_score);
  (* Update stats *)
  let self' :=
    mkEngine (model self) (scaler self) (anomaly_detector self)
      (_update_stats fm (stats self) confidence_score inference_time) in
  Ok (mkPredictionResult confidence_score anomaly_score feature_importance,
      self').

(** A sequence of [predict] calls on one engine. *)
Fixpoint predict_all (fm : FloatModel) (self : Engine)
    (calls : list (gmap string py_value
                   * option (list (gmap string py_value)) * R))
    : result (list PredictionResult * Engine) :=
  match calls with
  | [] => Ok ([], self)
  | (features, historical_patterns, dt) :: calls' =>
      '(r, self') ← predict fm self features historical_patterns dt;
      '(rs, self'') ← predict_all fm self' calls';
      Ok (r :: rs, self'')
  end.

(** The first steps of [predict] on their own: the float64 feature vector,
    the float32 tensor the network is given, the value of the network on
    it, and the confidence before the historical comparison. *)
Definition feature_vector (fm : FloatModel) (features : gmap string py_value)
    : result (list float) :=
  processed ← process_features fm features;
  _add_derived_features fm processed.

Definition model_input (fm : FloatModel) (self : Engine)
    (features : gmap string py_value) : result (list float) :=
  v ← feature_vector fm features;
  match scaler self with
  | Some sc => transform fm sc (map (to_float32 fm) v)
  | None => Ok (map (to_float32 fm) v)
  end.

Definition score (fm : FloatModel) (self : Engine)
    (features : gmap string py_value) : result float :=
  x ← model_input fm self features;
  y ← forward fm (model self) x;
  item_float y.

Definition model_confidence (fm : FloatModel) (self : Engine)
    (features : gmap string py_value) : result Z :=
  x ← model_input fm self features;
  y ← forward fm (model self) x;
  logit ← item_float (map (fun y => fmul (rnd32 fm) y (Num 100)) y);
  py_int_float logit.

End Fp.

(** [float(...)] accepts every value [process_features] reads from the
    map. *)
Definition convertible (fm : FloatModel) (features : gmap string py_value)
    : Prop :=
  forall name, name ∈ FeaturePreprocessor.feature_order ->
    exists x, py_float fm (py_get features name (PyInt 0)) = Ok x.

(** ... and none of them is [nan]. *)
Definition numeric (fm : FloatModel) (features : gmap string py_value)
    : Prop :=
  forall name, name ∈ FeaturePreprocessor.feature_order ->
    exists x, py_float fm (py_get features name (PyInt 0)) = Ok x /\ x <> NaN.

(** The arithmetic without rounding error, on finite values: every
    library call is the real-valued definition of the first part. *)
Definition exact_float : FloatModel := {|
  rnd32 := fun x => x;
  rnd64 := fun x => x;
  fl_transform := fun sc x i =>
    match StandardScaler.transform sc (map float_R x) with
    | Ok y => Num (default 0 (y !! i))
    | Raise _ => NaN
    end;
  fl_net := fun m x i =>
    match BehavioralAuthNN.forward m (map float_R x) with
    | Ok y => Num (default 0 (y !! i))
    | Raise _ => NaN
    end;
  fl_grad := fun m x i =>
    match BehavioralAuthNN.input_grad m (map float_R x) with
    | Ok g => default 0 (g !! i)
    | Raise _ => 0
    end;
  fl_detector := fun d x =>
    match BehavioralAnomalyDetector.anomaly_score d (map float_R x) ≫= item with
    | Ok a => a
    | Raise _ => 0
    end;
  fl_sum32 := Rsum;
  fl_mean_axis0 := fun vs i =>
    Num (default 0 (np_mean_axis0 (map (map float_R) vs) !! i));
  fl_norm := fun v => Num (np_linalg_norm (map float_R v));
  fl_mean_int := fun l => Num (np_mean_int l);
  fl_round2 := py_round2;
  np_round2 := fun x =>
    match x with
    | Num v => Num (py_round2 v)
    | _ => x
    end
|}.

(** A dictionary of finite floats, a history of such dictionaries. *)
Definition as_py (features : gmap string R) : gmap string py_value :=
  (fun x => PyFloat (Num x)) <$> features.

Definition as_py_history (historical_patterns : option (list (gmap string R)))
    : option (list (gmap string py_value)) :=
  map as_py <$> historical_patterns.

Definition as_py_calls
    (calls : list (gmap string R * option (list (gmap string R)) * R))
    : list (gmap string py_value * option (list (gmap string py_value)) * R) :=
  map (fun '(features, historical_patterns, dt) =>
         (as_py features, as_py_history historical_patterns, dt)) calls.

(** The feature map of the worked example as the API supplies it, a map
    with two keys, and three maps [float(...)] or [np.clip] does not
    handle as numbers. *)
Definition api_features : gmap string py_value :=
  {[ "typing_speed_wpm" := PyInt 65;
     "avg_key_hold_time_ms" := PyInt 120;
     "avg_transition_time_ms" := PyInt 85;
     "error_rate_percent" := PyInt 3;
     "activity_hour_preference" := PyInt 14 ]}.

Definition huge_speed : gmap string py_value :=
  {[ "typing_speed_wpm" := PyInt (10 ^ 400) ]}.

Definition null_speed : gmap string py_value :=
  {[ "typing_speed_wpm" := PyNone ]}.

Definition nan_speed : gmap string py_value :=
  {[ "typing_speed_wpm" := PyFloat NaN ]}.

(** * Properties *)

(** ** Numeric helpers *)

Lemma np_clip_bounds (v lo hi : R) : lo <= hi -> lo <= np_clip v lo hi <= hi.
Proof.
  intros Hle. unfold np_clip, Rmin, Rmax.
  repeat destruct (Rle_dec _ _); lra.
Qed.

Lemma np_clip_inside (v lo hi : R) : lo <= v <= hi -> np_clip v lo hi = v.
Proof.
  intros Hin. unfold np_clip, Rmin, Rmax.
  repeat destruct (Rle_dec _ _); lra.
Qed.

Lemma np_clip_above (v lo hi : R) : lo <= hi -> hi <= v -> np_clip v lo hi = hi.
Proof.
  intros Hle Hv. unfold np_clip, Rmin, Rmax.
  repeat destruct (Rle_dec _ _); lra.
Qed.

Lemma np_clip_below (v lo hi : R) : lo <= hi -> v <= lo -> np_clip v lo hi = lo.
Proof.
  intros Hle Hv. unfold np_clip, Rmin, Rmax.
  repeat destruct (Rle_dec _ _); lra.
Qed.

Lemma py_div_ok (a b : R) : b <> 0 -> py_div a b = Ok (a / b).
Proof.
  intros Hb. unfold py_div. destruct (Req_dec_T b 0); [contradiction | reflexivity].
Qed.

(** ** Normalisation *)

Lemma process_features_unfold (features : gmap string R) :
  FeaturePreprocessor.process_features features =
  Ok [ np_clip (py_get features "typing_speed_wpm" 0) 10 200;
       np_clip (py_get features "avg_key_hold_time_ms" 0) 20 500;
       np_clip (py_get features "avg_transition_time_ms" 0) 20 400;
       np_clip (py_get features "error_rate_percent" 0) 0 50;
       np_clip (py_get features "activity_hour_preference" 0) 0 23 ].
Proof. reflexivity. Qed.

Lemma add_derived_ok (a b c d h : R) :
  d + 1 <> 0 -> c + 1 <> 0 ->
  _add_derived_features [a; b; c; d; h] =
  Ok [a; b; c; d; h; a / (d + 1); b / (c + 1)].
Proof.
  intros Hd Hc. unfold _add_derived_features. cbn.
  rewrite (py_div_ok a _ Hd). cbn. rewrite (py_div_ok b _ Hc). reflexivity.
Qed.

Lemma feature_vector_ok (features : gmap string R) :
  feature_vector features = Ok (vector_of features).
Proof.
  unfold feature_vector. rewrite process_features_unfold. cbn [mbind result_bind].
  unfold vector_of, clipped.
  apply add_derived_ok.
  - pose proof (np_clip_bounds (py_get features "error_rate_percent" 0) 0 50). lra.
  - pose proof (np_clip_bounds (py_get features "avg_transition_time_ms" 0) 20 400). lra.
Qed.

Lemma vector_of_length (features : gmap string R) :
  length (vector_of features) = 7%nat.
Proof. reflexivity. Qed.


(** The out-of-range example: a typing speed of 500 is clipped to 200, and
    the keys that are missing are taken as 0 before clipping. *)
Example fast_typist_clipped :
  feature_vector fast_typist =
  Ok [200; 120; 20; 0; 0; 200 / (0 + 1); 120 / (20 + 1)].
Proof.
  rewrite feature_vector_ok. unfold vector_of, clipped.
  change (py_get fast_typist "typing_speed_wpm" 0) with 500.
  change (py_get fast_typist "avg_key_hold_time_ms" 0) with 120.
  change (py_get fast_typist "avg_transition_time_ms" 0) with 0.
  change (py_get fast_typist "error_rate_percent" 0) with 0.
  change (py_get fast_typist "activity_hour_preference" 0) with 0.
  rewrite (np_clip_above 500 10 200) by lra.
  rewrite (np_clip_inside 120 20 500) by lra.
  rewrite (np_clip_below 0 20 400) by lra.
  rewrite (np_clip_inside 0 0 50) by lra.
  rewrite (np_clip_inside 0 0 23) by lra.
  reflexivity.
Qed.

Lemma example_vector :
  vector_of example_features = [65; 120; 85; 3; 14; 65 / (3 + 1); 120 / (85 + 1)].
Proof.
  unfold vector_of, clipped.
  change (py_get example_features "typing_speed_wpm" 0) with 65.
  change (py_get example_features "avg_key_hold_time_ms" 0) with 120.
  change (py_get example_features "avg_transition_time_ms" 0) with 85.
  change (py_get example_features "error_rate_percent" 0) with 3.
  change (py_get example_features "activity_hour_preference" 0) with 14.
  rewrite (np_clip_inside 65 10 200) by lra.
  rewrite (np_clip_inside 120 20 500) by lra.
  rewrite (np_clip_inside 85 20 400) by lra.
  rewrite (np_clip_inside 3 0 50) by lra.
  rewrite (np_clip_inside 14 0 23) by lra.
  reflexivity.
Qed.

(** C7.  For every raw feature map the two derived entries are
    typing_speed / (error_rate + 1) and key_hold_time / (transition_time + 1)
    of the clipped values; both denominators are non-zero, so the division
    never raises; on the example input the vector is
    [65, 120, 85, 3, 14, 16.25, 120/86]. *)
Theorem derived_features_formula (features : gmap string R) :
  (exists a b c d h,
     FeaturePreprocessor.process_features features = Ok [a; b; c; d; h] /\
     d + 1 <> 0 /\ c + 1 <> 0 /\
     py_div a (d + 1) = Ok (a / (d + 1)) /\
     py_div b (c + 1) = Ok (b / (c + 1)) /\
     _add_derived_features [a; b; c; d; h] =
       Ok [a; b; c; d; h; a / (d + 1); b / (c + 1)]) /\
  feature_vector example_features =
    Ok [65; 120; 85; 3; 14; 1625 / 100; 120 / 86].
Proof.
  split.
  - do 5 eexists. split; [apply process_features_unfold |].
    assert (Hd : np_clip (py_get features "error_rate_percent" 0) 0 50 + 1 <> 0).
    { pose proof (np_clip_bounds (py_get features "error_rate_percent" 0) 0 50).
      lra. }
    assert (Hc : np_clip (py_get features "avg_transition_time_ms" 0) 20 400 + 1 <> 0).
    { pose proof (np_clip_bounds (py_get features "avg_transition_time_ms" 0) 20 400).
      lra. }
    split; [exact Hd |]. split; [exact Hc |].
    split; [apply py_div_ok; exact Hd |].
    split; [apply py_div_ok; exact Hc |].
    apply add_derived_ok; assumption.
  - rewrite feature_vector_ok, example_vector.
    replace (65 / (3 + 1)) with (1625 / 100) by lra.
    replace (85 + 1) with 86 by lra.
    reflexivity.
Qed.

(** ** The layers *)

Lemma zip_with3_length {A B C D : Type} (f : A -> B -> C -> D)
    (la : list A) (lb : list B) (lc : list C) :
  length lb = length la -> length lc = length la ->
  length (zip_with3 f la lb lc) = length la.
Proof.
  revert lb lc. induction la as [| a la IH]; intros [| b lb] [| c lc]; cbn;
    intros Hb Hc; try discriminate; try reflexivity.
  f_equal. apply IH; congruence.
Qed.

Lemma transform_length (sc : StandardScaler.t) (x y : list R) :
  StandardScaler.transform sc x = Ok y -> length y = length x.
Proof.
  unfold StandardScaler.transform.
  destruct (length x =? length (StandardScaler.mean_ sc))%nat eqn:Hm;
    [| discriminate].
  destruct (length x =? length (StandardScaler.scale_ sc))%nat eqn:Hs;
    [| discriminate].
  cbn. intros [= <-].
  apply Nat.eqb_eq in Hm, Hs. apply zip_with3_length; congruence.
Qed.

Lemma linear_forward_mismatch (l : Linear.t) (x : list R) :
  length x <> Linear.in_features l -> Linear.forward l x = Raise RuntimeError.
Proof.
  intros Hne. unfold Linear.forward.
  destruct (length x =? Linear.in_features l)%nat eqn:E; [| reflexivity].
  apply Nat.eqb_eq in E. contradiction.
Qed.

Lemma linear_load_in_features (l l' : Linear.t) w b :
  Linear.load l w b = Ok l' -> Linear.in_features l' = Linear.in_features l.
Proof.
  unfold Linear.load. destruct (_ && _); [| discriminate].
  intros [= <-]. reflexivity.
Qed.

Lemma forward_mismatch (m : BehavioralAuthNN.t) (x : list R) :
  length x <> Linear.in_features (BehavioralAuthNN.fc1 m) ->
  BehavioralAuthNN.forward m x = Raise RuntimeError.
Proof.
  intros Hne. unfold BehavioralAuthNN.forward.
  rewrite (linear_forward_mismatch _ _ Hne). reflexivity.
Qed.

Lemma load_state_dict_input_dim (m m' : BehavioralAuthNN.t) sd :
  BehavioralAuthNN.load_state_dict m sd = Ok m' ->
  Linear.in_features (BehavioralAuthNN.fc1 m') =
  Linear.in_features (BehavioralAuthNN.fc1 m).
Proof.
  unfold BehavioralAuthNN.load_state_dict. intros H.
  repeat inv_bind H. injection H as <-. cbn.
  eapply linear_load_in_features; eassumption.
Qed.

Lemma init_input_dim state sc (e : Engine) :
  __init__ state sc = Ok e ->
  Linear.in_features (BehavioralAuthNN.fc1 (model e)) = 6%nat.
Proof.
  unfold __init__. intros H. inv_bind H. injection H as <-. cbn.
  apply load_state_dict_input_dim in E. exact E.
Qed.

Lemma model_input_length (e : Engine) features x :
  model_input e features = Ok x -> length x = 7%nat.
Proof.
  unfold model_input. rewrite feature_vector_ok. cbn [mbind result_bind].
  destruct (scaler e) as [sc |].
  - intros H. apply transform_length in H. rewrite H. apply vector_of_length.
  - intros [= <-]. apply vector_of_length.
Qed.

(** ** [predict], step by step *)

Lemma anomaly_branch (e : Engine) (x : list R) :
  match anomaly_detector e with
  | Some _ => _calculate_anomaly_score e x
  | None => Ok 0
  end = _calculate_anomaly_score e x.
Proof. unfold _calculate_anomaly_score. destruct (anomaly_detector e); reflexivity. Qed.

Lemma predict_unfold (e : Engine) features hist dt :
  predict e features hist dt =
  (x ← model_input e features;
   y ← BehavioralAuthNN.forward (model e) x;
   logit ← item (map (fun y => y * 100) y);
   a ← _calculate_anomaly_score e x;
   imp ← _calculate_feature_importance e x;
   c ← (if truthy hist then
          hs ← _compare_with_historical (vector_of features) (default [] hist);
          Ok (py_int (IZR (py_int logit) * (7 / 10) + hs * (3 / 10)))
        else Ok (py_int logit));
   Ok (mkPredictionResult c a imp,
       mkEngine (model e) (scaler e) (anomaly_detector e)
         (_update_stats (stats e) c dt))).
Proof.
  unfold predict, model_input.
  pose proof (feature_vector_ok features) as Hv. unfold feature_vector in Hv.
  rewrite feature_vector_ok.
  destruct (FeaturePreprocessor.process_features features) as [p | err];
    cbn [mbind result_bind] in *; [| discriminate].
  rewrite Hv. cbn [mbind result_bind].
  destruct (match scaler e with
            | Some sc => StandardScaler.transform sc (vector_of features)
            | None => Ok (vector_of features)
            end) as [x | err]; cbn [mbind result_bind]; [| reflexivity].
  destruct (BehavioralAuthNN.forward (model e) x) as [y | err];
    cbn [mbind result_bind]; [| reflexivity].
  destruct (item (map (fun y0 => y0 * 100) y)) as [logit | err];
    cbn [mbind result_bind]; [| reflexivity].
  rewrite anomaly_branch. reflexivity.
Qed.

Lemma item_scaled (y : list R) :
  item (map (fun y => y * 100) y) = (s ← item y; Ok (s * 100)).
Proof. destruct y as [| a [| b y]]; reflexivity. Qed.

Lemma mapM_total {A B : Type} (f : A -> result B) (g : A -> B) (l : list A) :
  (forall a, f a = Ok (g a)) -> mapM f l = Ok (map g l).
Proof.
  intros Hf. induction l as [| a l IH]; [reflexivity |].
  change (mapM f (a :: l)) with (b ← f a; bs ← mapM f l; Ok (b :: bs)).
  rewrite Hf, IH. reflexivity.
Qed.

Lemma compare_with_historical_ok (current : list R) p (ps : list (gmap string R)) :
  _compare_with_historical current (p :: ps) = Ok (similarity current (p :: ps)).
Proof.
  unfold _compare_with_historical.
  rewrite (mapM_total _ vector_of).
  - reflexivity.
  - intros q. apply (feature_vector_ok q).
Qed.

Lemma compare_with_historical_empty (current : list R) :
  _compare_with_historical current [] = Ok 50.
Proof. reflexivity. Qed.

Lemma similarity_range (current : list R) history :
  0 <= similarity current history <= 100.
Proof.
  unfold similarity, np_linalg_norm.
  set (d := sqrt _). assert (0 <= d) by apply sqrt_pos.
  unfold Rmax. destruct (Rle_dec _ _); lra.
Qed.

(** ** The scoring model *)

Lemma sigmoid_range (x : R) : 0 < sigmoid x < 1.
Proof.
  unfold sigmoid. pose proof (exp_pos (- x)) as He.
  split.
  - apply Rdiv_lt_0_compat; lra.
  - apply (Rmult_lt_reg_r (1 + exp (- x))); [lra |].
    unfold Rdiv. rewrite Rmult_assoc, Rinv_l by lra. lra.
Qed.

Lemma linear_forward_inv (l : Linear.t) (x y : list R) :
  Linear.forward l x = Ok y -> length x = Linear.in_features l.
Proof.
  unfold Linear.forward.
  destruct (length x =? Linear.in_features l)%nat eqn:E; [| discriminate].
  intros _. apply Nat.eqb_eq in E. exact E.
Qed.

Lemma linear_backward_length (l : Linear.t) (g : list R) :
  length (Linear.backward l g) = Linear.in_features l.
Proof. unfold Linear.backward. rewrite length_map, length_seq. reflexivity. Qed.

Lemma forward_inv (m : BehavioralAuthNN.t) (x y : list R) :
  BehavioralAuthNN.forward m x = Ok y ->
  length x = Linear.in_features (BehavioralAuthNN.fc1 m) /\
  exists z, y = map sigmoid z.
Proof.
  unfold BehavioralAuthNN.forward. intros H.
  repeat inv_bind H. injection H as <-.
  split; [eapply linear_forward_inv; eassumption | eauto].
Qed.

Lemma forward_item_range (m : BehavioralAuthNN.t) (x y : list R) (s : R) :
  BehavioralAuthNN.forward m x = Ok y -> item y = Ok s -> 0 < s < 1.
Proof.
  intros Hf Hi. apply forward_inv in Hf as [_ [z ->]].
  destruct z as [| z0 [| z1 z]]; cbn in Hi; try discriminate.
  injection Hi as <-. apply sigmoid_range.
Qed.

Lemma input_grad_ok (m : BehavioralAuthNN.t) (x y : list R) (s : R) :
  BehavioralAuthNN.forward m x = Ok y -> item y = Ok s ->
  exists g, BehavioralAuthNN.input_grad m x = Ok g /\ length g = length x.
Proof.
  unfold BehavioralAuthNN.forward, BehavioralAuthNN.input_grad. intros H Hi.
  repeat inv_bind H. injection H as <-.
  cbn [mbind result_bind].
  assert (Hz : exists s', item a5 = Ok s').
  { destruct a5 as [| z0 [| z1 z]]; cbn in Hi; try discriminate. cbn. eauto. }
  destruct Hz as [s' Hz].
  repeat (match goal with
          | Heq : ?c = Ok _ |- context [?c] =>
              rewrite Heq; cbn [mbind result_bind]
          end).
  eexists. split; [reflexivity |].
  rewrite linear_backward_length. symmetry.
  eapply linear_forward_inv; eassumption.
Qed.

Lemma input_grad_inv (m : BehavioralAuthNN.t) (x g : list R) :
  BehavioralAuthNN.input_grad m x = Ok g -> length g = length x.
Proof.
  unfold BehavioralAuthNN.input_grad. intros H.
  repeat inv_bind H. injection H as <-.
  rewrite linear_backward_length. symmetry.
  eapply linear_forward_inv; eassumption.
Qed.

Lemma feature_importance_unfold (e : Engine) (x : list R) :
  _calculate_feature_importance e x =
  (sens ← sensitivities e x; Ok (zip feature_names (normalized sens))).
Proof. reflexivity. Qed.

Lemma sensitivities_ok (e : Engine) (x y : list R) (s : R) :
  BehavioralAuthNN.forward (model e) x = Ok y -> item y = Ok s ->
  exists sens, sensitivities e x = Ok sens /\ length sens = length x.
Proof.
  intros Hf Hi. destruct (input_grad_ok _ _ _ _ Hf Hi) as [g [Hg Hl]].
  unfold sensitivities. rewrite Hg. cbn [mbind result_bind].
  eexists. split; [reflexivity |]. rewrite length_map. exact Hl.
Qed.

Lemma score_unfold (e : Engine) features :
  score e features =
  (x ← model_input e features;
   y ← BehavioralAuthNN.forward (model e) x;
   item y).
Proof. reflexivity. Qed.

Lemma score_range (e : Engine) features (s : R) :
  score e features = Ok s -> 0 < s < 1.
Proof.
  rewrite score_unfold. intros H. repeat inv_bind H.
  eapply forward_item_range; eassumption.
Qed.

(** Whenever the model evaluates on the input and no anomaly detector is
    set, [predict] returns. *)
Lemma predict_ok (e : Engine) features hist dt (s : R) :
  score e features = Ok s -> anomaly_detector e = None ->
  exists imp,
    predict e features hist dt =
    Ok (mkPredictionResult (final_confidence features hist s) 0 imp,
        mkEngine (model e) (scaler e) (anomaly_detector e)
          (_update_stats (stats e) (final_confidence features hist s) dt)).
Proof.
  rewrite score_unfold, predict_unfold. intros H Hnone.
  destruct (model_input e features) as [x | err]; cbn [mbind result_bind] in *;
    [| discriminate].
  destruct (BehavioralAuthNN.forward (model e) x) as [y | err] eqn:Hf;
    cbn [mbind result_bind] in *; [| discriminate].
  rewrite item_scaled, H. cbn [mbind result_bind].
  unfold _calculate_anomaly_score. rewrite Hnone. cbn [mbind result_bind].
  destruct (sensitivities_ok e x y s Hf H) as [sens [Hs _]].
  rewrite feature_importance_unfold, Hs. cbn [mbind result_bind].
  eexists.
  destruct hist as [[| p ps] |]; cbn [truthy final_confidence mbind result_bind].
  - reflexivity.
  - change (default [] (Some (p :: ps))) with (p :: ps).
    rewrite compare_with_historical_ok. reflexivity.
  - reflexivity.
Qed.

(** Whenever [predict] returns, the model evaluated on the input. *)
Lemma predict_inv (e : Engine) features hist dt r (e' : Engine) :
  predict e features hist dt = Ok (r, e') ->
  exists s,
    score e features = Ok s /\
    confidence_score r = final_confidence features hist s /\
    e' = mkEngine (model e) (scaler e) (anomaly_detector e)
           (_update_stats (stats e) (confidence_score r) dt).
Proof.
  rewrite score_unfold, predict_unfold. intros H.
  destruct (model_input e features) as [x | err]; cbn [mbind result_bind] in *;
    [| discriminate].
  destruct (BehavioralAuthNN.forward (model e) x) as [y | err] eqn:Hf;
    cbn [mbind result_bind] in *; [| discriminate].
  rewrite item_scaled in H.
  destruct (item y) as [s | err]; cbn [mbind result_bind] in *; [| discriminate].
  exists s. split; [reflexivity |].
  destruct (_calculate_anomaly_score e x) as [a | err];
    cbn [mbind result_bind] in *; [| discriminate].
  destruct (_calculate_feature_importance e x) as [imp | err];
    cbn [mbind result_bind] in *; [| discriminate].
  destruct hist as [[| p ps] |]; cbn [truthy final_confidence mbind result_bind] in *.
  - injection H as <- <-. split; reflexivity.
  - change (default [] (Some (p :: ps))) with (p :: ps) in H.
    rewrite compare_with_historical_ok in H. cbn [mbind result_bind] in H.
    injection H as <- <-. split; reflexivity.
  - injection H as <- <-. split; reflexivity.
Qed.

(** ** A network with constant output *)

Lemma dot_zero (n : nat) (x : list R) : dot (replicate n 0) x = 0.
Proof.
  unfold dot. revert x. induction n as [| n IH]; intros [| a x]; cbn;
    try reflexivity.
  rewrite IH. lra.
Qed.

Lemma linear_forward_zero (n_in n_out : nat) (bs x : list R) :
  length x = n_in -> length bs = n_out ->
  Linear.forward (Linear.mk n_in n_out (replicate n_out (replicate n_in 0)) bs) x
  = Ok bs.
Proof.
  intros Hx Hb. unfold Linear.forward. cbn [Linear.in_features Linear.weight Linear.bias].
  rewrite <- Hx, Nat.eqb_refl. f_equal. subst n_out.
  induction bs as [| b bs IH]; [reflexivity |].
  cbn. rewrite Hx, dot_zero. f_equal; [lra |]. rewrite <- Hx. exact IH.
Qed.

Lemma length_replicate_R (n : nat) (c : R) : length (replicate n c) = n.
Proof. apply length_replicate. Qed.

Lemma batchnorm_new_zero (n : nat) :
  BatchNorm1d.forward (BatchNorm1d.new n) (replicate n 0) = Ok (replicate n 0).
Proof.
  unfold BatchNorm1d.forward, BatchNorm1d.new.
  cbn [BatchNorm1d.num_features BatchNorm1d.eps BatchNorm1d.running_mean
       BatchNorm1d.running_var BatchNorm1d.weight BatchNorm1d.bias].
  rewrite length_replicate, Nat.eqb_refl. f_equal.
  induction n as [| n IH]; [reflexivity |].
  cbn. rewrite IH. f_equal. unfold Rdiv. ring.
Qed.

Lemma relu_zero (n : nat) : relu (replicate n 0) = replicate n 0.
Proof.
  unfold relu. induction n as [| n IH]; [reflexivity |].
  cbn. rewrite IH. f_equal. unfold Rmax. destruct (Rle_dec 0 0); lra.
Qed.

Lemma constant_model_forward (b : R) (x : list R) :
  length x = 7%nat ->
  BehavioralAuthNN.forward (constant_model b) x = Ok [sigmoid b].
Proof.
  intros Hx. unfold BehavioralAuthNN.forward, constant_model.
  cbn [BehavioralAuthNN.new BehavioralAuthNN.default_hidden_dims
       BehavioralAuthNN.fc1 BehavioralAuthNN.bn1 BehavioralAuthNN.fc2
       BehavioralAuthNN.bn2 BehavioralAuthNN.fc3 BehavioralAuthNN.bn3
       BehavioralAuthNN.fc_out].
  unfold Linear.new.
  rewrite linear_forward_zero by (exact Hx || apply length_replicate).
  cbn [mbind result_bind].
  rewrite batchnorm_new_zero. cbn [mbind result_bind]. rewrite relu_zero.
  rewrite linear_forward_zero by apply length_replicate.
  cbn [mbind result_bind].
  rewrite batchnorm_new_zero. cbn [mbind result_bind]. rewrite relu_zero.
  rewrite linear_forward_zero by apply length_replicate.
  cbn [mbind result_bind].
  rewrite batchnorm_new_zero. cbn [mbind result_bind]. rewrite relu_zero.
  change [replicate 32 0] with (replicate 1 (replicate 32 0)).
  rewrite linear_forward_zero by (apply length_replicate || reflexivity).
  reflexivity.
Qed.

Lemma sigmoid_logit (p : R) : 0 < p < 1 -> sigmoid (logit p) = p.
Proof.
  intros Hp. unfold sigmoid, logit.
  assert (Hq : 0 < p / (1 - p)) by (apply Rdiv_lt_0_compat; lra).
  rewrite exp_Ropp, exp_ln by exact Hq.
  field. lra.
Qed.

Lemma constant_engine_score (p : R) features :
  0 < p < 1 -> score (constant_engine p) features = Ok p.
Proof.
  intros Hp. rewrite score_unfold. unfold model_input.
  rewrite feature_vector_ok. cbn [mbind result_bind constant_engine init_with scaler model].
  rewrite constant_model_forward by apply vector_of_length.
  cbn [mbind result_bind item]. rewrite sigmoid_logit by exact Hp. reflexivity.
Qed.

Lemma constant_engine_no_detector (p : R) :
  anomaly_detector (constant_engine p) = None.
Proof. reflexivity. Qed.

(** ** [int] and [round] at concrete points *)

Lemma py_int_nonneg (x : R) : 0 <= x -> py_int x = Zfloor x.
Proof. intros Hx. unfold py_int. destruct (Rle_dec 0 x); [reflexivity | lra]. Qed.

Lemma py_int_eq (x : R) (n : Z) :
  0 <= x -> IZR n <= x < IZR n + 1 -> py_int x = n.
Proof. intros Hx Hn. rewrite py_int_nonneg by exact Hx. apply Zfloor_eq, Hn. Qed.


(** ** The network the engine constructs *)

Lemma init_zero_state_6 :
  __init__ (zero_state 6) None =
  Ok (init_with (BehavioralAuthNN.new 6 BehavioralAuthNN.default_hidden_dims) None).
Proof. reflexivity. Qed.

(** A state saved from a 7-input network, as the training script builds
    it, is refused by [__init__]. *)
Lemma init_rejects_7_input_state state sc :
  has_shape2 (BehavioralAuthNN.fc1_weight state) 128 7 = true ->
  __init__ state sc = Raise RuntimeError.
Proof.
  intros Hs. unfold __init__, BehavioralAuthNN.load_state_dict.
  assert (Hl : Linear.load
                 (BehavioralAuthNN.fc1
                    (BehavioralAuthNN.new BehavioralAuthNN.default_input_dim
                       BehavioralAuthNN.default_hidden_dims))
                 (BehavioralAuthNN.fc1_weight state)
                 (BehavioralAuthNN.fc1_bias state) = Raise RuntimeError).
  { unfold Linear.load. cbn [BehavioralAuthNN.new BehavioralAuthNN.fc1
      BehavioralAuthNN.default_hidden_dims BehavioralAuthNN.default_input_dim
      Linear.new Linear.in_features Linear.out_features].
    unfold has_shape2 in *.
    destruct (BehavioralAuthNN.fc1_weight state) as [| row w]; [discriminate |].
    apply andb_true_iff in Hs as [Hlen Hall]. cbn [forallb] in *.
    apply andb_true_iff in Hall as [Hrow _]. apply Nat.eqb_eq in Hrow.
    rewrite Hrow. cbn. rewrite andb_false_r. reflexivity. }
  rewrite Hl. reflexivity.
Qed.

(** C1 (defect).  The engine constructs [BehavioralAuthNN()] with the
    default [input_dim = 6], so whatever state it loads, its first layer
    expects 6 entries: the network raises on every 7-entry vector, and
    [predict] raises for every raw feature map, with or without history. *)
Theorem shipped_model_rejects_feature_vector
    state sc (e : Engine) (features : gmap string R) hist dt :
  __init__ state sc = Ok e ->
  (exists v, feature_vector features = Ok v /\ length v = 7%nat) /\
  (forall x, length x = 7%nat ->
     BehavioralAuthNN.forward (model e) x = Raise RuntimeError) /\
  (exists err, score e features = Raise err) /\
  (exists err, predict e features hist dt = Raise err).
Proof.
  intros Hinit. pose proof (init_input_dim _ _ _ Hinit) as Hdim.
  assert (Hfw : forall x, length x = 7%nat ->
            BehavioralAuthNN.forward (model e) x = Raise RuntimeError).
  { intros x Hx. apply forward_mismatch. rewrite Hdim, Hx. discriminate. }
  split; [| split; [exact Hfw | split]].
  - exists (vector_of features). split; [apply feature_vector_ok | reflexivity].
  - rewrite score_unfold.
    destruct (model_input e features) as [x | err] eqn:Hx;
      cbn [mbind result_bind]; [| eauto].
    rewrite (Hfw x (model_input_length _ _ _ Hx)). cbn [mbind result_bind]. eauto.
  - rewrite predict_unfold.
    destruct (model_input e features) as [x | err] eqn:Hx;
      cbn [mbind result_bind]; [| eauto].
    rewrite (Hfw x (model_input_length _ _ _ Hx)). cbn [mbind result_bind]. eauto.
Qed.

Lemma shipped_model_rejects_witness :
  __init__ (zero_state 6) None =
    Ok (init_with (BehavioralAuthNN.new 6 BehavioralAuthNN.default_hidden_dims) None)
  /\ exists err,
       predict (init_with (BehavioralAuthNN.new 6 BehavioralAuthNN.default_hidden_dims) None)
         example_features None 0 = Raise err.
Proof.
  split; [exact init_zero_state_6 |].
  exact (proj2 (proj2 (proj2
    (shipped_model_rejects_feature_vector (zero_state 6) None _
       example_features None 0 init_zero_state_6)))).
Defined.

(** ** Confidence without history *)

Lemma py_int_score_range (s : R) :
  0 < s < 1 ->
  py_int (s * 100) = Zfloor (s * 100) /\ (0 <= py_int (s * 100) <= 99)%Z.
Proof.
  intros Hs. rewrite py_int_nonneg by lra. split; [reflexivity |].
  pose proof (Zfloor_bound (s * 100)) as Hb.
  split.
  - apply Zfloor_lub. lra.
  - apply Z.lt_succ_r. apply lt_IZR. change (Z.succ 99) with 100%Z. lra.
Qed.




(** ** Confidence with history *)

(** Whether [predict] returns does not depend on the history; only the
    confidence does. *)
Lemma predict_change_history (e : Engine) features h dt r (e' : Engine) h' dt' :
  predict e features h dt = Ok (r, e') ->
  exists s,
    score e features = Ok s /\
    confidence_score r = final_confidence features h s /\
    predict e features h' dt' =
    Ok (mkPredictionResult (final_confidence features h' s)
          (anomaly_score r) (feature_importance r),
        mkEngine (model e) (scaler e) (anomaly_detector e)
          (_update_stats (stats e) (final_confidence features h' s) dt')).
Proof.
  rewrite score_unfold, !predict_unfold. intros H.
  destruct (model_input e features) as [x | err]; cbn [mbind result_bind] in *;
    [| discriminate].
  destruct (BehavioralAuthNN.forward (model e) x) as [y | err];
    cbn [mbind result_bind] in *; [| discriminate].
  rewrite item_scaled in *.
  destruct (item y) as [s | err]; cbn [mbind result_bind] in *; [| discriminate].
  exists s. split; [reflexivity |].
  destruct (_calculate_anomaly_score e x) as [a | err];
    cbn [mbind result_bind] in *; [| discriminate].
  destruct (_calculate_feature_importance e x) as [imp | err];
    cbn [mbind result_bind] in *; [| discriminate].
  assert (Hr : confidence_score r = final_confidence features h s /\
               anomaly_score r = a /\ feature_importance r = imp).
  { destruct h as [[| p ps] |]; cbn [truthy final_confidence mbind result_bind] in *.
    - injection H as <- <-. repeat split.
    - change (default [] (Some (p :: ps))) with (p :: ps) in H.
      rewrite compare_with_historical_ok in H. cbn [mbind result_bind] in H.
      injection H as <- <-. repeat split.
    - injection H as <- <-. repeat split. }
  destruct Hr as [Hc [-> ->]]. split; [exact Hc |].
  destruct h' as [[| p ps] |]; cbn [truthy final_confidence mbind result_bind].
  - reflexivity.
  - change (default [] (Some (p :: ps))) with (p :: ps).
    rewrite compare_with_historical_ok. reflexivity.
  - reflexivity.
Qed.

Lemma Rsum_cons (a : R) (l : list R) : Rsum (a :: l) = a + Rsum l.
Proof. reflexivity. Qed.

Lemma vec_sub_mean_self (v : list R) :
  vec_sub v (np_mean_axis0 [v]) = map (fun _ => 0) v.
Proof.
  unfold np_mean_axis0, vec_sub, vec_scale. cbn [foldl length INR].
  induction v as [| a v IH]; [reflexivity |].
  cbn. rewrite IH. f_equal. rewrite Rinv_1. ring.
Qed.

Lemma norm_zero (v : list R) : np_linalg_norm (map (fun _ => 0) v) = 0.
Proof.
  unfold np_linalg_norm.
  replace (Rsum (map (fun x => x * x) (map (fun _ => 0) v))) with 0.
  - apply sqrt_0.
  - symmetry. induction v as [| a v IH]; [reflexivity |].
    cbn [map]. rewrite Rsum_cons, IH. ring.
Qed.

(** A single historical pattern equal to the current features is perfectly
    consistent. *)
Lemma similarity_self (features : gmap string R) :
  similarity (vector_of features) [features] = 100.
Proof.
  unfold similarity. cbn [map]. rewrite vec_sub_mean_self, norm_zero.
  unfold Rmax. destruct (Rle_dec 0 _); lra.
Qed.




(** ** Absent and empty history *)





(** ** Perfectly consistent history *)

(** C5.  When the call without history returns a confidence below the
    maximum, the call with a single historical pattern equal to the current
    features returns too, with consistency 100 and a confidence that is not
    lower. *)
Theorem consistent_history_not_lower
    (e : Engine) (features : gmap string R) dt r0 (e0 : Engine) :
  predict e features None dt = Ok (r0, e0) ->
  (confidence_score r0 < 100)%Z ->
  exists r1 e1,
    _compare_with_historical (vector_of features) [features] = Ok 100 /\
    predict e features (Some [features]) dt = Ok (r1, e1) /\
    confidence_score r1 =
      py_int (IZR (confidence_score r0) * (7 / 10) + 100 * (3 / 10)) /\
    (confidence_score r0 <= confidence_score r1)%Z.
Proof.
  intros H0 Hmax.
  destruct (predict_change_history _ _ _ _ _ _ (Some [features]) dt H0)
    as [s [Hs [Hc0 H1]]].
  do 2 eexists.
  split; [rewrite compare_with_historical_ok, similarity_self; reflexivity |].
  split; [exact H1 |].
  cbn [confidence_score final_confidence] in *. rewrite similarity_self, <- Hc0.
  split; [reflexivity |].
  destruct (py_int_score_range s (score_range _ _ _ Hs)) as [_ [Hlo _]].
  rewrite <- Hc0 in Hlo.
  apply IZR_le in Hlo. apply IZR_lt in Hmax.
  rewrite py_int_nonneg by lra.
  apply Zfloor_lub. lra.
Qed.

Lemma consistent_history_not_lower_witness :
  exists r0 e0,
    predict (constant_engine (917 / 1000)) example_features None 0 = Ok (r0, e0) /\
    (confidence_score r0 < 100)%Z /\
    exists r1 e1,
      _compare_with_historical (vector_of example_features) [example_features]
        = Ok 100 /\
      predict (constant_engine (917 / 1000)) example_features
        (Some [example_features]) 0 = Ok (r1, e1) /\
      confidence_score r1 =
        py_int (IZR (confidence_score r0) * (7 / 10) + 100 * (3 / 10)) /\
      (confidence_score r0 <= confidence_score r1)%Z.
Proof.
  assert (Hs : score (constant_engine (917 / 1000)) example_features
               = Ok (917 / 1000)) by (apply constant_engine_score; lra).
  destruct (predict_ok _ _ None 0 _ Hs eq_refl) as [imp Hp].
  assert (Hi : py_int (917 / 1000 * 100) = 91%Z) by (apply py_int_eq; lra).
  assert (Hlt : (final_confidence example_features None (917 / 1000) < 100)%Z)
    by (cbn [final_confidence]; rewrite Hi; reflexivity).
  do 2 eexists. split; [exact Hp |]. split; [exact Hlt |].
  exact (consistent_history_not_lower (constant_engine (917 / 1000))
           example_features 0 _ _ Hp Hlt).
Defined.

(** ** Feature importance *)

Lemma Rsum_nonneg (l : list R) : Forall (fun g => 0 <= g) l -> 0 <= Rsum l.
Proof.
  induction 1 as [| g l Hg _ IH]; [cbn; lra |]. rewrite Rsum_cons. lra.
Qed.

Lemma Rsum_zero_all (l : list R) :
  Forall (fun g => 0 <= g) l -> Rsum l = 0 -> Forall (fun g => g = 0) l.
Proof.
  induction 1 as [| g l Hg Hl IH]; [constructor |].
  rewrite Rsum_cons. intros Hsum.
  pose proof (Rsum_nonneg l Hl) as Hnn.
  constructor; [lra | apply IH; lra].
Qed.

Lemma Rsum_pos_of_nonzero (l : list R) :
  Forall (fun g => 0 <= g) l -> Exists (fun g => g <> 0) l -> 0 < Rsum l.
Proof.
  intros Hnn Hex.
  destruct (Rle_lt_or_eq_dec 0 (Rsum l) (Rsum_nonneg l Hnn)) as [Hlt | Heq];
    [exact Hlt |].
  exfalso. symmetry in Heq. pose proof (Rsum_zero_all l Hnn Heq) as Hall.
  apply Exists_exists in Hex as [g [Hin Hg]].
  rewrite Forall_forall in Hall. apply Hg, Hall, Hin.
Qed.

Lemma Rsum_map_div (l : list R) (t : R) :
  Rsum (map (fun g => g / t) l) = Rsum l / t.
Proof.
  induction l as [| g l IH]; cbn [map].
  - cbn. unfold Rdiv. ring.
  - rewrite !Rsum_cons, IH. unfold Rdiv. ring.
Qed.

Lemma map_Rabs_nonneg (l : list R) : Forall (fun g => 0 <= g) (map Rabs l).
Proof.
  induction l as [| g l IH]; cbn [map]; constructor; [apply Rabs_pos | exact IH].
Qed.

Lemma sensitivities_nonneg (e : Engine) (x sens : list R) :
  sensitivities e x = Ok sens -> Forall (fun g => 0 <= g) sens.
Proof.
  unfold sensitivities. intros H. inv_bind H. injection H as <-.
  apply map_Rabs_nonneg.
Qed.

Lemma zip_names_fst (l : list R) :
  length l = 7%nat -> map fst (zip feature_names l) = feature_names.
Proof.
  intros Hl. do 8 (destruct l as [| ? l]; try discriminate). reflexivity.
Qed.

Lemma zip_names_snd (l : list R) :
  length l = 7%nat -> map snd (zip feature_names l) = l.
Proof.
  intros Hl. do 8 (destruct l as [| ? l]; try discriminate). reflexivity.
Qed.

Lemma normalized_length (sens : list R) : length (normalized sens) = length sens.
Proof.
  unfold normalized. destruct (Rlt_dec 0 (Rsum sens)); [| reflexivity].
  apply length_map.
Qed.

(** C8.  On a 7-entry feature vector on which the model evaluates, the
    importance mapping has exactly the 7 fixed names, in the order the
    vector is built; its values sum to 1 (hence within 1e-6 of 1) whenever
    some sensitivity is non-zero, and are all zero when the total
    sensitivity is zero; the division is only done by a positive total. *)
Theorem feature_importance_names_and_sum
    (e : Engine) (x y : list R) (s : R) :
  length x = 7%nat ->
  BehavioralAuthNN.forward (model e) x = Ok y ->
  item y = Ok s ->
  exists sens imp,
    sensitivities e x = Ok sens /\
    length sens = 7%nat /\
    _calculate_feature_importance e x = Ok imp /\
    map fst imp =
      [ "typing_speed"; "key_hold_time"; "transition_time"; "error_rate";
        "activity_hour"; "speed_accuracy_ratio"; "rhythm_ratio" ] /\
    (Exists (fun g => g <> 0) sens ->
       0 < Rsum sens /\
       map snd imp = map (fun g => g / Rsum sens) sens /\
       Rsum (map snd imp) = 1 /\
       Rabs (Rsum (map snd imp) - 1) <= 1 / 1000000) /\
    (Rsum sens = 0 -> Forall (fun w => w = 0) (map snd imp)).
Proof.
  intros Hx Hf Hi.
  destruct (sensitivities_ok e x y s Hf Hi) as [sens [Hs Hl]].
  rewrite Hx in Hl.
  exists sens, (zip feature_names (normalized sens)).
  split; [exact Hs |]. split; [exact Hl |].
  split; [rewrite feature_importance_unfold, Hs; reflexivity |].
  assert (Hln : length (normalized sens) = 7%nat)
    by (rewrite normalized_length; exact Hl).
  split; [apply zip_names_fst, Hln |].
  rewrite (zip_names_snd _ Hln).
  pose proof (sensitivities_nonneg _ _ _ Hs) as Hnn.
  split.
  - intros Hex. pose proof (Rsum_pos_of_nonzero sens Hnn Hex) as Hpos.
    unfold normalized. destruct (Rlt_dec 0 (Rsum sens)); [| contradiction].
    split; [exact Hpos |]. split; [reflexivity |].
    assert (Hone : Rsum (map (fun g => g / Rsum sens) sens) = 1).
    { rewrite Rsum_map_div. field. lra. }
    split; [exact Hone |]. rewrite Hone.
    replace (1 - 1) with 0 by ring. rewrite Rabs_R0. lra.
  - intros Hzero. unfold normalized.
    destruct (Rlt_dec 0 (Rsum sens)); [lra |].
    apply Rsum_zero_all; assumption.
Qed.

(** ** A network that looks at the typing speed only *)

Lemma unit_bn_forward (a : R) : BatchNorm1d.forward unit_bn [a] = Ok [a].
Proof.
  unfold BatchNorm1d.forward, unit_bn. cbn.
  replace (1 - 1 / 100000 + 1 / 100000) with 1 by lra.
  rewrite sqrt_1. do 2 f_equal. field.
Qed.

Lemma unit_bn_backward (g : R) : BatchNorm1d.backward unit_bn [g] = [g].
Proof.
  unfold BatchNorm1d.backward, unit_bn. cbn.
  replace (1 - 1 / 100000 + 1 / 100000) with 1 by lra.
  rewrite sqrt_1. f_equal. field.
Qed.

Lemma pass_through_forward (a : R) : Linear.forward pass_through [a] = Ok [a].
Proof. unfold Linear.forward, pass_through, dot. cbn. do 2 f_equal. ring. Qed.

Lemma pass_through_backward (g : R) : Linear.backward pass_through [g] = [g].
Proof. unfold Linear.backward, pass_through. cbn. f_equal. ring. Qed.

Lemma relu_pos (a : R) : 0 < a -> relu [a] = [a].
Proof.
  intros Ha. unfold relu. cbn. f_equal. unfold Rmax.
  destruct (Rle_dec 0 a); lra.
Qed.

Lemma relu_backward_pos (a g : R) : 0 < a -> relu_backward [a] [g] = [g].
Proof.
  intros Ha. unfold relu_backward. cbn. destruct (Rlt_dec 0 a); [reflexivity | lra].
Qed.

Lemma probe_fc1_forward (x0 x1 x2 x3 x4 x5 x6 : R) :
  Linear.forward (BehavioralAuthNN.fc1 probe_model) [x0; x1; x2; x3; x4; x5; x6]
  = Ok [x0].
Proof. unfold Linear.forward, dot. cbn. do 2 f_equal. ring. Qed.

Lemma probe_fc1_backward (g : R) :
  Linear.backward (BehavioralAuthNN.fc1 probe_model) [g] = [g; 0; 0; 0; 0; 0; 0].
Proof. unfold Linear.backward. cbn. repeat f_equal; ring. Qed.

Lemma probe_forward (x0 x1 x2 x3 x4 x5 x6 : R) :
  0 < x0 ->
  BehavioralAuthNN.forward probe_model [x0; x1; x2; x3; x4; x5; x6]
  = Ok [sigmoid x0].
Proof.
  intros H0. unfold BehavioralAuthNN.forward.
  rewrite probe_fc1_forward. cbn [mbind result_bind].
  cbn [probe_model BehavioralAuthNN.bn1 BehavioralAuthNN.fc2 BehavioralAuthNN.bn2
       BehavioralAuthNN.fc3 BehavioralAuthNN.bn3 BehavioralAuthNN.fc_out].
  repeat (rewrite ?unit_bn_forward, ?pass_through_forward, ?(relu_pos x0 H0);
          cbn [mbind result_bind]).
  reflexivity.
Qed.

Lemma probe_input_grad (x0 x1 x2 x3 x4 x5 x6 : R) :
  0 < x0 ->
  BehavioralAuthNN.input_grad probe_model [x0; x1; x2; x3; x4; x5; x6]
  = Ok [sigmoid x0 * (1 - sigmoid x0); 0; 0; 0; 0; 0; 0].
Proof.
  intros H0. unfold BehavioralAuthNN.input_grad.
  rewrite probe_fc1_forward. cbn [mbind result_bind].
  cbn [probe_model BehavioralAuthNN.bn1 BehavioralAuthNN.fc2 BehavioralAuthNN.bn2
       BehavioralAuthNN.fc3 BehavioralAuthNN.bn3 BehavioralAuthNN.fc_out].
  repeat (rewrite ?unit_bn_forward, ?pass_through_forward, ?(relu_pos x0 H0);
          cbn [mbind result_bind item]).
  cbn [map].
  rewrite !pass_through_backward, !(relu_backward_pos x0 _ H0), !unit_bn_backward.
  rewrite !pass_through_backward, !(relu_backward_pos x0 _ H0), !unit_bn_backward.
  rewrite !pass_through_backward, !(relu_backward_pos x0 _ H0), !unit_bn_backward.
  change (Linear.mk 7 1 [[1; 0; 0; 0; 0; 0; 0]] [0])
    with (BehavioralAuthNN.fc1 probe_model).
  rewrite probe_fc1_backward. reflexivity.
Qed.

(** On the example input all the importance goes to the typing speed. *)
Example probe_importance :
  _calculate_feature_importance probe_engine (vector_of example_features) =
  Ok [ ("typing_speed", 1); ("key_hold_time", 0); ("transition_time", 0);
       ("error_rate", 0); ("activity_hour", 0); ("speed_accuracy_ratio", 0);
       ("rhythm_ratio", 0) ].
Proof.
  rewrite example_vector.
  unfold _calculate_feature_importance, sensitivities, probe_engine.
  cbn [init_with model].
  rewrite probe_input_grad by lra. cbn [mbind result_bind map].
  pose proof (sigmoid_range 65) as Hs.
  set (g := sigmoid 65 * (1 - sigmoid 65)).
  assert (Hg : 0 < g) by (unfold g; nra).
  rewrite Rabs_R0, (Rabs_pos_eq g) by lra.
  replace (Rsum [g; 0; 0; 0; 0; 0; 0]) with g by (cbn; ring).
  destruct (Rlt_dec 0 g); [| contradiction].
  cbn [map zip feature_names zip_with].
  replace (g / g) with 1 by (field; lra).
  replace (0 / g) with 0 by (field; lra).
  reflexivity.
Qed.

Lemma feature_importance_names_and_sum_witness :
  length (vector_of example_features) = 7%nat /\
  BehavioralAuthNN.forward (model probe_engine) (vector_of example_features)
    = Ok [sigmoid 65] /\
  item [sigmoid 65] = Ok (sigmoid 65) /\
  exists sens imp,
    sensitivities probe_engine (vector_of example_features) = Ok sens /\
    length sens = 7%nat /\
    _calculate_feature_importance probe_engine (vector_of example_features)
      = Ok imp /\
    map fst imp =
      [ "typing_speed"; "key_hold_time"; "transition_time"; "error_rate";
        "activity_hour"; "speed_accuracy_ratio"; "rhythm_ratio" ] /\
    (Exists (fun g => g <> 0) sens ->
       0 < Rsum sens /\
       map snd imp = map (fun g => g / Rsum sens) sens /\
       Rsum (map snd imp) = 1 /\
       Rabs (Rsum (map snd imp) - 1) <= 1 / 1000000) /\
    (Rsum sens = 0 -> Forall (fun w => w = 0) (map snd imp)).
Proof.
  assert (Hf : BehavioralAuthNN.forward (model probe_engine)
                 (vector_of example_features) = Ok [sigmoid 65]).
  { rewrite example_vector. apply probe_forward. lra. }
  split; [reflexivity |]. split; [exact Hf |]. split; [reflexivity |].
  exact (feature_importance_names_and_sum probe_engine
           (vector_of example_features) [sigmoid 65] (sigmoid 65)
           eq_refl Hf eq_refl).
Defined.

(** ** Engine statistics *)

Lemma last_n_length {A : Type} (n : nat) (l : list A) :
  (length (last_n n l) <= n)%nat.
Proof. unfold last_n. rewrite length_drop. lia. Qed.

Lemma last_n_short {A : Type} (n : nat) (l : list A) :
  (length l <= n)%nat -> last_n n l = l.
Proof.
  intros Hl. unfold last_n. replace (length l - n)%nat with 0%nat by lia.
  reflexivity.
Qed.

Lemma last_n_snoc {A : Type} (n : nat) (l : list A) (c : A) :
  (1 <= n)%nat -> last_n n (last_n n l ++ [c]) = last_n n (l ++ [c]).
Proof.
  intros Hn. destruct (le_lt_dec (length l) n) as [Hle | Hgt].
  - rewrite (last_n_short n l Hle). reflexivity.
  - unfold last_n. rewrite !length_app, length_drop. cbn [length].
    replace (length l - (length l - n) + 1 - n)%nat with 1%nat by lia.
    replace (length l + 1 - n)%nat with (S (length l - n)) by lia.
    rewrite (drop_app_le l [c] (S (length l - n))) by lia.
    rewrite (drop_app_le (drop (length l - n) l) [c] 1)
      by (rewrite length_drop; lia).
    rewrite drop_drop. do 2 f_equal. lia.
Qed.

(** One [_update_stats]: the counter goes up by one and the score list is
    the last 1000 of the old list followed by the new score. *)
Lemma update_stats_spec (st : Stats) (c : Z) (dt : R) :
  (length (confidence_scores st) <= 1000)%nat ->
  total_predictions (_update_stats st c dt) = (total_predictions st + 1)%Z /\
  total_inference_time (_update_stats st c dt) = total_inference_time st + dt /\
  confidence_scores (_update_stats st c dt) =
    last_n 1000 (confidence_scores st ++ [c]) /\
  (length (confidence_scores (_update_stats st c dt)) <= 1000)%nat.
Proof.
  intros Hl. unfold _update_stats. cbn [total_predictions total_inference_time
    confidence_scores].
  split; [reflexivity |]. split; [reflexivity |].
  assert (Hs : (if (1000 <? length (confidence_scores st ++ [c]))%nat
                then drop 1 (confidence_scores st ++ [c])
                else confidence_scores st ++ [c])
               = last_n 1000 (confidence_scores st ++ [c])).
  { unfold last_n. rewrite length_app. cbn [length].
    destruct (1000 <? length (confidence_scores st) + 1)%nat eqn:E.
    - apply Nat.ltb_lt in E.
      replace (length (confidence_scores st) + 1 - 1000)%nat with 1%nat by lia.
      reflexivity.
    - apply Nat.ltb_ge in E.
      replace (length (confidence_scores st) + 1 - 1000)%nat with 0%nat by lia.
      reflexivity. }
  rewrite Hs. split; [reflexivity | apply last_n_length].
Qed.

Lemma predict_state (e : Engine) features hist dt r (e' : Engine) :
  predict e features hist dt = Ok (r, e') ->
  model e' = model e /\ scaler e' = scaler e /\
  anomaly_detector e' = anomaly_detector e /\
  stats e' = _update_stats (stats e) (confidence_score r) dt.
Proof.
  intros H. apply predict_inv in H as [s [_ [_ ->]]]. repeat split.
Qed.

Lemma predict_anomaly_zero (e : Engine) features hist dt r (e' : Engine) :
  anomaly_detector e = None ->
  predict e features hist dt = Ok (r, e') -> anomaly_score r = 0.
Proof.
  intros Hnone H.
  destruct (predict_change_history _ _ _ _ _ _ hist dt H) as [s [Hs [_ H']]].
  destruct (predict_ok e features hist dt s Hs Hnone) as [imp Hp].
  rewrite Hp in H'. injection H' as Ha _. symmetry. exact Ha.
Qed.

Lemma predict_all_invariant
    (calls : list (gmap string R * option (list (gmap string R)) * R)) :
  forall (e : Engine) results (e' : Engine),
    (length (confidence_scores (stats e)) <= 1000)%nat ->
    predict_all e calls = Ok (results, e') ->
    length results = length calls /\
    total_predictions (stats e') =
      (total_predictions (stats e) + Z.of_nat (length calls))%Z /\
    confidence_scores (stats e') =
      last_n 1000 (confidence_scores (stats e) ++ map confidence_score results) /\
    anomaly_detector e' = anomaly_detector e /\
    (anomaly_detector e = None -> Forall (fun r => anomaly_score r = 0) results).
Proof.
  induction calls as [| [[features hist] dt] calls IH]; intros e results e' Hl H.
  - cbn in H. injection H as <- <-. cbn [map length].
    rewrite app_nil_r, last_n_short by exact Hl.
    repeat split; [lia | constructor].
  - cbn [predict_all] in H.
    destruct (predict e features hist dt) as [[r e1] | err] eqn:Hp;
      cbn [mbind result_bind] in H; [| discriminate].
    destruct (predict_all e1 calls) as [[rs e2] | err] eqn:Hrest;
      cbn [mbind result_bind] in H; [| discriminate].
    injection H as <- <-.
    destruct (predict_state _ _ _ _ _ _ Hp) as [_ [_ [Had Hst]]].
    destruct (update_stats_spec (stats e) (confidence_score r) dt Hl)
      as [Ht [_ [Hsc Hlen]]].
    rewrite <- Hst in Ht, Hsc, Hlen.
    destruct (IH e1 rs e2 Hlen Hrest) as [Hn [Htot [Hscores [Had' Hzero]]]].
    cbn [length map]. split; [lia |]. split; [lia |]. split.
    + rewrite Hscores, Hsc. clear.
      set (l := confidence_scores (stats e)).
      set (c := confidence_score r). set (cs := map confidence_score rs).
      replace (l ++ c :: cs) with ((l ++ [c]) ++ cs)
        by (rewrite <- app_assoc; reflexivity).
      generalize (l ++ [c]). intros l0. clear.
      induction cs as [| d cs IH] using rev_ind.
      * rewrite !app_nil_r. apply last_n_short, last_n_length.
      * rewrite !app_assoc. rewrite <- (last_n_snoc 1000 (last_n 1000 l0 ++ cs))
          by lia.
        rewrite IH. apply last_n_snoc. lia.
    + split; [congruence |].
      intros Hnone. constructor.
      * eapply predict_anomaly_zero; eassumption.
      * apply Hzero. congruence.
Qed.

Lemma get_stats_nonzero (e : Engine) :
  total_predictions (stats e) <> 0%Z ->
  get_stats e =
  mkStatsSnapshot (total_predictions (stats e))
    (py_round2 (total_inference_time (stats e)
                / IZR (total_predictions (stats e)) * 1000))
    (py_round2 (np_mean_int (confidence_scores (stats e)))).
Proof.
  intros Hne. unfold get_stats.
  destruct (total_predictions (stats e) =? 0)%Z eqn:E; [| reflexivity].
  apply Z.eqb_eq in E. contradiction.
Qed.




(** ** Anomaly score *)

(** C10.  The constructor leaves [anomaly_detector] unset and [predict]
    never sets it: along every sequence of [predict] calls on a constructed
    engine the detector stays absent and every returned [anomaly_score] is
    exactly 0.0. *)
Theorem anomaly_score_always_zero
    (m : BehavioralAuthNN.t) (sc : option StandardScaler.t)
    (calls : list (gmap string R * option (list (gmap string R)) * R))
    (results : list PredictionResult) (e' : Engine) :
  predict_all (init_with m sc) calls = Ok (results, e') ->
  (forall state e0, __init__ state sc = Ok e0 -> anomaly_detector e0 = None) /\
  anomaly_detector (init_with m sc) = None /\
  anomaly_detector e' = None /\
  Forall (fun r => anomaly_score r = 0) results.
Proof.
  intros H.
  assert (Hfresh : (length (confidence_scores (stats (init_with m sc))) <= 1000)%nat)
    by (cbn; lia).
  destruct (predict_all_invariant calls _ _ _ Hfresh H)
    as [_ [_ [_ [Had Hzero]]]].
  split.
  { intros state e0 Hinit. unfold __init__ in Hinit. inv_bind Hinit.
    injection Hinit as <-. reflexivity. }
  split; [reflexivity |]. split; [exact Had |]. apply Hzero. reflexivity.
Qed.

(** ** Concrete runs *)

Lemma score_constant (e : Engine) (p : R) features :
  model e = constant_model (logit p) -> scaler e = None ->
  0 < p < 1 -> score e features = Ok p.
Proof.
  intros Hm Hsc Hp. rewrite score_unfold. unfold model_input.
  rewrite feature_vector_ok, Hsc, Hm. cbn [mbind result_bind].
  rewrite constant_model_forward by apply vector_of_length.
  cbn [mbind result_bind item]. rewrite sigmoid_logit by exact Hp. reflexivity.
Qed.

Lemma predict_all_constant (p : R)
    (calls : list (gmap string R * option (list (gmap string R)) * R)) :
  0 < p < 1 ->
  forall e : Engine,
    model e = constant_model (logit p) -> scaler e = None ->
    anomaly_detector e = None ->
    exists results e',
      predict_all e calls = Ok (results, e') /\
      map confidence_score results =
      map (fun call => final_confidence call.1.1 call.1.2 p) calls.
Proof.
  intros Hp. induction calls as [| [[features hist] dt] calls IH];
    intros e Hm Hsc Had.
  - exists [], e. split; reflexivity.
  - pose proof (score_constant e p features Hm Hsc Hp) as Hs.
    destruct (predict_ok e features hist dt p Hs Had) as [imp Hpred].
    set (e1 := mkEngine (model e) (scaler e) (anomaly_detector e)
                 (_update_stats (stats e) (final_confidence features hist p) dt))
      in Hpred.
    destruct (IH e1 Hm Hsc Had) as [rs [e2 [Hrest Hconf]]].
    exists (mkPredictionResult (final_confidence features hist p) 0 imp :: rs), e2.
    cbn [predict_all]. rewrite Hpred. cbn [mbind result_bind].
    rewrite Hrest. cbn [mbind result_bind].
    split; [reflexivity |]. cbn [map confidence_score fst snd]. rewrite Hconf.
    reflexivity.
Qed.

Lemma slower_keys_vector (hold : R) :
  20 <= hold <= 500 ->
  vector_of (slower_keys hold) =
  [65; hold; 85; 3; 14; 65 / (3 + 1); hold / (85 + 1)].
Proof.
  intros Hh. unfold vector_of, clipped.
  change (py_get (slower_keys hold) "typing_speed_wpm" 0) with 65.
  change (py_get (slower_keys hold) "avg_key_hold_time_ms" 0) with hold.
  change (py_get (slower_keys hold) "avg_transition_time_ms" 0) with 85.
  change (py_get (slower_keys hold) "error_rate_percent" 0) with 3.
  change (py_get (slower_keys hold) "activity_hour_preference" 0) with 14.
  rewrite (np_clip_inside 65 10 200) by lra.
  rewrite (np_clip_inside hold 20 500) by lra.
  rewrite (np_clip_inside 85 20 400) by lra.
  rewrite (np_clip_inside 3 0 50) by lra.
  rewrite (np_clip_inside 14 0 23) by lra.
  reflexivity.
Qed.

Lemma np_mean_single (v : list R) : np_mean_axis0 [v] = v.
Proof.
  unfold np_mean_axis0, vec_scale. cbn [foldl length INR].
  induction v as [| a v IH]; [reflexivity |].
  cbn [map]. rewrite IH. f_equal. rewrite Rinv_1. ring.
Qed.

Lemma sqrt_between (lo hi x : R) :
  0 <= lo -> 0 <= hi -> lo * lo <= x <= hi * hi -> lo <= sqrt x <= hi.
Proof.
  intros Hlo Hhi [Hl Hu]. split.
  - rewrite <- (sqrt_square lo Hlo). apply sqrt_le_1_alt. exact Hl.
  - rewrite <- (sqrt_square hi Hhi). apply sqrt_le_1_alt. exact Hu.
Qed.

(** The distance of the example from the same pattern typed with key-hold
    time [120 + delta] lies between [delta] and [delta + 1]. *)
Lemma similarity_slower_keys (delta : R) :
  0 <= delta <= 99 ->
  100 - (delta + 1) <=
    similarity (vector_of example_features) [slower_keys (120 + delta)]
    <= 100 - delta.
Proof.
  intros Hd. unfold similarity. cbn [map].
  rewrite np_mean_single, example_vector, slower_keys_vector by lra.
  unfold np_linalg_norm, vec_sub. cbn [zip_with map]. unfold Rsum. cbn [foldr].
  match goal with |- context [sqrt ?x] => set (sq := x) end.
  assert (Hsq : delta * delta <= sq <= (delta + 1) * (delta + 1)).
  { unfold sq.
    replace (120 / (85 + 1) - (120 + delta) / (85 + 1)) with (- delta / 86) by lra.
    replace (65 - 65) with 0 by lra. replace (85 - 85) with 0 by lra.
    replace (3 - 3) with 0 by lra. replace (14 - 14) with 0 by lra.
    replace (120 - (120 + delta)) with (- delta) by lra.
    replace (65 / (3 + 1) - 65 / (3 + 1)) with 0 by lra.
    nra. }
  destruct (sqrt_between delta (delta + 1) sq) as [Hl Hu]; [lra | lra | exact Hsq |].
  unfold Rmax. destruct (Rle_dec 0 _); lra.
Qed.

Lemma three_calls_run :
  exists results e',
    predict_all (constant_engine (905 / 1000)) three_calls = Ok (results, e') /\
    map confidence_score results = [80; 90; 70]%Z.
Proof.
  assert (Hp : 0 < 905 / 1000 < 1) by lra.
  destruct (predict_all_constant (905 / 1000) three_calls Hp
              (constant_engine (905 / 1000)) eq_refl eq_refl eq_refl)
    as [results [e' [Hrun Hconf]]].
  exists results, e'. split; [exact Hrun |]. rewrite Hconf.
  unfold three_calls. cbn [map fst snd final_confidence].
  assert (Hi : py_int (905 / 1000 * 100) = 90%Z) by (apply py_int_eq; lra).
  rewrite Hi.
  pose proof (similarity_slower_keys 42) as H42.
  replace (120 + 42) with 162 in H42 by lra.
  pose proof (similarity_slower_keys 75) as H75.
  replace (120 + 75) with 195 in H75 by lra.
  rewrite (py_int_eq _ 80) by lra.
  rewrite (py_int_eq _ 70) by lra.
  reflexivity.
Qed.




Lemma anomaly_score_always_zero_witness :
  exists results e',
    predict_all (init_with (constant_model (logit (905 / 1000))) None) three_calls
      = Ok (results, e') /\
    length results = 3%nat /\
    anomaly_detector e' = None /\
    Forall (fun r => anomaly_score r = 0) results.
Proof.
  destruct three_calls_run as [results [e' [Hrun Hconf]]].
  exists results, e'.
  destruct (anomaly_score_always_zero (constant_model (logit (905 / 1000))) None
              three_calls results e' Hrun)
    as [_ [_ [Had Hzero]]].
  split; [exact Hrun |].
  split; [rewrite <- (length_map confidence_score), Hconf; reflexivity |].
  split; [exact Had | exact Hzero].
Defined.


(** * Further properties *)

(** ** Ranges of the scores *)

Lemma final_confidence_range (features : gmap string R) hist (s : R) :
  0 < s < 1 -> (0 <= final_confidence features hist s <= 99)%Z.
Proof.
  intros Hs. destruct (py_int_score_range s Hs) as [_ [Hlo Hhi]].
  destruct hist as [[| p ps] |]; cbn [final_confidence]; try lia.
  pose proof (similarity_range (vector_of features) (p :: ps)) as Hsim.
  apply IZR_le in Hlo, Hhi.
  set (c := IZR (py_int (s * 100))) in *.
  rewrite py_int_nonneg by lra.
  split.
  - apply Zfloor_lub. lra.
  - apply Z.lt_succ_r, lt_IZR. change (Z.succ 99) with 100%Z.
    pose proof (Zfloor_bound (c * (7 / 10)
      + similarity (vector_of features) (p :: ps) * (3 / 10))). lra.
Qed.

(** Whatever the history, a prediction that returns carries a confidence
    between 0 and 100. *)
Theorem predict_confidence_in_range
    (e : Engine) (features : gmap string R) hist dt r (e' : Engine) :
  predict e features hist dt = Ok (r, e') ->
  (0 <= confidence_score r <= 100)%Z.
Proof.
  intros H. apply predict_inv in H as [s [Hs [Hc _]]].
  pose proof (final_confidence_range features hist s (score_range _ _ _ Hs)).
  lia.
Qed.

Lemma predict_confidence_in_range_witness :
  exists r e',
    predict (constant_engine (917 / 1000)) example_features
      (Some [slower_keys 162]) 0 = Ok (r, e') /\
    (0 <= confidence_score r <= 100)%Z.
Proof.
  assert (Hs : score (constant_engine (917 / 1000)) example_features
               = Ok (917 / 1000)) by (apply constant_engine_score; lra).
  destruct (predict_ok _ _ (Some [slower_keys 162]) 0 _ Hs eq_refl) as [imp Hp].
  do 2 eexists. split; [exact Hp |].
  exact (predict_confidence_in_range _ _ _ _ _ _ Hp).
Defined.

(** [_compare_with_historical] returns on every input, with a value between
    0 and 100: 50 for an empty history, and otherwise 100 minus the
    distance to the mean historical vector, cut off at 0 from distance 100
    on. *)
Theorem consistency_score_range_and_saturation
    (current : list R) (history : list (gmap string R)) :
  exists hs,
    _compare_with_historical current history = Ok hs /\
    0 <= hs <= 100 /\
    (history = [] -> hs = 50) /\
    (history <> [] ->
     let d := np_linalg_norm
                (vec_sub current (np_mean_axis0 (map vector_of history))) in
     0 <= d /\
     (d <= 100 -> hs = 100 - d) /\
     (100 <= d -> hs = 0)).
Proof.
  destruct history as [| p ps].
  - exists 50. split; [reflexivity |]. split; [lra |].
    split; [reflexivity | contradiction].
  - exists (similarity current (p :: ps)).
    split; [apply compare_with_historical_ok |].
    split; [apply similarity_range |].
    split; [discriminate |]. intros _ d.
    assert (Hd : 0 <= d) by apply sqrt_pos.
    unfold similarity. fold d. unfold Rmax.
    split; [exact Hd |].
    split; intros Hle; destruct (Rle_dec 0 (100 - d / 100 * 100)); lra.
Qed.

(** ** Which keys of a feature map are read *)

Lemma vector_of_ext (f g : gmap string R) :
  Forall (fun k => f !! k = g !! k) FeaturePreprocessor.feature_order ->
  vector_of f = vector_of g.
Proof.
  intros H. unfold FeaturePreprocessor.feature_order in H.
  repeat match goal with
         | Hf : Forall _ (_ :: _) |- _ =>
             let Hk := fresh "Hk" in
             apply Forall_cons in Hf as [Hk Hf]
         end.
  unfold vector_of, clipped, py_get.
  rewrite Hk, Hk0, Hk1, Hk2, Hk3. reflexivity.
Qed.

Lemma map_vector_of_ext (hs hs' : list (gmap string R)) :
  Forall2 (fun p q =>
             Forall (fun k => p !! k = q !! k) FeaturePreprocessor.feature_order)
          hs hs' ->
  map vector_of hs = map vector_of hs'.
Proof.
  induction 1 as [| p q hs hs' Hpq _ IH]; [reflexivity |].
  cbn [map]. rewrite (vector_of_ext p q Hpq), IH. reflexivity.
Qed.

Lemma model_input_ext (e : Engine) (f g : gmap string R) :
  vector_of f = vector_of g -> model_input e f = model_input e g.
Proof.
  intros H. unfold model_input. rewrite !feature_vector_ok, H. reflexivity.
Qed.

(** [predict] reads only the five named keys, of the features and of each
    historical pattern: maps that agree on them give the same result, so
    other entries, such as a pattern's timestamp, have no effect. *)
Theorem predict_reads_only_named_keys
    (e : Engine) (f g : gmap string R) (hs hs' : list (gmap string R)) dt :
  Forall (fun k => f !! k = g !! k) FeaturePreprocessor.feature_order ->
  Forall2 (fun p q =>
             Forall (fun k => p !! k = q !! k) FeaturePreprocessor.feature_order)
          hs hs' ->
  predict e f (Some hs) dt = predict e g (Some hs') dt.
Proof.
  intros Hfg Hh. pose proof (vector_of_ext f g Hfg) as Hv.
  pose proof (map_vector_of_ext hs hs' Hh) as Hm.
  rewrite !predict_unfold, (model_input_ext e f g Hv), Hv.
  assert (Hc : (if truthy (Some hs) then
                  _compare_with_historical (vector_of g) (default [] (Some hs))
                else Ok 0)
               = (if truthy (Some hs') then
                    _compare_with_historical (vector_of g) (default [] (Some hs'))
                  else Ok 0)).
  { destruct Hh as [| p q hs hs' Hpq Hh]; [reflexivity |].
    cbn [truthy]. change (default [] (Some (p :: hs))) with (p :: hs).
    change (default [] (Some (q :: hs'))) with (q :: hs').
    rewrite !compare_with_historical_ok. unfold similarity. rewrite Hm.
    reflexivity. }
  destruct Hh as [| p q hs hs' Hpq Hh]; [reflexivity |].
  cbn [truthy] in *. rewrite Hc. reflexivity.
Qed.

Lemma predict_reads_only_named_keys_witness :
  predict (constant_engine (917 / 1000)) example_features
    (Some [example_features]) 0
  = predict (constant_engine (917 / 1000))
      (<["timestamp" := 1704067200]> example_features)
      (Some [<["timestamp" := 5]> example_features]) 0.
Proof.
  apply (predict_reads_only_named_keys (constant_engine (917 / 1000))).
  - repeat constructor.
  - repeat constructor.
Defined.

(** ** The order of the historical patterns *)

Lemma vec_add_comm (u v : list R) : vec_add u v = vec_add v u.
Proof.
  unfold vec_add. revert v. induction u as [| a u IH]; intros [| b v];
    cbn; try reflexivity.
  rewrite IH. f_equal. ring.
Qed.

Lemma vec_add_assoc (u v w : list R) :
  vec_add (vec_add u v) w = vec_add u (vec_add v w).
Proof.
  unfold vec_add. revert v w.
  induction u as [| a u IH]; intros [| b v] [| c w]; cbn; try reflexivity.
  rewrite IH. f_equal. ring.
Qed.

Lemma foldl_vec_add_shift (x v : list R) (vs : list (list R)) :
  foldl vec_add (vec_add x v) vs = vec_add x (foldl vec_add v vs).
Proof.
  revert v. induction vs as [| a vs IH]; intros v; [reflexivity |].
  cbn [foldl]. rewrite vec_add_assoc. apply IH.
Qed.

Lemma foldl_vec_add_total (x : list R) (vs : list (list R)) :
  foldl vec_add x vs =
  match vec_total vs with
  | None => x
  | Some s => vec_add x s
  end.
Proof.
  destruct vs as [| v vs]; [reflexivity |].
  cbn [foldl vec_total]. apply foldl_vec_add_shift.
Qed.

Lemma vec_total_permutation (l l' : list (list R)) :
  l ≡ₚ l' -> vec_total l = vec_total l'.
Proof.
  induction 1 as [| x l l' _ IH | x y l | l l' l'' _ IH1 _ IH2].
  - reflexivity.
  - cbn [vec_total]. rewrite !foldl_vec_add_total, IH. reflexivity.
  - cbn [vec_total foldl]. rewrite (vec_add_comm y x). reflexivity.
  - congruence.
Qed.

Lemma np_mean_axis0_permutation (l l' : list (list R)) :
  l ≡ₚ l' -> np_mean_axis0 l = np_mean_axis0 l'.
Proof.
  intros Hp. pose proof (vec_total_permutation l l' Hp) as Ht.
  pose proof (Permutation_length Hp) as Hl.
  destruct l as [| v vs], l' as [| v' vs']; try discriminate; [reflexivity |].
  unfold np_mean_axis0. rewrite Hl. cbn [vec_total] in Ht.
  injection Ht as ->. reflexivity.
Qed.

(** The consistency score, and with it the prediction, does not depend on
    the order in which the historical patterns are supplied. *)
Theorem history_order_is_irrelevant
    (e : Engine) (features : gmap string R)
    (history history' : list (gmap string R)) (current : list R) dt :
  history ≡ₚ history' ->
  _compare_with_historical current history
    = _compare_with_historical current history' /\
  predict e features (Some history) dt = predict e features (Some history') dt.
Proof.
  intros Hp.
  assert (Hc : forall v, _compare_with_historical v history
                         = _compare_with_historical v history').
  { intros v. pose proof (Permutation_length Hp) as Hl.
    destruct history as [| p ps], history' as [| q qs]; try discriminate;
      [reflexivity |].
    rewrite !compare_with_historical_ok. unfold similarity.
    rewrite (np_mean_axis0_permutation (map vector_of (p :: ps))
               (map vector_of (q :: qs))); [reflexivity |].
    apply Permutation_map, Hp. }
  split; [apply Hc |].
  rewrite !predict_unfold.
  assert (Ht : truthy (Some history) = truthy (Some history')).
  { pose proof (Permutation_length Hp) as Hl.
    destruct history, history'; try discriminate; reflexivity. }
  rewrite Ht. change (default [] (Some history)) with history.
  change (default [] (Some history')) with history'.
  rewrite Hc. reflexivity.
Qed.

Lemma history_order_is_irrelevant_witness :
  [slower_keys 162; slower_keys 195] ≡ₚ [slower_keys 195; slower_keys 162] /\
  _compare_with_historical (vector_of example_features)
    [slower_keys 162; slower_keys 195]
  = _compare_with_historical (vector_of example_features)
      [slower_keys 195; slower_keys 162] /\
  predict (constant_engine (917 / 1000)) example_features
    (Some [slower_keys 162; slower_keys 195]) 0
  = predict (constant_engine (917 / 1000)) example_features
      (Some [slower_keys 195; slower_keys 162]) 0.
Proof.
  split; [apply perm_swap |].
  exact (history_order_is_irrelevant (constant_engine (917 / 1000))
           example_features _ _ (vector_of example_features) 0
           (perm_swap _ _ [])).
Defined.

(** ** The statistics window *)

Lemma predict_all_time
    (calls : list (gmap string R * option (list (gmap string R)) * R)) :
  forall (e : Engine) results (e' : Engine),
    predict_all e calls = Ok (results, e') ->
    total_inference_time (stats e') =
    total_inference_time (stats e) + Rsum (map snd calls).
Proof.
  induction calls as [| [[features hist] dt] calls IH]; intros e results e' H.
  - cbn in H. injection H as <- <-. cbn. ring.
  - cbn [predict_all] in H.
    destruct (predict e features hist dt) as [[r e1] | err] eqn:Hp;
      cbn [mbind result_bind] in H; [| discriminate].
    destruct (predict_all e1 calls) as [[rs e2] | err] eqn:Hrest;
      cbn [mbind result_bind] in H; [| discriminate].
    injection H as <- <-.
    rewrite (IH e1 rs e2 Hrest).
    destruct (predict_state _ _ _ _ _ _ Hp) as [_ [_ [_ Hst]]].
    rewrite Hst. cbn [map snd _update_stats total_inference_time].
    rewrite Rsum_cons. ring.
Qed.

Lemma last_n_length_min {A : Type} (n : nat) (l : list A) :
  length (last_n n l) = Nat.min (length l) n.
Proof. unfold last_n. rewrite length_drop. lia. Qed.

(** After [n] predictions on a constructed engine the counter is [n] but
    only [min(n, 1000)] scores are kept, so the reported average confidence
    is over the last 1000 predictions only; the measured times are summed
    over all of them, and the reported average time is that sum divided by
    [n], in milliseconds, rounded to two decimals. *)
Theorem statistics_window_and_time
    (m : BehavioralAuthNN.t) (sc : option StandardScaler.t)
    (calls : list (gmap string R * option (list (gmap string R)) * R))
    (results : list PredictionResult) (e' : Engine) :
  predict_all (init_with m sc) calls = Ok (results, e') ->
  total_predictions (stats e') = Z.of_nat (length calls) /\
  length (confidence_scores (stats e')) = Nat.min (length calls) 1000 /\
  confidence_scores (stats e') =
    drop (length calls - 1000) (map confidence_score results) /\
  total_inference_time (stats e') = Rsum (map snd calls) /\
  (calls <> [] ->
   avg_inference_time_ms (get_stats e') =
   py_round2 (Rsum (map snd calls) / INR (length calls) * 1000)).
Proof.
  intros H.
  assert (Hfresh : (length (confidence_scores (stats (init_with m sc))) <= 1000)%nat)
    by (cbn; lia).
  destruct (predict_all_invariant calls _ _ _ Hfresh H) as [Hn [Htot [Hsc _]]].
  pose proof (predict_all_time calls _ _ _ H) as Htime.
  cbn [init_with stats fresh_stats total_predictions confidence_scores
       total_inference_time app] in *.
  assert (Hlen : length (map confidence_score results) = length calls)
    by (rewrite length_map; exact Hn).
  split; [lia |].
  split; [rewrite Hsc, last_n_length_min, Hlen; reflexivity |].
  split; [rewrite Hsc; unfold last_n; rewrite Hlen; reflexivity |].
  split; [rewrite Htime; ring |].
  intros Hne. rewrite get_stats_nonzero.
  - cbn [avg_inference_time_ms]. rewrite Htime, Htot.
    rewrite Z.add_0_l, <- INR_IZR_INZ, Rplus_0_l. reflexivity.
  - rewrite Htot. destruct calls; [contradiction | cbn [length]; lia].
Qed.

Lemma statistics_window_and_time_witness :
  exists results e',
    predict_all (init_with (constant_model (logit (905 / 1000))) None)
      (replicate 1001 (example_features, None, 1 / 100)) = Ok (results, e') /\
    total_predictions (stats e') = 1001%Z /\
    length (confidence_scores (stats e')) = 1000%nat /\
    confidence_scores (stats e') = drop 1 (map confidence_score results).
Proof.
  assert (Hp : 0 < 905 / 1000 < 1) by lra.
  destruct (predict_all_constant (905 / 1000)
              (replicate 1001 (example_features, None, 1 / 100)) Hp
              (constant_engine (905 / 1000)) eq_refl eq_refl eq_refl)
    as [results [e' [Hrun _]]].
  exists results, e'.
  destruct (statistics_window_and_time (constant_model (logit (905 / 1000)))
              None _ results e' Hrun) as [Htot [Hlen [Hsc _]]].
  rewrite length_replicate in Htot, Hlen, Hsc.
  split; [exact Hrun |]. split; [exact Htot |].
  split; [exact Hlen | exact Hsc].
Defined.

(** ** The reported average confidence *)

Lemma py_round_lower (x : R) (a : Z) : IZR a <= x -> (a <= py_round x)%Z.
Proof.
  intros Ha. pose proof (Zfloor_lub a x Ha) as Hf. unfold py_round.
  repeat (destruct (Rlt_dec _ _) || destruct (Z.even _)); lia.
Qed.

Lemma py_round_upper (x : R) (b : Z) : x <= IZR b -> (py_round x <= b)%Z.
Proof.
  intros Hb. pose proof (Zfloor_bound x) as [Hlo Hhi].
  assert (Hf : (Zfloor x <= b)%Z).
  { apply Z.lt_succ_r, lt_IZR. rewrite succ_IZR. lra. }
  unfold py_round.
  destruct (Rlt_dec (x - IZR (Zfloor x)) (1 / 2)) as [Hd | Hd]; [exact Hf |].
  assert (Hlt : (Zfloor x < b)%Z) by (apply lt_IZR; lra).
  repeat (destruct (Rlt_dec _ _) || destruct (Z.even _)); lia.
Qed.

Lemma ZsumR_bounds (l : list Z) (lo hi : Z) :
  Forall (fun c => (lo <= c <= hi)%Z) l ->
  IZR lo * INR (length l) <= ZsumR l <= IZR hi * INR (length l).
Proof.
  induction 1 as [| c l [Hlo Hhi] _ IH].
  - cbn. lra.
  - change (ZsumR (c :: l)) with (IZR c + ZsumR l).
    change (length (c :: l)) with (S (length l)). rewrite S_INR.
    apply IZR_le in Hlo, Hhi. lra.
Qed.

Lemma np_mean_int_bounds (l : list Z) (lo hi : Z) :
  l <> [] -> Forall (fun c => (lo <= c <= hi)%Z) l ->
  IZR lo <= np_mean_int l <= IZR hi.
Proof.
  intros Hne Hall. pose proof (ZsumR_bounds l lo hi Hall) as [Hl Hu].
  assert (Hn : 0 < INR (length l)).
  { destruct l; [contradiction |]. apply lt_0_INR. cbn. lia. }
  unfold np_mean_int. split.
  - apply (Rmult_le_reg_r (INR (length l))); [exact Hn |].
    unfold Rdiv. rewrite Rmult_assoc, Rinv_l by lra. lra.
  - apply (Rmult_le_reg_r (INR (length l))); [exact Hn |].
    unfold Rdiv. rewrite Rmult_assoc, Rinv_l by lra. lra.
Qed.

Lemma predict_all_confidences
    (calls : list (gmap string R * option (list (gmap string R)) * R)) :
  forall (e : Engine) results (e' : Engine),
    predict_all e calls = Ok (results, e') ->
    Forall (fun c => (0 <= c <= 100)%Z) (map confidence_score results).
Proof.
  induction calls as [| [[features hist] dt] calls IH]; intros e results e' H.
  - cbn in H. injection H as <- <-. constructor.
  - cbn [predict_all] in H.
    destruct (predict e features hist dt) as [[r e1] | err] eqn:Hp;
      cbn [mbind result_bind] in H; [| discriminate].
    destruct (predict_all e1 calls) as [[rs e2] | err] eqn:Hrest;
      cbn [mbind result_bind] in H; [| discriminate].
    injection H as <- <-. cbn [map]. constructor.
    + apply predict_inv in Hp as [s [Hs [Hc _]]].
      pose proof (final_confidence_range features hist s (score_range _ _ _ Hs)).
      lia.
    + eapply IH; eassumption.
Qed.

(** On a constructed engine, after any sequence of predictions, the stored
    scores are between 0 and 100 and so is the reported average confidence;
    before the first prediction the snapshot is all zero, with no division
    by the zero count. *)
Theorem average_confidence_in_range
    (m : BehavioralAuthNN.t) (sc : option StandardScaler.t)
    (calls : list (gmap string R * option (list (gmap string R)) * R))
    (results : list PredictionResult) (e' : Engine) :
  predict_all (init_with m sc) calls = Ok (results, e') ->
  Forall (fun c => (0 <= c <= 100)%Z) (confidence_scores (stats e')) /\
  0 <= avg_confidence (get_stats e') <= 100 /\
  (calls = [] -> get_stats e' = mkStatsSnapshot 0 0 0).
Proof.
  intros H.
  assert (Hfresh : (length (confidence_scores (stats (init_with m sc))) <= 1000)%nat)
    by (cbn; lia).
  destruct (predict_all_invariant calls _ _ _ Hfresh H) as [Hn [Htot [Hsc _]]].
  pose proof (predict_all_confidences calls _ _ _ H) as Hconf.
  cbn [init_with stats fresh_stats total_predictions confidence_scores app] in *.
  assert (Hall : Forall (fun c => (0 <= c <= 100)%Z) (confidence_scores (stats e'))).
  { rewrite Hsc. unfold last_n. apply Forall_drop, Hconf. }
  split; [exact Hall |].
  destruct calls as [| call calls].
  - assert (Hz : get_stats e' = mkStatsSnapshot 0 0 0).
    { unfold get_stats. rewrite Htot. reflexivity. }
    rewrite Hz. cbn [avg_confidence]. split; [lra | intros _; reflexivity].
  - split; [| discriminate].
    rewrite get_stats_nonzero by (rewrite Htot; cbn [length]; lia).
    cbn [avg_confidence].
    assert (Hne : confidence_scores (stats e') <> []).
    { intros Hnil. apply (f_equal length) in Hnil.
      rewrite Hsc, last_n_length_min, length_map, Hn in Hnil.
      cbn [length] in Hnil. lia. }
    destruct (np_mean_int_bounds _ 0 100 Hne Hall) as [Hlo Hhi].
    unfold py_round2.
    pose proof (py_round_lower (np_mean_int (confidence_scores (stats e')) * 100) 0)
      as Hl.
    pose proof (py_round_upper (np_mean_int (confidence_scores (stats e')) * 100)
                  10000) as Hu.
    apply IZR_le in Hl; [| lra]. apply IZR_le in Hu; [| lra]. lra.
Qed.

Lemma average_confidence_in_range_witness :
  exists results e',
    predict_all (init_with (constant_model (logit (905 / 1000))) None) three_calls
      = Ok (results, e') /\
    Forall (fun c => (0 <= c <= 100)%Z) (confidence_scores (stats e')) /\
    0 <= avg_confidence (get_stats e') <= 100.
Proof.
  destruct three_calls_run as [results [e' [Hrun _]]].
  exists results, e'.
  destruct (average_confidence_in_range (constant_model (logit (905 / 1000)))
              None three_calls results e' Hrun) as [Hall [Havg _]].
  split; [exact Hrun |]. split; [exact Hall | exact Havg].
Defined.

(** ** The importance values of a prediction *)

Lemma Rsum_ge_member (l : list R) (g : R) :
  Forall (fun x => 0 <= x) l -> In g l -> g <= Rsum l.
Proof.
  induction 1 as [| x l Hx Hl IH]; intros Hin; [destruct Hin |].
  rewrite Rsum_cons. pose proof (Rsum_nonneg l Hl) as Hs.
  destruct Hin as [-> | Hin]; [lra |]. specialize (IH Hin). lra.
Qed.

Lemma normalized_range (sens : list R) :
  Forall (fun g => 0 <= g) sens ->
  Forall (fun w => 0 <= w <= 1) (normalized sens).
Proof.
  intros Hnn. unfold normalized.
  destruct (Rlt_dec 0 (Rsum sens)) as [Hpos | Hnpos].
  - apply Forall_forall. intros w Hw.
    apply list_elem_of_In, in_map_iff in Hw as [g [<- Hg]].
    pose proof (Rsum_ge_member sens g Hnn Hg) as Hle.
    assert (H0 : 0 <= g).
    { rewrite Forall_forall in Hnn. apply Hnn, list_elem_of_In, Hg. }
    split.
    + apply Rle_mult_inv_pos; assumption.
    + apply (Rmult_le_reg_r (Rsum sens)); [exact Hpos |].
      unfold Rdiv. rewrite Rmult_assoc, Rinv_l by lra. lra.
  - assert (Hz : Rsum sens = 0) by (pose proof (Rsum_nonneg sens Hnn); lra).
    pose proof (Rsum_zero_all sens Hnn Hz) as Hall.
    eapply Forall_impl; [exact Hall |]. cbn. intros w ->. lra.
Qed.

Lemma predict_importance (e : Engine) features hist dt r (e' : Engine) :
  predict e features hist dt = Ok (r, e') ->
  exists x sens,
    model_input e features = Ok x /\
    sensitivities e x = Ok sens /\
    feature_importance r = zip feature_names (normalized sens).
Proof.
  rewrite predict_unfold. intros H.
  destruct (model_input e features) as [x | err]; cbn [mbind result_bind] in *;
    [| discriminate].
  destruct (BehavioralAuthNN.forward (model e) x) as [y | err];
    cbn [mbind result_bind] in *; [| discriminate].
  destruct (item (map (fun y0 => y0 * 100) y)) as [logit0 | err];
    cbn [mbind result_bind] in *; [| discriminate].
  destruct (_calculate_anomaly_score e x) as [a | err];
    cbn [mbind result_bind] in *; [| discriminate].
  rewrite feature_importance_unfold in H.
  destruct (sensitivities e x) as [sens | err] eqn:Hsens;
    cbn [mbind result_bind] in *; [| discriminate].
  exists x, sens. split; [reflexivity |]. split; [exact Hsens |].
  match type of H with
  | (?c ≫= _) = Ok _ =>
      destruct c as [conf | err]; cbn [mbind result_bind] in H; [| discriminate]
  end.
  injection H as <- _. reflexivity.
Qed.

(** Every prediction that returns carries an importance for exactly the 7
    named features, in order; each value lies between 0 and 1, and they
    sum to 1 or are all zero. *)
Theorem predict_importance_distribution
    (e : Engine) (features : gmap string R) hist dt r (e' : Engine) :
  predict e features hist dt = Ok (r, e') ->
  map fst (feature_importance r) = feature_names /\
  Forall (fun w => 0 <= w <= 1) (map snd (feature_importance r)) /\
  (Rsum (map snd (feature_importance r)) = 1 \/
   Forall (fun w => w = 0) (map snd (feature_importance r))).
Proof.
  intros H. destruct (predict_importance _ _ _ _ _ _ H) as [x [sens [Hx [Hs ->]]]].
  pose proof (model_input_length _ _ _ Hx) as Hlx.
  pose proof (sensitivities_nonneg _ _ _ Hs) as Hnn.
  assert (Hl : length sens = 7%nat).
  { unfold sensitivities in Hs. inv_bind Hs. injection Hs as <-.
    rewrite length_map, (input_grad_inv _ _ _ E). exact Hlx. }
  assert (Hln : length (normalized sens) = 7%nat)
    by (rewrite normalized_length; exact Hl).
  rewrite (zip_names_fst _ Hln), (zip_names_snd _ Hln).
  split; [reflexivity |]. split; [apply normalized_range, Hnn |].
  unfold normalized. destruct (Rlt_dec 0 (Rsum sens)) as [Hpos | Hnpos].
  - left. rewrite Rsum_map_div. field. lra.
  - right. apply Rsum_zero_all; [exact Hnn |].
    pose proof (Rsum_nonneg sens Hnn). lra.
Qed.

Lemma predict_importance_distribution_witness :
  exists r e',
    predict probe_engine example_features None 0 = Ok (r, e') /\
    map fst (feature_importance r) = feature_names /\
    Forall (fun w => 0 <= w <= 1) (map snd (feature_importance r)) /\
    (Rsum (map snd (feature_importance r)) = 1 \/
     Forall (fun w => w = 0) (map snd (feature_importance r))).
Proof.
  assert (Hs : score probe_engine example_features = Ok (sigmoid 65)).
  { rewrite score_unfold. unfold model_input.
    rewrite feature_vector_ok, example_vector.
    cbn [mbind result_bind probe_engine init_with scaler model].
    rewrite probe_forward by lra. reflexivity. }
  destruct (predict_ok probe_engine example_features None 0 _ Hs eq_refl)
    as [imp Hp].
  do 2 eexists. split; [exact Hp |].
  exact (predict_importance_distribution _ _ _ _ _ _ Hp).
Defined.

(** ** Bounds of the derived features *)

(** The two ratios of every feature vector are bounded: the speed-accuracy
    ratio lies in [10/51, 200] and the rhythm ratio in [20/401, 500/21]. *)
Theorem derived_features_bounds (features : gmap string R) :
  exists a b c d h sa rr,
    feature_vector features = Ok [a; b; c; d; h; sa; rr] /\
    10 / 51 <= sa <= 200 /\
    20 / 401 <= rr <= 500 / 21.
Proof.
  pose proof (feature_vector_ok features) as Hv.
  unfold vector_of, clipped in Hv.
  pose proof (np_clip_bounds (py_get features "typing_speed_wpm" 0) 10 200) as Ha.
  pose proof (np_clip_bounds (py_get features "avg_key_hold_time_ms" 0) 20 500) as Hb.
  pose proof (np_clip_bounds (py_get features "avg_transition_time_ms" 0) 20 400) as Hc.
  pose proof (np_clip_bounds (py_get features "error_rate_percent" 0) 0 50) as Hd.
  set (a := np_clip (py_get features "typing_speed_wpm" 0) 10 200) in *.
  set (b := np_clip (py_get features "avg_key_hold_time_ms" 0) 20 500) in *.
  set (c := np_clip (py_get features "avg_transition_time_ms" 0) 20 400) in *.
  set (d := np_clip (py_get features "error_rate_percent" 0) 0 50) in *.
  do 7 eexists. split; [exact Hv |].
  assert (Ha' : 10 <= a <= 200) by (apply Ha; lra).
  assert (Hb' : 20 <= b <= 500) by (apply Hb; lra).
  assert (Hc' : 20 <= c <= 400) by (apply Hc; lra).
  assert (Hd' : 0 <= d <= 50) by (apply Hd; lra).
  assert (Hquot : forall x y lo hi ylo yhi,
            0 < ylo -> ylo <= y <= yhi -> 0 <= lo -> lo <= x <= hi ->
            lo / yhi <= x / y <= hi / ylo).
  { intros x y lo hi ylo yhi Hylo Hy Hlo Hx.
    assert (Hy0 : 0 < y) by lra. assert (Hyhi : 0 < yhi) by lra.
    split.
    - apply (Rmult_le_reg_r (yhi * y)); [nra |].
      replace (lo / yhi * (yhi * y)) with (lo * y) by (field; lra).
      replace (x / y * (yhi * y)) with (x * yhi) by (field; lra).
      nra.
    - apply (Rmult_le_reg_r (ylo * y)); [nra |].
      replace (x / y * (ylo * y)) with (x * ylo) by (field; lra).
      replace (hi / ylo * (ylo * y)) with (hi * y) by (field; lra).
      nra. }
  split.
  - pose proof (Hquot a (d + 1) 10 200 1 51) as Hq.
    replace (200 / 1) with 200 in Hq by lra. apply Hq; lra.
  - pose proof (Hquot b (c + 1) 20 500 21 401) as Hq. apply Hq; lra.
Qed.

(** ** Historical patterns as the API supplies them *)

Lemma dump_vector (f : schema.BehavioralFeatures) :
  vector_of (schema.BehavioralFeatures_dump f) =
  let a := np_clip (IZR (schema.typing_speed_wpm f)) 10 200 in
  let b := np_clip (IZR (schema.avg_key_hold_time_ms f)) 20 500 in
  let c := np_clip (IZR (schema.avg_transition_time_ms f)) 20 400 in
  let d := np_clip (IZR (schema.error_rate_percent f)) 0 50 in
  let h := np_clip (IZR (schema.activity_hour_preference f)) 0 23 in
  [a; b; c; d; h; a / (d + 1); b / (c + 1)].
Proof. reflexivity. Qed.

Lemma pattern_dump_vector (p : schema.HistoricalPattern) :
  vector_of (schema.HistoricalPattern_dump p) =
  let a := np_clip (IZR (schema.h_typing_speed_wpm p)) 10 200 in
  let b := np_clip (IZR (schema.h_avg_key_hold_time_ms p)) 20 500 in
  let c := np_clip (IZR (schema.h_avg_transition_time_ms p)) 20 400 in
  let d := np_clip (IZR (schema.h_error_rate_percent p)) 0 50 in
  let h := np_clip 0 0 23 in
  [a; b; c; d; h; a / (d + 1); b / (c + 1)].
Proof. reflexivity. Qed.

(** A [HistoricalPattern] of the API has no activity hour, so the engine
    reads it as hour 0: a single pattern that repeats the four other values
    of the request scores a consistency of 100 minus the request's activity
    hour, not 100. *)
Theorem api_history_lacks_activity_hour
    (f : schema.BehavioralFeatures) (p : schema.HistoricalPattern) :
  schema.h_typing_speed_wpm p = schema.typing_speed_wpm f ->
  schema.h_avg_key_hold_time_ms p = schema.avg_key_hold_time_ms f ->
  schema.h_avg_transition_time_ms p = schema.avg_transition_time_ms f ->
  schema.h_error_rate_percent p = schema.error_rate_percent f ->
  (0 <= schema.activity_hour_preference f <= 23)%Z ->
  _compare_with_historical (vector_of (schema.BehavioralFeatures_dump f))
    [schema.HistoricalPattern_dump p]
  = Ok (100 - IZR (schema.activity_hour_preference f)).
Proof.
  intros Ha Hb Hc Hd [Hlo Hhi]. apply IZR_le in Hlo, Hhi.
  rewrite compare_with_historical_ok. f_equal.
  unfold similarity. cbn [map]. rewrite np_mean_single.
  rewrite dump_vector, pattern_dump_vector, Ha, Hb, Hc, Hd. cbn zeta.
  rewrite (np_clip_inside (IZR (schema.activity_hour_preference f)) 0 23) by lra.
  rewrite (np_clip_inside 0 0 23) by lra.
  set (h := IZR (schema.activity_hour_preference f)) in *.
  unfold np_linalg_norm, vec_sub. cbn [zip_with map]. unfold Rsum. cbn [foldr].
  match goal with |- context [sqrt ?x] => replace x with (h * h) by ring end.
  rewrite sqrt_square by exact Hlo.
  unfold Rmax. destruct (Rle_dec 0 (100 - h / 100 * 100)); lra.
Qed.

Lemma api_history_lacks_activity_hour_witness :
  _compare_with_historical
    (vector_of (schema.BehavioralFeatures_dump
                  (schema.mkBehavioralFeatures 65 120 85 3 14)))
    [schema.HistoricalPattern_dump
       (schema.mkHistoricalPattern 65 120 85 3 1704067200)]
  = Ok (100 - IZR 14).
Proof.
  apply (api_history_lacks_activity_hour
           (schema.mkBehavioralFeatures 65 120 85 3 14)
           (schema.mkHistoricalPattern 65 120 85 3 1704067200));
    cbn; (reflexivity || lia).
Defined.

(** ** The anomaly score *)

Lemma anomaly_score_nonneg (d : BehavioralAnomalyDetector.t) (x a : list R) :
  BehavioralAnomalyDetector.anomaly_score d x = Ok a ->
  Forall (fun v => 0 <= v) a.
Proof.
  unfold BehavioralAnomalyDetector.anomaly_score. intros H.
  destruct (BehavioralAnomalyDetector.forward d x) as [[enc rec] | err];
    cbn [mbind result_bind] in H; [| discriminate].
  injection H as <-. constructor; [| constructor].
  set (mse := zip_with _ rec x).
  assert (Hnn : Forall (fun v => 0 <= v) mse).
  { unfold mse. clear. revert x. induction rec as [| r rec IH]; intros [| xi x];
      cbn; try (constructor; fail).
    constructor; [exact (Rle_0_sqr (r - xi)) | apply IH]. }
  destruct mse as [| m0 mse'] eqn:Hm.
  - cbn. unfold Rdiv. rewrite Rmult_0_l. lra.
  - apply Rle_mult_inv_pos; [apply Rsum_nonneg, Hnn |].
    apply lt_0_INR. cbn. lia.
Qed.

(** Whether or not an anomaly detector is configured, a prediction that
    returns carries a non-negative anomaly score. *)
Theorem predict_anomaly_nonnegative
    (e : Engine) (features : gmap string R) hist dt r (e' : Engine) :
  predict e features hist dt = Ok (r, e') -> 0 <= anomaly_score r.
Proof.
  rewrite predict_unfold. intros H.
  destruct (model_input e features) as [x | err]; cbn [mbind result_bind] in *;
    [| discriminate].
  destruct (BehavioralAuthNN.forward (model e) x) as [y | err];
    cbn [mbind result_bind] in *; [| discriminate].
  destruct (item (map (fun y0 => y0 * 100) y)) as [logit0 | err];
    cbn [mbind result_bind] in *; [| discriminate].
  destruct (_calculate_anomaly_score e x) as [a | err] eqn:Ha;
    cbn [mbind result_bind] in *; [| discriminate].
  destruct (_calculate_feature_importance e x) as [imp | err];
    cbn [mbind result_bind] in *; [| discriminate].
  match type of H with
  | (?c ≫= _) = Ok _ =>
      destruct c as [conf | err]; cbn [mbind result_bind] in H; [| discriminate]
  end.
  injection H as <- _. cbn [anomaly_score].
  unfold _calculate_anomaly_score in Ha.
  destruct (anomaly_detector e) as [d |].
  - destruct (BehavioralAnomalyDetector.anomaly_score d x) as [v | err] eqn:Hv;
      cbn [mbind result_bind] in Ha; [| discriminate].
    apply anomaly_score_nonneg in Hv.
    destruct v as [| v0 [| v1 v]]; cbn in Ha; try discriminate.
    injection Ha as <-. apply Forall_cons in Hv as [Hv _]. exact Hv.
  - injection Ha as <-. lra.
Qed.

Lemma predict_ok_with_anomaly
    (e : Engine) features hist dt (s a : R) (x : list R) :
  model_input e features = Ok x ->
  score e features = Ok s ->
  _calculate_anomaly_score e x = Ok a ->
  exists imp,
    predict e features hist dt =
    Ok (mkPredictionResult (final_confidence features hist s) a imp,
        mkEngine (model e) (scaler e) (anomaly_detector e)
          (_update_stats (stats e) (final_confidence features hist s) dt)).
Proof.
  rewrite score_unfold, predict_unfold. intros Hx H Ha. rewrite Hx in *.
  cbn [mbind result_bind] in *.
  destruct (BehavioralAuthNN.forward (model e) x) as [y | err] eqn:Hf;
    cbn [mbind result_bind] in *; [| discriminate].
  rewrite item_scaled, H, Ha. cbn [mbind result_bind].
  destruct (sensitivities_ok e x y s Hf H) as [sens [Hs _]].
  rewrite feature_importance_unfold, Hs. cbn [mbind result_bind].
  eexists.
  destruct hist as [[| p ps] |]; cbn [truthy final_confidence mbind result_bind].
  - reflexivity.
  - change (default [] (Some (p :: ps))) with (p :: ps).
    rewrite compare_with_historical_ok. reflexivity.
  - reflexivity.
Qed.

Lemma detector_new_anomaly (x : list R) :
  length x = 7%nat ->
  exists a,
    BehavioralAnomalyDetector.anomaly_score (BehavioralAnomalyDetector_new 7 3) x
    = Ok [a].
Proof.
  intros Hx. unfold BehavioralAnomalyDetector.anomaly_score,
    BehavioralAnomalyDetector.forward, BehavioralAnomalyDetector.sequential,
    BehavioralAnomalyDetector_new.
  cbn [BehavioralAnomalyDetector.encoder BehavioralAnomalyDetector.decoder].
  unfold Linear.new.
  repeat (rewrite ?relu_zero;
          rewrite linear_forward_zero by (exact Hx || apply length_replicate);
          cbn [mbind result_bind]).
  eexists. reflexivity.
Qed.

Lemma predict_anomaly_nonnegative_witness :
  exists r e',
    predict (guarded_engine (917 / 1000)) example_features None 0 = Ok (r, e') /\
    anomaly_detector (guarded_engine (917 / 1000))
      = Some (BehavioralAnomalyDetector_new 7 3) /\
    0 <= anomaly_score r.
Proof.
  assert (Hp : 0 < 917 / 1000 < 1) by lra.
  pose proof (score_constant (guarded_engine (917 / 1000)) (917 / 1000)
                example_features eq_refl eq_refl Hp) as Hs.
  assert (Hx : model_input (guarded_engine (917 / 1000)) example_features
               = Ok (vector_of example_features)).
  { unfold model_input. rewrite feature_vector_ok. reflexivity. }
  destruct (detector_new_anomaly (vector_of example_features) eq_refl)
    as [a Ha].
  assert (Hc : _calculate_anomaly_score (guarded_engine (917 / 1000))
                 (vector_of example_features) = Ok a).
  { unfold _calculate_anomaly_score. cbn [guarded_engine anomaly_detector].
    rewrite Ha. reflexivity. }
  destruct (predict_ok_with_anomaly _ _ None 0 _ _ _ Hx Hs Hc) as [imp Hpred].
  do 2 eexists. split; [exact Hpred |]. split; [reflexivity |].
  exact (predict_anomaly_nonnegative _ _ _ _ _ _ Hpred).
Defined.

(** ** The network on inputs of its own width *)

Lemma linear_load_inv (l l' : Linear.t) w b :
  Linear.load l w b = Ok l' ->
  Linear.in_features l' = Linear.in_features l /\
  Linear.out_features l' = Linear.out_features l /\
  length (Linear.weight l') = Linear.out_features l /\
  length (Linear.bias l') = Linear.out_features l.
Proof.
  unfold Linear.load, has_shape2.
  destruct (_ && _) eqn:E; [| discriminate]. intros [= <-]. cbn.
  apply andb_true_iff in E as [E Hb]. apply andb_true_iff in E as [Hw _].
  apply Nat.eqb_eq in Hw, Hb. auto.
Qed.

Lemma linear_forward_ok (l : Linear.t) (x : list R) :
  length x = Linear.in_features l ->
  length (Linear.weight l) = Linear.out_features l ->
  length (Linear.bias l) = Linear.out_features l ->
  exists y, Linear.forward l x = Ok y /\ length y = Linear.out_features l.
Proof.
  intros Hx Hw Hb. unfold Linear.forward. rewrite Hx, Nat.eqb_refl.
  eexists. split; [reflexivity |]. rewrite length_zip_with. lia.
Qed.

Lemma batchnorm_load_inv (b b' : BatchNorm1d.t) w bs rm rv :
  BatchNorm1d.load b w bs rm rv = Ok b' ->
  BatchNorm1d.num_features b' = BatchNorm1d.num_features b /\
  length (BatchNorm1d.weight b') = BatchNorm1d.num_features b /\
  length (BatchNorm1d.bias b') = BatchNorm1d.num_features b /\
  length (BatchNorm1d.running_mean b') = BatchNorm1d.num_features b /\
  length (BatchNorm1d.running_var b') = BatchNorm1d.num_features b.
Proof.
  unfold BatchNorm1d.load.
  destruct (_ && _) eqn:E; [| discriminate]. intros [= <-]. cbn.
  repeat (apply andb_true_iff in E as [E ?]).
  repeat match goal with H : (_ =? _)%nat = true |- _ => apply Nat.eqb_eq in H end.
  auto.
Qed.

Lemma normalize_length (e : R) (xs ms vs ws bs : list R) :
  length ms = length xs -> length vs = length xs ->
  length ws = length xs -> length bs = length xs ->
  length (BatchNorm1d.normalize e xs ms vs ws bs) = length xs.
Proof.
  revert ms vs ws bs.
  induction xs as [| x xs IH]; intros [| m ms] [| v vs] [| w ws] [| b bs];
    cbn; intros; try discriminate; try reflexivity.
  f_equal. apply IH; congruence.
Qed.

Lemma batchnorm_forward_ok (b : BatchNorm1d.t) (x : list R) :
  length x = BatchNorm1d.num_features b ->
  length (BatchNorm1d.weight b) = BatchNorm1d.num_features b ->
  length (BatchNorm1d.bias b) = BatchNorm1d.num_features b ->
  length (BatchNorm1d.running_mean b) = BatchNorm1d.num_features b ->
  length (BatchNorm1d.running_var b) = BatchNorm1d.num_features b ->
  exists y, BatchNorm1d.forward b x = Ok y /\ length y = length x.
Proof.
  intros Hx Hw Hb Hm Hv. unfold BatchNorm1d.forward. rewrite Hx, Nat.eqb_refl.
  eexists. split; [reflexivity |]. rewrite <- Hx. apply normalize_length; congruence.
Qed.

Lemma relu_length (v : list R) : length (relu v) = length v.
Proof. unfold relu. apply length_map. Qed.

(** A network filled by [load_state_dict] evaluates on every input of its
    width [input_dim], to a one-element tensor strictly between 0 and 1
    (so [predict_confidence] is strictly between 0 and 100), and raises on
    every input of another width. *)
Theorem loaded_network_total_on_its_width
    (input_dim h0 h1 h2 : nat) (sd : BehavioralAuthNN.state_dict)
    (m : BehavioralAuthNN.t) (x : list R) :
  BehavioralAuthNN.load_state_dict
    (BehavioralAuthNN.new input_dim (h0, h1, h2)) sd = Ok m ->
  (length x = input_dim ->
   exists s,
     BehavioralAuthNN.forward m x = Ok [s] /\ 0 < s < 1 /\
     predict_confidence m x = Ok [s * 100] /\ 0 < s * 100 < 100) /\
  (length x <> input_dim ->
   BehavioralAuthNN.forward m x = Raise RuntimeError /\
   predict_confidence m x = Raise RuntimeError).
Proof.
  unfold BehavioralAuthNN.load_state_dict. intros H.
  repeat inv_bind H. injection H as <-.
  cbn [BehavioralAuthNN.new BehavioralAuthNN.fc1 BehavioralAuthNN.bn1
       BehavioralAuthNN.fc2 BehavioralAuthNN.bn2 BehavioralAuthNN.fc3
       BehavioralAuthNN.bn3 BehavioralAuthNN.fc_out] in *.
  apply linear_load_inv in E as [Hi1 [Ho1 [Hw1 Hb1]]].
  apply batchnorm_load_inv in E0 as [Hn1 [Hbw1 [Hbb1 [Hbm1 Hbv1]]]].
  apply linear_load_inv in E1 as [Hi2 [Ho2 [Hw2 Hb2]]].
  apply batchnorm_load_inv in E2 as [Hn2 [Hbw2 [Hbb2 [Hbm2 Hbv2]]]].
  apply linear_load_inv in E3 as [Hi3 [Ho3 [Hw3 Hb3]]].
  apply batchnorm_load_inv in E4 as [Hn3 [Hbw3 [Hbb3 [Hbm3 Hbv3]]]].
  apply linear_load_inv in E5 as [Hi4 [Ho4 [Hw4 Hb4]]].
  cbn [Linear.new Linear.in_features Linear.out_features
       BatchNorm1d.new BatchNorm1d.num_features] in *.
  split.
  - intros Hx.
    destruct (linear_forward_ok a x) as [y1 [F1 L1]]; try congruence.
    destruct (batchnorm_forward_ok a0 y1) as [z1 [G1 M1]]; try congruence.
    destruct (linear_forward_ok a1 (relu z1)) as [y2 [F2 L2]];
      rewrite ?relu_length; try congruence.
    destruct (batchnorm_forward_ok a2 y2) as [z2 [G2 M2]]; try congruence.
    destruct (linear_forward_ok a3 (relu z2)) as [y3 [F3 L3]];
      rewrite ?relu_length; try congruence.
    destruct (batchnorm_forward_ok a4 y3) as [z3 [G3 M3]]; try congruence.
    destruct (linear_forward_ok a5 (relu z3)) as [y4 [F4 L4]];
      rewrite ?relu_length; try congruence.
    rewrite Ho4 in L4.
    destruct y4 as [| o [| o' y4]]; try discriminate.
    exists (sigmoid o).
    assert (Hf : BehavioralAuthNN.forward
                   (BehavioralAuthNN.mk a a0 a1 a2 a3 a4 a5) x = Ok [sigmoid o]).
    { unfold BehavioralAuthNN.forward.
      cbn [BehavioralAuthNN.fc1 BehavioralAuthNN.bn1 BehavioralAuthNN.fc2
           BehavioralAuthNN.bn2 BehavioralAuthNN.fc3 BehavioralAuthNN.bn3
           BehavioralAuthNN.fc_out].
      rewrite F1. cbn [mbind result_bind]. rewrite G1. cbn [mbind result_bind].
      rewrite F2. cbn [mbind result_bind]. rewrite G2. cbn [mbind result_bind].
      rewrite F3. cbn [mbind result_bind]. rewrite G3. cbn [mbind result_bind].
      rewrite F4. reflexivity. }
    pose proof (sigmoid_range o) as Hs.
    split; [exact Hf |]. split; [exact Hs |].
    split; [unfold predict_confidence; rewrite Hf; reflexivity | lra].
  - intros Hx.
    assert (Hf : BehavioralAuthNN.forward
                   (BehavioralAuthNN.mk a a0 a1 a2 a3 a4 a5) x = Raise RuntimeError).
    { apply forward_mismatch. cbn [BehavioralAuthNN.fc1]. congruence. }
    split; [exact Hf |]. unfold predict_confidence. rewrite Hf. reflexivity.
Qed.

Lemma load_zero_state_7 :
  BehavioralAuthNN.load_state_dict
    (BehavioralAuthNN.new 7 (128, 64, 32)%nat) (zero_state 7)
  = Ok (constant_model 0).
Proof. reflexivity. Qed.

Lemma loaded_network_total_on_its_width_witness :
  BehavioralAuthNN.load_state_dict
    (BehavioralAuthNN.new 7 (128, 64, 32)%nat) (zero_state 7)
  = Ok (constant_model 0) /\
  (length (vector_of example_features) = 7%nat ->
   exists s,
     BehavioralAuthNN.forward (constant_model 0) (vector_of example_features)
       = Ok [s] /\ 0 < s < 1 /\
     predict_confidence (constant_model 0) (vector_of example_features)
       = Ok [s * 100] /\ 0 < s * 100 < 100).
Proof.
  split; [exact load_zero_state_7 |].
  exact (proj1 (loaded_network_total_on_its_width 7 128 64 32 (zero_state 7)
                  (constant_model 0) (vector_of example_features)
                  load_zero_state_7)).
Defined.

(** ** The ensemble *)

Lemma sigmoid_ge_half (a : R) : 0 <= a -> 1 / 2 <= sigmoid a < 1.
Proof.
  intros Ha. split; [| apply sigmoid_range].
  unfold sigmoid. pose proof (exp_pos (- a)) as Hpos.
  assert (Hle : exp (- a) <= 1).
  { destruct (Req_dec a 0) as [-> | Hne].
    - rewrite Ropp_0, exp_0. lra.
    - rewrite <- exp_0. left. apply exp_increasing. lra. }
  apply (Rmult_le_reg_r (2 * (1 + exp (- a)))); [lra |].
  replace (1 / (1 + exp (- a)) * (2 * (1 + exp (- a)))) with 2 by (field; lra).
  lra.
Qed.

(** With an anomaly weight [w] between 0 and 1, [EnsembleModel.forward]
    never raises the confidence and always lowers it by at least the
    fraction [w/2], even when the reconstruction is perfect (anomaly 0),
    and by less than the fraction [w]. *)
Theorem ensemble_always_lowers_confidence
    (self : EnsembleModel.t) (x adjusted anomaly : list R) :
  0 <= EnsembleModel.anomaly_weight self <= 1 ->
  EnsembleModel.forward self x = Ok (adjusted, anomaly) ->
  exists confidence,
    BehavioralAuthNN.forward (EnsembleModel.auth_model self) x = Ok confidence /\
    BehavioralAnomalyDetector.anomaly_score (EnsembleModel.anomaly_model self) x
      = Ok anomaly /\
    forall (i : nat) (c' : R),
      adjusted !! i = Some c' ->
      exists c a,
        confidence !! i = Some c /\ anomaly !! i = Some a /\
        0 < c < 1 /\ 0 <= a /\
        c' = c * (1 - EnsembleModel.anomaly_weight self * sigmoid a) /\
        c * (1 - EnsembleModel.anomaly_weight self) <= c'
          <= c * (1 - EnsembleModel.anomaly_weight self / 2).
Proof.
  intros Hw H. unfold EnsembleModel.forward in H.
  destruct (BehavioralAuthNN.forward (EnsembleModel.auth_model self) x)
    as [conf | err] eqn:Hc; cbn [mbind result_bind] in H; [| discriminate].
  destruct (BehavioralAnomalyDetector.anomaly_score
              (EnsembleModel.anomaly_model self) x)
    as [anom | err] eqn:Ha; cbn [mbind result_bind] in H; [| discriminate].
  injection H as <- <-.
  exists conf. split; [reflexivity |]. split; [reflexivity |].
  intros i c' Hi.
  apply lookup_zip_with_Some in Hi as [c [a [-> [Hci Hai]]]].
  exists c, a. split; [exact Hci |]. split; [exact Hai |].
  assert (Hcr : 0 < c < 1).
  { apply forward_inv in Hc as [_ [z ->]].
    apply list_lookup_fmap_Some in Hci as [z0 [-> _]]. apply sigmoid_range. }
  assert (Han : 0 <= a).
  { pose proof (anomaly_score_nonneg _ _ _ Ha) as Hall.
    rewrite Forall_forall in Hall. apply Hall.
    eapply list_elem_of_lookup_2, Hai. }
  pose proof (sigmoid_ge_half a Han) as Hs.
  split; [exact Hcr |]. split; [exact Han |]. split; [reflexivity |].
  set (w := EnsembleModel.anomaly_weight self) in *.
  assert (Hcw : 0 <= c * w) by (apply Rmult_le_pos; lra).
  assert (H1 : 0 <= c * w * (1 - sigmoid a)) by (apply Rmult_le_pos; lra).
  assert (H2 : 0 <= c * w * (sigmoid a - 1 / 2)) by (apply Rmult_le_pos; lra).
  lra.
Qed.

Lemma ensemble_always_lowers_confidence_witness :
  0 <= EnsembleModel.anomaly_weight example_ensemble <= 1 /\
  exists adjusted anomaly,
    EnsembleModel.forward example_ensemble (vector_of example_features)
      = Ok (adjusted, anomaly) /\
    exists confidence,
      BehavioralAuthNN.forward (EnsembleModel.auth_model example_ensemble)
        (vector_of example_features) = Ok confidence /\
      length adjusted = 1%nat.
Proof.
  split; [cbn; lra |].
  destruct (detector_new_anomaly (vector_of example_features) eq_refl) as [a Ha].
  assert (Hf : EnsembleModel.forward example_ensemble (vector_of example_features)
               = Ok ([sigmoid 0 * (1 - 3 / 10 * sigmoid a)], [a])).
  { unfold EnsembleModel.forward, example_ensemble.
    cbn [EnsembleModel.auth_model EnsembleModel.anomaly_model
         EnsembleModel.anomaly_weight].
    rewrite constant_model_forward by reflexivity. cbn [mbind result_bind].
    rewrite Ha. reflexivity. }
  do 2 eexists. split; [exact Hf |].
  destruct (ensemble_always_lowers_confidence example_ensemble _ _ _
              ltac:(cbn; lra) Hf) as [conf [Hc _]].
  exists conf. split; [exact Hc | reflexivity].
Defined.

(** ** The models [create_model] builds *)

Lemma detector_default_rejects (x : list R) :
  length x = 7%nat ->
  BehavioralAnomalyDetector.anomaly_score (BehavioralAnomalyDetector_new 6 3) x
  = Raise RuntimeError.
Proof.
  intros Hx. unfold BehavioralAnomalyDetector.anomaly_score,
    BehavioralAnomalyDetector.forward, BehavioralAnomalyDetector.sequential,
    BehavioralAnomalyDetector_new.
  cbn [BehavioralAnomalyDetector.encoder].
  rewrite linear_forward_mismatch; [reflexivity |].
  cbn. rewrite Hx. discriminate.
Qed.

Lemma auth_default_rejects (x : list R) :
  length x = 7%nat ->
  BehavioralAuthNN.forward
    (BehavioralAuthNN.new BehavioralAuthNN.default_input_dim
       BehavioralAuthNN.default_hidden_dims) x
  = Raise RuntimeError.
Proof. intros Hx. apply forward_mismatch. cbn. rewrite Hx. discriminate. Qed.

(** [create_model] without pretrained weights builds a model exactly for
    the types "auth", "anomaly" and "ensemble" and raises [ValueError] for
    any other; each model it builds takes 6 inputs, so it raises on the
    7-entry vector the pipeline builds from any raw feature map. *)
Theorem create_model_defaults_reject_feature_vector
    (model_type : string) (features : gmap string R) :
  match create_model model_type None with
  | Ok (AuthModule m) =>
      model_type = "auth" /\
      BehavioralAuthNN.forward m (vector_of features) = Raise RuntimeError
  | Ok (AnomalyModule d) =>
      model_type = "anomaly" /\
      BehavioralAnomalyDetector.anomaly_score d (vector_of features)
        = Raise RuntimeError
  | Ok (EnsembleModule m) =>
      model_type = "ensemble" /\
      EnsembleModel.forward m (vector_of features) = Raise RuntimeError
  | Raise err =>
      err = ValueError /\
      model_type <> "auth" /\ model_type <> "anomaly" /\ model_type <> "ensemble"
  end.
Proof.
  unfold create_model.
  destruct (String.eqb_spec model_type "auth") as [-> | Hauth].
  { cbn [mbind result_bind]. split; [reflexivity |].
    apply auth_default_rejects, vector_of_length. }
  destruct (String.eqb_spec model_type "anomaly") as [-> | Hanom].
  { cbn [mbind result_bind]. split; [reflexivity |].
    apply detector_default_rejects, vector_of_length. }
  destruct (String.eqb_spec model_type "ensemble") as [-> | Hens].
  { cbn [mbind result_bind]. split; [reflexivity |].
    unfold EnsembleModel.forward. cbn [EnsembleModel.auth_model].
    rewrite auth_default_rejects by apply vector_of_length. reflexivity. }
  cbn [mbind result_bind]. auto.
Qed.

(** ** Batches of raw feature maps *)

(** [batch_process] returns on every list of raw feature maps, with one
    row of 5 clipped values per map, in order: the first five entries of
    the vector [predict] builds for that map. *)
Theorem batch_process_rows (features_list : list (gmap string R)) :
  exists rows,
    batch_process features_list = Ok rows /\
    length rows = length features_list /\
    rows = map (fun f => take 5 (vector_of f)) features_list /\
    Forall (fun row => length row = 5%nat /\ in_clip_range row) rows.
Proof.
  exists (map (fun f => take 5 (vector_of f)) features_list).
  split.
  { unfold batch_process. apply mapM_total. intros f.
    apply process_features_unfold. }
  split; [apply length_map |]. split; [reflexivity |].
  apply Forall_forall. intros row Hrow.
  apply list_elem_of_In, in_map_iff in Hrow as [f [<- _]].
  split; [reflexivity |].
  unfold in_clip_range, vector_of, clipped. cbn [take].
  do 5 eexists. split; [reflexivity |].
  repeat split; apply np_clip_bounds; lra.
Qed.

(** ** Training features and inference features *)

Lemma features_of_row_vector (a b c d h : R) :
  vector_of (features_of_row [a; b; c; d; h]) =
  [ np_clip a 10 200; np_clip b 20 500; np_clip c 20 400; np_clip d 0 50;
    np_clip h 0 23;
    np_clip a 10 200 / (np_clip d 0 50 + 1);
    np_clip b 20 500 / (np_clip c 20 400 + 1) ].
Proof. reflexivity. Qed.

Lemma add_derived_row (a b c d h : R) (X : list (list R)) (Y : list (list R)) :
  add_derived_features X = Ok Y ->
  add_derived_features ([a; b; c; d; h] :: X)
  = Ok ([a; b; c; d; h; a / (d + 1); b / (c + 1)] :: Y).
Proof.
  unfold add_derived_features. intros H.
  match goal with
  | |- mapM ?f (?r :: ?l) = _ =>
      change (mapM f (r :: l)) with (y ← f r; ys ← mapM f l; Ok (y :: ys))
  end.
  rewrite H. reflexivity.
Qed.

(** On rows whose five values lie within the clipping bounds, the training
    script's [add_derived_features] builds exactly the vectors the engine
    builds at inference time; a row with a typing speed above 200 is kept
    as it is by the training script but clipped by the engine, so the two
    differ. *)
Theorem training_features_match_inference (X : list (list R)) :
  Forall in_clip_range X ->
  add_derived_features X = Ok (map (fun row => vector_of (features_of_row row)) X) /\
  forall a b c d h,
    200 < a ->
    exists v,
      add_derived_features [[a; b; c; d; h]] = Ok [v] /\
      v !! 0%nat = Some a /\
      vector_of (features_of_row [a; b; c; d; h]) !! 0%nat = Some 200 /\
      v <> vector_of (features_of_row [a; b; c; d; h]).
Proof.
  intros Hall. split.
  - induction Hall as [| row X Hrow _ IH]; [reflexivity |].
    destruct Hrow as [a [b [c [d [h [-> [Ha [Hb [Hc [Hd Hh]]]]]]]]]].
    rewrite (add_derived_row a b c d h X _ IH). cbn [map].
    rewrite features_of_row_vector.
    rewrite !np_clip_inside by lra. reflexivity.
  - intros a b c d h Ha. eexists. split; [reflexivity |].
    split; [reflexivity |].
    rewrite features_of_row_vector, (np_clip_above a 10 200) by lra.
    split; [reflexivity |]. intros Heq. injection Heq as Heq _. lra.
Qed.

Lemma training_features_match_inference_witness :
  Forall in_clip_range [[65; 120; 85; 3; 14]; [70; 115; 90; 5; 16]] /\
  add_derived_features [[65; 120; 85; 3; 14]; [70; 115; 90; 5; 16]]
  = Ok (map (fun row => vector_of (features_of_row row))
          [[65; 120; 85; 3; 14]; [70; 115; 90; 5; 16]]).
Proof.
  assert (H : Forall in_clip_range [[65; 120; 85; 3; 14]; [70; 115; 90; 5; 16]]).
  { repeat constructor; unfold in_clip_range; do 5 eexists;
      (split; [reflexivity | lra]). }
  split; [exact H |].
  exact (proj1 (training_features_match_inference _ H)).
Defined.

(** ** Temporal features *)

Lemma foldl_Rmin_le (l : list R) (a : R) :
  foldl Rmin a l <= a /\ Forall (fun x => foldl Rmin a l <= x) l.
Proof.
  revert a. induction l as [| x l IH]; intros a; cbn [foldl].
  - split; [lra | constructor].
  - destruct (IH (Rmin a x)) as [Hm Hall].
    pose proof (Rmin_l a x). pose proof (Rmin_r a x).
    split; [lra |]. constructor; [lra | exact Hall].
Qed.

Lemma foldl_Rmax_ge (l : list R) (a : R) :
  a <= foldl Rmax a l /\ Forall (fun x => x <= foldl Rmax a l) l.
Proof.
  revert a. induction l as [| x l IH]; intros a; cbn [foldl].
  - split; [lra | constructor].
  - destruct (IH (Rmax a x)) as [Hm Hall].
    pose proof (Rmax_l a x). pose proof (Rmax_r a x).
    split; [lra |]. constructor; [lra | exact Hall].
Qed.

Lemma Rsum_bounds (l : list R) (lo hi : R) :
  Forall (fun x => lo <= x <= hi) l ->
  lo * INR (length l) <= Rsum l <= hi * INR (length l).
Proof.
  induction 1 as [| x l Hx _ IH].
  - cbn. lra.
  - rewrite Rsum_cons. change (length (x :: l)) with (S (length l)).
    rewrite S_INR. lra.
Qed.

Lemma np_mean_bounds (l : list R) (lo hi : R) :
  l <> [] -> Forall (fun x => lo <= x <= hi) l -> lo <= np_mean l <= hi.
Proof.
  intros Hne Hall. pose proof (Rsum_bounds l lo hi Hall) as [Hl Hu].
  assert (Hn : 0 < INR (length l)).
  { destruct l; [contradiction |]. apply lt_0_INR. cbn. lia. }
  unfold np_mean. split.
  - apply (Rmult_le_reg_r (INR (length l))); [exact Hn |].
    unfold Rdiv. rewrite Rmult_assoc, Rinv_l by lra. lra.
  - apply (Rmult_le_reg_r (INR (length l))); [exact Hn |].
    unfold Rdiv. rewrite Rmult_assoc, Rinv_l by lra. lra.
Qed.

Lemma py_getitem_some (t : gmap string R) (key : string) (v : R) :
  t !! key = Some v -> py_getitem t key = Ok v.
Proof. intros H. unfold py_getitem. rewrite H. reflexivity. Qed.

Lemma py_getitem_none (t : gmap string R) (key : string) :
  t !! key = None -> py_getitem t key = Raise KeyError.
Proof. intros H. unfold py_getitem. rewrite H. reflexivity. Qed.

Lemma mapM_getitem_ok (key : string) (ts : list (gmap string R)) (vals : list R) :
  Forall2 (fun t v => t !! key = Some v) ts vals ->
  mapM (fun t => py_getitem t key) ts = Ok vals.
Proof.
  induction 1 as [| t v ts vals Htv _ IH]; [reflexivity |].
  change (mapM (fun t => py_getitem t key) (t :: ts))
    with (y ← py_getitem t key; ys ← mapM (fun t => py_getitem t key) ts;
          Ok (y :: ys)).
  rewrite (py_getitem_some _ _ _ Htv), IH. reflexivity.
Qed.

Lemma mapM_getitem_missing (key : string) (ts : list (gmap string R)) :
  Exists (fun t => t !! key = None) ts ->
  mapM (fun t => py_getitem t key) ts = Raise KeyError.
Proof.
  induction ts as [| t ts IH]; intros Hex; [inversion Hex |].
  change (mapM (fun t => py_getitem t key) (t :: ts))
    with (y ← py_getitem t key; ys ← mapM (fun t => py_getitem t key) ts;
          Ok (y :: ys)).
  destruct (t !! key) as [v |] eqn:Ht.
  - rewrite (py_getitem_some _ _ _ Ht). cbn [mbind result_bind].
    rewrite IH; [reflexivity |].
    inversion Hex as [? ? Hnone | ? ? Hrest]; subst; [congruence | exact Hrest].
  - rewrite (py_getitem_none _ _ Ht). reflexivity.
Qed.

(** [extract_temporal_features] returns the empty dictionary for fewer than
    two samples; with two or more it raises [KeyError] when a sample lacks
    the typing speed, and otherwise returns the statistics of the speeds,
    where the minimum and the maximum bound every speed and the mean, and
    the standard deviation is non-negative. *)
Theorem extract_temporal_features_cases (time_series : list (gmap string R)) :
  ((length time_series < 2)%nat ->
   TemporalFeatureExtractor.extract_temporal_features time_series = Ok ∅) /\
  ((2 <= length time_series)%nat ->
   Exists (fun t => t !! "typing_speed_wpm" = None) time_series ->
   TemporalFeatureExtractor.extract_temporal_features time_series
     = Raise KeyError) /\
  (forall speeds,
     (2 <= length time_series)%nat ->
     Forall2 (fun t v => t !! "typing_speed_wpm" = Some v) time_series speeds ->
     exists m lo hi,
       TemporalFeatureExtractor.extract_temporal_features time_series = Ok m /\
       m !! "speed_min" = Some lo /\
       m !! "speed_max" = Some hi /\
       m !! "speed_mean" = Some (np_mean speeds) /\
       m !! "speed_std" = Some (np_std speeds) /\
       m !! "speed_trend"
         = Some (TemporalFeatureExtractor._calculate_trend speeds) /\
       m !! "speed_cv"
         = Some (TemporalFeatureExtractor._coefficient_of_variation speeds) /\
       Forall (fun v => lo <= v <= hi) speeds /\
       lo <= np_mean speeds <= hi /\
       0 <= np_std speeds).
Proof.
  unfold TemporalFeatureExtractor.extract_temporal_features.
  split; [| split].
  - intros Hlt. apply Nat.ltb_lt in Hlt. rewrite Hlt. reflexivity.
  - intros Hge Hex. apply Nat.ltb_ge in Hge. rewrite Hge.
    rewrite (mapM_getitem_missing _ _ Hex). reflexivity.
  - intros speeds Hge Hall.
    pose proof (Forall2_length _ _ _ Hall) as Hlen.
    apply Nat.ltb_ge in Hge as Hge'. rewrite Hge'.
    rewrite (mapM_getitem_ok _ _ _ Hall). cbn [mbind result_bind].
    destruct speeds as [| v0 speeds]; [cbn in Hlen; lia |].
    cbn [np_min np_max mbind result_bind].
    destruct (foldl_Rmin_le speeds v0) as [Hmin0 Hmin].
    destruct (foldl_Rmax_ge speeds v0) as [Hmax0 Hmax].
    assert (Hb : Forall (fun v => foldl Rmin v0 speeds <= v
                                  <= foldl Rmax v0 speeds) (v0 :: speeds)).
    { constructor; [lra |].
      rewrite Forall_forall in Hmin, Hmax. apply Forall_forall.
      intros v Hv. split; [apply Hmin, Hv | apply Hmax, Hv]. }
    do 3 eexists. split; [reflexivity |].
    do 6 (split; [reflexivity |]).
    split; [exact Hb |].
    split; [apply np_mean_bounds; [discriminate | exact Hb] |].
    apply sqrt_pos.
Qed.

(** ** The trend of a series *)

Lemma Rsum_snoc (l : list R) (x : R) : Rsum (l ++ [x]) = Rsum l + x.
Proof.
  induction l as [| a l IH]; cbn [app].
  - cbn. ring.
  - rewrite !Rsum_cons, IH. ring.
Qed.

Lemma dot_snoc (u v : list R) (p q : R) :
  length u = length v -> dot (u ++ [p]) (v ++ [q]) = dot u v + p * q.
Proof.
  unfold dot. revert v. induction u as [| a u IH]; intros [| b v] Hl;
    try discriminate.
  - cbn. ring.
  - cbn [app zip_with]. rewrite !Rsum_cons, IH by (cbn in Hl; lia). ring.
Qed.

Lemma np_arange_S (n : nat) : np_arange (S n) = np_arange n ++ [INR n].
Proof. unfold np_arange. rewrite seq_S, map_app. reflexivity. Qed.

Lemma linear_series_S (a b : R) (n : nat) :
  linear_series a b (S n) = linear_series a b n ++ [a + b * INR n].
Proof. unfold linear_series. rewrite seq_S, map_app. reflexivity. Qed.

Lemma np_arange_length (n : nat) : length (np_arange n) = n.
Proof. unfold np_arange. rewrite length_map, length_seq. reflexivity. Qed.

Lemma linear_series_length (a b : R) (n : nat) :
  length (linear_series a b n) = n.
Proof. unfold linear_series. rewrite length_map, length_seq. reflexivity. Qed.

Lemma arange_sums (a b : R) (n : nat) :
  Rsum (np_arange n) = INR n * (INR n - 1) / 2 /\
  dot (np_arange n) (np_arange n) = (INR n - 1) * INR n * (2 * INR n - 1) / 6 /\
  Rsum (linear_series a b n) = a * INR n + b * Rsum (np_arange n) /\
  dot (np_arange n) (linear_series a b n)
    = a * Rsum (np_arange n) + b * dot (np_arange n) (np_arange n).
Proof.
  induction n as [| n [IH1 [IH2 [IH3 IH4]]]].
  - cbn. repeat split; lra.
  - rewrite np_arange_S, linear_series_S, !Rsum_snoc.
    rewrite !dot_snoc
      by (rewrite ?np_arange_length, ?linear_series_length; reflexivity).
    rewrite IH3, IH4, IH2, IH1, S_INR. repeat split; field.
Qed.

(** [_calculate_trend] is 0.0 on fewer than two values, and on an exactly
    linear series of two or more values it returns the step of the series,
    whatever its start. *)
Theorem trend_of_linear_series (a b : R) (n : nat) (short : list R) :
  (2 <= n)%nat ->
  TemporalFeatureExtractor._calculate_trend (linear_series a b n) = b /\
  ((length short < 2)%nat ->
   TemporalFeatureExtractor._calculate_trend short = 0).
Proof.
  intros Hn. split.
  - unfold TemporalFeatureExtractor._calculate_trend.
    rewrite linear_series_length.
    apply Nat.ltb_ge in Hn as Hn'. rewrite Hn'.
    unfold polyfit_slope. rewrite np_arange_length.
    destruct (arange_sums a b n) as [H1 [H2 [H3 H4]]].
    rewrite H3, H4, H2, H1.
    assert (Hr : 2 <= INR n) by (apply (le_INR 2); exact Hn).
    set (k := INR n) in *.
    set (D := k * ((k - 1) * k * (2 * k - 1) / 6)
              - k * (k - 1) / 2 * (k * (k - 1) / 2)).
    assert (HD : D = k * k * ((k - 1) * (k + 1)) / 12) by (unfold D; field).
    assert (Hk2 : 0 < k * k) by nra.
    assert (Hk3 : 0 < (k - 1) * (k + 1)) by nra.
    assert (Hpos : 0 < D).
    { rewrite HD. apply Rdiv_lt_0_compat; [| lra].
      apply Rmult_lt_0_compat; assumption. }
    match goal with
    | |- ?num / D = b => replace num with (b * D) by (unfold D; field)
    end.
    field. lra.
  - intros Hs. unfold TemporalFeatureExtractor._calculate_trend.
    apply Nat.ltb_lt in Hs. rewrite Hs. reflexivity.
Qed.

Lemma trend_of_linear_series_witness :
  (2 <= 5)%nat /\
  linear_series 10 10 5 =
    [10 + 10 * 0; 10 + 10 * 1; 10 + 10 * (1 + 1); 10 + 10 * (1 + 1 + 1);
     10 + 10 * (1 + 1 + 1 + 1)] /\
  TemporalFeatureExtractor._calculate_trend (linear_series 10 10 5) = 10.
Proof.
  split; [lia |]. split; [reflexivity |].
  exact (proj1 (trend_of_linear_series 10 10 5 [] ltac:(lia))).
Defined.

(** ** The coefficient of variation *)

Lemma Rsum_map_scale (k : R) (l : list R) :
  Rsum (map (Rmult k) l) = k * Rsum l.
Proof.
  induction l as [| x l IH]; cbn [map].
  - cbn. ring.
  - rewrite !Rsum_cons, IH. ring.
Qed.

Lemma np_mean_scale (k : R) (l : list R) :
  np_mean (map (Rmult k) l) = k * np_mean l.
Proof.
  unfold np_mean. rewrite Rsum_map_scale, length_map. unfold Rdiv. ring.
Qed.

Lemma np_mean_nonneg (l : list R) : Forall (fun x => 0 <= x) l -> 0 <= np_mean l.
Proof.
  intros Hnn. unfold np_mean. destruct l as [| x l].
  - cbn. unfold Rdiv. rewrite Rmult_0_l. lra.
  - apply Rle_mult_inv_pos; [apply Rsum_nonneg, Hnn |].
    apply lt_0_INR. cbn. lia.
Qed.

Lemma np_std_scale (k : R) (l : list R) :
  0 <= k -> np_std (map (Rmult k) l) = k * np_std l.
Proof.
  intros Hk. unfold np_std. rewrite np_mean_scale.
  set (m := np_mean l).
  assert (Hmap : map (fun x => (x - k * m) * (x - k * m)) (map (Rmult k) l)
                 = map (Rmult (k * k)) (map (fun x => (x - m) * (x - m)) l)).
  { rewrite !map_map. apply map_ext. intros x. ring. }
  rewrite Hmap, np_mean_scale.
  rewrite sqrt_mult_alt by nra. rewrite sqrt_square by exact Hk. reflexivity.
Qed.

Lemma Rsum_replicate (n : nat) (c : R) : Rsum (replicate n c) = INR n * c.
Proof.
  induction n as [| n IH].
  - cbn. ring.
  - change (replicate (S n) c) with (c :: replicate n c).
    rewrite Rsum_cons, IH, S_INR. ring.
Qed.

Lemma np_mean_replicate (n : nat) (c : R) :
  (1 <= n)%nat -> np_mean (replicate n c) = c.
Proof.
  intros Hn. unfold np_mean. rewrite Rsum_replicate, length_replicate.
  assert (0 < INR n) by (apply lt_0_INR; lia). field. lra.
Qed.

Lemma np_std_replicate (n : nat) (c : R) :
  (1 <= n)%nat -> np_std (replicate n c) = 0.
Proof.
  intros Hn. unfold np_std. rewrite (np_mean_replicate n c Hn).
  assert (Hmap : map (fun x => (x - c) * (x - c)) (replicate n c)
                 = replicate n 0).
  { clear Hn. induction n as [| n IH]; [reflexivity |].
    change (replicate (S n) c) with (c :: replicate n c). cbn [map].
    rewrite IH. change (replicate (S n) 0) with (0 :: replicate n 0).
    f_equal. ring. }
  rewrite Hmap, (np_mean_replicate n 0 Hn). apply sqrt_0.
Qed.

(** The coefficient of variation does not depend on the unit of the
    values: scaling them all by a positive factor leaves it unchanged; it
    is 0 on a constant series, also on the all-zero series, where the
    guard on a zero mean avoids the division. *)
Theorem coefficient_of_variation_scale_free
    (values : list R) (k : R) (n : nat) (c : R) :
  0 < k ->
  TemporalFeatureExtractor._coefficient_of_variation (map (Rmult k) values)
    = TemporalFeatureExtractor._coefficient_of_variation values /\
  ((1 <= n)%nat ->
   TemporalFeatureExtractor._coefficient_of_variation (replicate n c) = 0).
Proof.
  intros Hk. split.
  - unfold TemporalFeatureExtractor._coefficient_of_variation.
    rewrite np_mean_scale, np_std_scale by lra.
    destruct (Req_dec_T (np_mean values) 0) as [Hz | Hnz].
    + rewrite Hz, Rmult_0_r.
      destruct (Req_dec_T 0 0); [reflexivity | contradiction].
    + destruct (Req_dec_T (k * np_mean values) 0) as [Hkz | Hknz].
      * exfalso. apply Rmult_integral in Hkz as [? | ?]; [lra | contradiction].
      * field. split; [exact Hnz | lra].
  - intros Hn. unfold TemporalFeatureExtractor._coefficient_of_variation.
    rewrite (np_mean_replicate n c Hn), (np_std_replicate n c Hn).
    destruct (Req_dec_T c 0); [reflexivity |]. unfold Rdiv. ring.
Qed.

Lemma coefficient_of_variation_scale_free_witness :
  0 < 60 /\
  TemporalFeatureExtractor._coefficient_of_variation
    (map (Rmult 60) [65; 63; 67; 64])
  = TemporalFeatureExtractor._coefficient_of_variation [65; 63; 67; 64].
Proof.
  split; [lra |].
  exact (proj1 (coefficient_of_variation_scale_free [65; 63; 67; 64] 60 1 0
                  ltac:(lra))).
Defined.

(** ** The inference routes *)

Lemma response_new_ok (c : Z) imp version t :
  (0 <= c <= 100)%Z ->
  schema.PredictResponse_new c 0 imp version t
  = Ok (schema.mkPredictResponse c 0 imp version t).
Proof.
  intros [Hlo Hhi]. unfold schema.PredictResponse_new, Rleb.
  apply Z.leb_le in Hlo, Hhi. rewrite Hlo, Hhi.
  destruct (Rle_dec 0 0); [| lra]. destruct (Rle_dec 0 1); [| lra]. reflexivity.
Qed.

(** Without an anomaly detector the [try] block fails exactly when
    [predict] raises, and then leaves the engine as it was. *)
Lemma try_predict_cases (settings : Settings) (e : Engine)
    (request : schema.PredictRequest) (dt elapsed_ms : R) :
  anomaly_detector e = None ->
  (exists r e',
     predict e (request_features request) (request_history request) dt
       = Ok (r, e') /\
     try_predict settings e request dt elapsed_ms =
       (Ok (schema.mkPredictResponse (confidence_score r) 0
              (feature_importance r) (MODEL_VERSION settings)
              (py_round2 elapsed_ms)), e') /\
     anomaly_detector e' = None /\
     total_predictions (stats e') = (total_predictions (stats e) + 1)%Z) \/
  (exists err,
     predict e (request_features request) (request_history request) dt
       = Raise err /\
     try_predict settings e request dt elapsed_ms = (Raise err, e)).
Proof.
  intros Hnone. unfold try_predict.
  destruct (predict e (request_features request) (request_history request) dt)
    as [[r e'] | err] eqn:Hp.
  - left. exists r, e'. split; [reflexivity |].
    pose proof (predict_anomaly_zero _ _ _ _ _ _ Hnone Hp) as Ha.
    destruct (predict_state _ _ _ _ _ _ Hp) as [_ [_ [Had Hst]]].
    apply predict_inv in Hp as [s [Hs [Hc _]]].
    pose proof (final_confidence_range (request_features request)
                  (request_history request) s (score_range _ _ _ Hs)) as Hr.
    rewrite Ha, response_new_ok by lia.
    split; [reflexivity |]. split; [congruence |].
    rewrite Hst. reflexivity.
  - right. exists err. split; reflexivity.
Qed.

Lemma batch_loop_spec (settings : Settings)
    (requests : list (schema.PredictRequest * R * R)) :
  forall (e : Engine) (preds : list schema.PredictResponse) (s f : Z),
    anomaly_detector e = None ->
    exists preds' s' f' e',
      batch_loop settings e requests preds s f = (preds', s', f', e') /\
      length preds' = (length preds + length requests)%nat /\
      (s' + f' = s + f + Z.of_nat (length requests))%Z /\
      (s <= s')%Z /\ (f <= f')%Z /\
      anomaly_detector e' = None /\
      total_predictions (stats e') = (total_predictions (stats e) + (s' - s))%Z.
Proof.
  induction requests as [| [[req dt] el] requests IH]; intros e preds s f Hnone.
  - exists preds, s, f, e. cbn [batch_loop length].
    repeat split; try lia. exact Hnone.
  - cbn [batch_loop].
    destruct (try_predict_cases settings e req dt el Hnone)
      as [[r [e1 [_ [Ht [Hn1 Htot]]]]] | [err [_ Ht]]]; rewrite Ht.
    + destruct (IH e1 (preds ++ [schema.mkPredictResponse (confidence_score r) 0
                          (feature_importance r) (MODEL_VERSION settings)
                          (py_round2 el)]) (s + 1)%Z f Hn1)
        as [preds' [s' [f' [e' [Hl [Hlen [Hsum [Hs [Hf [Hn' Htot']]]]]]]]]].
      exists preds', s', f', e'. rewrite Hl. rewrite length_app in Hlen.
      cbn [length] in *. repeat split; try lia. exact Hn'.
    + destruct (IH e (preds ++ [error_response settings]) s (f + 1)%Z Hnone)
        as [preds' [s' [f' [e' [Hl [Hlen [Hsum [Hs [Hf [Hn' Htot']]]]]]]]]].
      exists preds', s', f', e'. rewrite Hl. rewrite length_app in Hlen.
      cbn [length] in *. repeat split; try lia. exact Hn'.
Qed.

(** [predict_batch] refuses a batch larger than [MAX_BATCH_SIZE] with
    status 400 and leaves the engine untouched; otherwise it always
    answers, with one entry per request, [total_count] the number of
    requests, and [successful_count + failed_count = total_count]; the
    engine's prediction counter grows by [successful_count]. *)
Theorem predict_batch_counts (settings : Settings) (engine : Engine)
    (requests : list (schema.PredictRequest * R * R)) :
  anomaly_detector engine = None ->
  ((MAX_BATCH_SIZE settings < Z.of_nat (length requests))%Z ->
   predict_batch settings (Some engine) requests
     = (HTTPException 400, Some engine)) /\
  ((Z.of_nat (length requests) <= MAX_BATCH_SIZE settings)%Z ->
   exists response engine',
     predict_batch settings (Some engine) requests
       = (Response response, Some engine') /\
     length (schema.predictions response) = length requests /\
     schema.total_count response = Z.of_nat (length requests) /\
     (schema.successful_count response + schema.failed_count response
      = schema.total_count response)%Z /\
     (0 <= schema.successful_count response)%Z /\
     (0 <= schema.failed_count response)%Z /\
     total_predictions (stats engine')
       = (total_predictions (stats engine) + schema.successful_count response)%Z).
Proof.
  intros Hnone. unfold predict_batch. split.
  - intros Hgt. apply Z.ltb_lt in Hgt. rewrite Hgt. reflexivity.
  - intros Hle. apply Z.ltb_ge in Hle. rewrite Hle.
    destruct (batch_loop_spec settings requests engine [] 0 0 Hnone)
      as [preds [s [f [e' [Hl [Hlen [Hsum [Hs [Hf [_ Htot]]]]]]]]]].
    rewrite Hl. do 2 eexists. split; [reflexivity |].
    cbn [schema.predictions schema.total_count schema.successful_count
         schema.failed_count length] in *.
    repeat split; lia.
Qed.
